(** * Data-vault validation: the discrepancy classifier of
      [data_vault_validator.py]

    A shallow embedding of the validator: the query engine behind
    [session.sql(q).collect()] is an arbitrary state machine, Python
    exceptions are an explicit outcome threaded together with the engine
    state, counts are unbounded integers ([Z]), and messages are strings
    built exactly as the f-strings of the source build them.

    Conventions of the embedding:
    - only what the validator computes is modelled; [print] lines are left
      out;
    - a result row is modelled by its integer cells ([COUNT] queries return
      one integer cell; the cells of a sampled row are payload);
    - [int(n * 0.01)], [int(n * 0.05)], [int(n * 0.10)], [int(n * 0.20)] are
      the truncated quotients [n * p / 100]; comparisons against
      [x * 0.1], [m / 10] and [0.95] are the exact rational comparisons
      (the doubles involved round to the same verdict for counts below
      10^13);
    - [str.lower], [str.upper] and [\d] act on ASCII. *)

From Stdlib Require Import ZArith List String Ascii Bool Lia DecimalString.
From Stdlib Require DecimalPos.
Import ListNotations.
Open Scope string_scope.
Open Scope Z_scope.

(* ===================================================================== *)
(** * Python string operations used by the validator *)
(* ===================================================================== *)

Module PyStr.

Definition is_upper (c : ascii) : bool := (Ascii.leb "A" c && Ascii.leb c "Z")%bool.
Definition is_lower (c : ascii) : bool := (Ascii.leb "a" c && Ascii.leb c "z")%bool.
Definition is_digit (c : ascii) : bool := (Ascii.leb "0" c && Ascii.leb c "9")%bool.

Definition lower_char (c : ascii) : ascii :=
  if is_upper c then ascii_of_nat (nat_of_ascii c + 32) else c.
Definition upper_char (c : ascii) : ascii :=
  if is_lower c then ascii_of_nat (nat_of_ascii c - 32) else c.

Fixpoint map_chars (f : ascii -> ascii) (s : string) : string :=
  match s with
  | EmptyString => EmptyString
  | String c t => String (f c) (map_chars f t)
  end.

(** [s.lower()] and [s.upper()]. *)
Definition lower : string -> string := map_chars lower_char.
Definition upper : string -> string := map_chars upper_char.

(** [s.startswith(p)]. *)
Definition startswith (p s : string) : bool := String.prefix p s.

(** [sub in s]. *)
Fixpoint contains (sub s : string) : bool :=
  (String.prefix sub s ||
   match s with
   | EmptyString => false
   | String _ t => contains sub t
   end)%bool.

Fixpoint rev_acc (s acc : string) : string :=
  match s with
  | EmptyString => acc
  | String c t => rev_acc t (String c acc)
  end.
Definition rev (s : string) : string := rev_acc s EmptyString.

(** [s.endswith(p)]. *)
Definition endswith (p s : string) : bool := String.prefix (rev p) (rev s).

(** [s.split(sep)] for a one-character separator: [cur] holds the field
    being read, reversed. *)
Fixpoint split_acc (sep : ascii) (s cur : string) : list string :=
  match s with
  | EmptyString => [rev cur]
  | String c t =>
      if Ascii.eqb c sep then rev cur :: split_acc sep t EmptyString
      else split_acc sep t (String c cur)
  end.
Definition split (sep : ascii) (s : string) : list string :=
  split_acc sep s EmptyString.

(** [s.split('.')[-1]]. *)
Definition last_component (s : string) : string :=
  List.last (split "." s) EmptyString.

(** [sep.join(parts)]. *)
Definition join (sep : string) (parts : list string) : string :=
  String.concat sep parts.

(** [str(n)] and [{n}] in an f-string, for an integer. *)
Definition of_Z (n : Z) : string := NilZero.string_of_int (Z.to_int n).

(** [x in names] for a list of strings. *)
Definition mem (x : string) (names : list string) : bool :=
  existsb (String.eqb x) names.

(** A non-empty string is truthy. *)
Definition nonempty (s : string) : bool :=
  match s with EmptyString => false | String _ _ => true end.

(** The longest prefix of digits and what follows it: the greedy [\d+]. *)
Fixpoint span_digits (s : string) : string * string :=
  match s with
  | EmptyString => (EmptyString, EmptyString)
  | String c t =>
      if is_digit c then
        let '(ds, rest) := span_digits t in (String c ds, rest)
      else (EmptyString, s)
  end.

Definition digit_value (c : ascii) : Z := Z.of_nat (nat_of_ascii c) - 48.

(** [int(ds)] for a string of digits. *)
Definition int_of_digits (ds : string) : Z :=
  let fix go (s : string) (acc : Z) : Z :=
    match s with
    | EmptyString => acc
    | String c t => go t (10 * acc + digit_value c)
    end in
  go ds 0.

Fixpoint skip (n : nat) (s : string) : string :=
  match n, s with
  | O, _ => s
  | S _, EmptyString => EmptyString
  | S k, String _ t => skip k t
  end.

(** The pattern [found only (\d+) (missing|truly missing) records] tried
    at the start of [s]; the result is [int(match.group(1))].  The run of
    digits is followed by a space in the pattern, so only the longest run
    can match. *)
Definition match_found_only (s : string) : option Z :=
  if String.prefix "found only " s then
    let '(ds, rest) := span_digits (skip 11 s) in
    if (nonempty ds &&
        (String.prefix " missing records" rest ||
         String.prefix " truly missing records" rest))%bool
    then Some (int_of_digits ds) else None
  else None.

(** [re.search(r'found only (\d+) (missing|truly missing) records', s)]:
    the leftmost match. *)
Fixpoint search_found_only (s : string) : option Z :=
  match match_found_only s with
  | Some n => Some n
  | None =>
      match s with
      | EmptyString => None
      | String _ t => search_found_only t
      end
  end.

(** The newline of a triple-quoted f-string. *)
Definition nl : string := String (ascii_of_nat 10) EmptyString.

End PyStr.

(** [int(ds)] with the value read so far: the loop inside
    [PyStr.int_of_digits], named to reason about it. *)
Fixpoint digits_from (s : string) (acc : Z) : Z :=
  match s with
  | EmptyString => acc
  | String c t => digits_from t (10 * acc + PyStr.digit_value c)
  end.

(* ===================================================================== *)
(** * Data model *)
(* ===================================================================== *)

(** A row of a result set, by its integer cells. *)
Definition row := list Z.

(** What [session.sql(q).collect()] does: raise, or return rows. *)
Inductive sql_result :=
| Raises (e : string)
| Collect (rows : list row).

(** One entry of [table_configs]: a dict whose keys may be absent. *)
Record config := {
  source_table : option string;
  hub_table : option string;
  hub_tables : option (list string);
  cur_satellite_table : option string;
  bizview_table : option string;
  source_key : option string;
  hub_key : option string;
  satellite_hash_key : option string;
  bizview_key : option string;
  deleted_column : option string;
  custom_except_query : option string
}.

(** [config.get(k, d)]. *)
Definition get_default (d : string) (v : option string) : string :=
  match v with Some s => s | None => d end.

(** The hub tables of a mapping as a list, and as the text shown for
    them: [hub_tables] when the key is present, the single [hub_table]
    (or the default [d]) otherwise.  Lines 188-193 and 552-557. *)
Definition hub_table_list (d : string) (cfg : config) : list string :=
  match hub_tables cfg with
  | Some hs => hs
  | None => [get_default d (hub_table cfg)]
  end.

Definition hub_table_label (d : string) (cfg : config) : string :=
  match hub_tables cfg with
  | Some hs => PyStr.join ", " hs
  | None => get_default d (hub_table cfg)
  end.

(** Truthiness of [config.get(k)]. *)
Definition truthy (v : option string) : bool :=
  match v with Some s => PyStr.nonempty s | None => false end.

(** [{v}] in an f-string for [config.get(k)]. *)
Definition py_str (v : option string) : string :=
  match v with Some s => s | None => "None" end.

(** The [__metadata] dict attached to sample entries. *)
Record metadata := {
  m_source_table : string;
  m_hub_table : string;
  m_satellite_table : string;
  m_bizview_table : string
}.

(** An entry of the sample list returned by [extract_missing_records]. *)
Inductive sample_entry :=
| DifferenceRow (fields : row) (meta : metadata)
| SummaryNote (note validation : string) (meta : metadata)
| SampleError (error : string) (meta : metadata).

(** [safe_json_conversion(row)]: the cells are integers and go through
    unchanged. *)
Definition safe_json_conversion (r : row) : row := r.

Definition is_difference_row (e : sample_entry) : bool :=
  match e with DifferenceRow _ _ => true | _ => false end.

(* ===================================================================== *)
(** * The classification arithmetic of the validator *)
(* ===================================================================== *)

(** [int(n * p/100)] for the percentages the source uses (1, 5, 10, 20):
    [int] truncates towards zero. *)
Definition percent_of (n p : Z) : Z := Z.quot (n * p) 100.

(** [extract_missing_records], lines 249-256: the counts are both
    positive, close to each other, and the difference count is more than
    twice their gap. *)
Definition representation_heuristic (source_count vault_count missing_count : Z) : bool :=
  ((0 <? source_count) && (0 <? vault_count) &&
   (let count_diff := Z.abs (source_count - vault_count) in
    let threshold := Z.max 5 (percent_of source_count 1) in
    (count_diff <? threshold) && (count_diff * 2 <? missing_count)))%bool.

(** Line 280: [simplified_count == 0 or simplified_count < missing_count / 10]. *)
Definition key_check_confirms (simplified_count missing_count : Z) : bool :=
  ((simplified_count =? 0) || (10 * simplified_count <? missing_count))%bool.

(** The test ["representation differences" in validation_message.lower()]. *)
Definition mentions_representation (validation_message : string) : bool :=
  PyStr.contains "representation differences" (PyStr.lower validation_message).

(** The test ["key-only validation" in validation_message.lower()]. *)
Definition mentions_key_only (validation_message : string) : bool :=
  PyStr.contains "key-only validation" (PyStr.lower validation_message).

(** [main], lines 634-652: the first split of the extractor's count into
    [(source_hub_differences, data_representation_differences)]. *)
Definition classify_split (raw : Z) (validation_message : string) : Z * Z :=
  let source_hub_differences := raw in
  let data_representation_differences := source_hub_differences in
  if mentions_representation validation_message then
    (0, source_hub_differences)
  else if mentions_key_only validation_message then
    match PyStr.search_found_only validation_message with
    | Some true_missing =>
        (true_missing, source_hub_differences - true_missing)
    | None => (source_hub_differences, data_representation_differences)
    end
  else (source_hub_differences, data_representation_differences).

(** Line 657 (and again lines 685-686): the vault-side reference is the
    satellite count when it is positive, the hub count otherwise. *)
Definition vault_reference (sat_count hub_count : Z) : Z :=
  if 0 <? sat_count then sat_count else hub_count.

Definition expected_diff (non_deleted_count sat_count hub_count : Z) : Z :=
  Z.abs (non_deleted_count - vault_reference sat_count hub_count).

(** Line 658: [abs(source_hub_differences - expected_diff) >
    max(5, expected_diff * 0.1)]. *)
Definition beyond_variance (source_hub_differences ed : Z) : bool :=
  let gap := Z.abs (source_hub_differences - ed) in
  ((5 <? gap) && (ed <? 10 * gap))%bool.

(** [main], lines 654-668: the cross-check against the count difference.
    Takes and returns [(source_hub_differences,
    data_representation_differences, validation_message)]. *)
Definition cross_check (source_hub_differences data_representation_differences : Z)
    (validation_message : string) (non_deleted_count sat_count hub_count : Z)
    : Z * Z * string :=
  if 0 <? source_hub_differences then
    let ed := expected_diff non_deleted_count sat_count hub_count in
    if beyond_variance source_hub_differences ed then
      let validation_message :=
        validation_message ++ " Count comparison shows expected diff of "
          ++ PyStr.of_Z ed ++ " vs. reported "
          ++ PyStr.of_Z source_hub_differences ++ "." in
      if ((ed <? 5) && (10 <? source_hub_differences))%bool then
        (0, source_hub_differences,
         validation_message ++
         " Based on count comparison, there appears to be no actual data loss, only representation differences.")
      else
        (source_hub_differences, data_representation_differences, validation_message)
    else
      (source_hub_differences, data_representation_differences, validation_message)
  else
    (source_hub_differences, data_representation_differences, validation_message).

(** The whole classifier of [main], lines 634-668. *)
Definition classify (raw : Z) (validation_message : string)
    (non_deleted_count sat_count hub_count : Z) : Z * Z * string :=
  let '(source_hub_differences, data_representation_differences) :=
    classify_split raw validation_message in
  cross_check source_hub_differences data_representation_differences
    validation_message non_deleted_count sat_count hub_count.

(* ===================================================================== *)
(** * Outcomes: a value or a raised exception *)
(* ===================================================================== *)

Inductive outcome (A : Type) :=
| Ret (a : A)
| Exn (e : string).
Arguments Ret {A} a.
Arguments Exn {A} e.

(* ===================================================================== *)
(** * Bizview reconciliation ([main], lines 692-839) *)
(* ===================================================================== *)

Inductive bizview_kind := Dimension | Fact | UnknownKind.
Inductive reference_kind := RefHub | RefSource | RefSatellite.
Inductive direction := BizviewSmaller | BizviewLarger.

Definition reference_kind_name (k : reference_kind) : string :=
  match k with
  | RefHub => "hub"
  | RefSource => "source (non-deleted)"
  | RefSatellite => "satellite"
  end.

(** The [comparison] dict stored under [bizview.missing_records]; the two
    fields that only format a percentage for display are left out. *)
Record bizview_comparison := {
  bc_missing : Z;
  bc_kind : bizview_kind;
  bc_is_direct_mapping : bool;
  bc_reference_kind : reference_kind;
  bc_reference_count : Z;
  bc_bizview_count : Z;
  bc_direction : direction;
  bc_raw_difference : Z;
  bc_threshold : Z;
  bc_explanation : string
}.

(** Lines 704-712. *)
Definition bizview_name_of (bizview_table : string) : string :=
  PyStr.lower (PyStr.last_component bizview_table).

Definition bizview_kind_of (bizview_name : string) : bizview_kind :=
  if (PyStr.startswith "dim_" bizview_name || PyStr.startswith "dimension_" bizview_name)%bool
  then Dimension
  else if (PyStr.startswith "fact_" bizview_name || PyStr.startswith "bridge_" bizview_name
           || PyStr.startswith "link_" bizview_name)%bool
  then Fact
  else UnknownKind.

Definition is_direct (k : bizview_kind) : bool :=
  match k with Dimension => true | _ => false end.

(** Lines 717-735. *)
Definition bizview_reference (k : bizview_kind) (satellite_table : string)
    (hub_count sat_count non_deleted_count : Z) : Z * reference_kind :=
  if is_direct k then (hub_count, RefHub)
  else
    match k with
    | Fact =>
        if 0 <? non_deleted_count then (non_deleted_count, RefSource)
        else if ((0 <? sat_count) && PyStr.nonempty satellite_table)%bool
        then (sat_count, RefSatellite)
        else (hub_count, RefHub)
    | _ =>
        if ((0 <? sat_count) && PyStr.nonempty satellite_table)%bool
        then (sat_count, RefSatellite)
        else (hub_count, RefHub)
    end.

(** Lines 740-754, with the percentage as an integer. *)
Definition percentage_threshold (k : bizview_kind) : Z :=
  match k with Dimension => 5 | Fact => 20 | UnknownKind => 10 end.

Definition bizview_threshold (k : bizview_kind) (reference_count : Z) : Z :=
  Z.max 5 (percent_of reference_count (percentage_threshold k)).

(** Line 786: [raw_diff / reference_count < 0.95]; the division raises
    [ZeroDivisionError] on a zero reference count. *)
Definition ratio_below_95 (raw_diff reference_count : Z) : outcome bool :=
  if reference_count =? 0 then Exn "division by zero"
  else if 0 <? reference_count then Ret (20 * raw_diff <? 19 * reference_count)
  else Ret (19 * reference_count <? 20 * raw_diff).

(** Lines 781-784: the names for which filtering is expected. *)
Definition filtering_pattern (bizview_name : string) : bool :=
  (PyStr.startswith "fact_" bizview_name
   || PyStr.endswith "_current" bizview_name
   || PyStr.endswith "_active" bizview_name)%bool.

Definition bizview_explanation (missing raw_diff : Z) (d : direction)
    (r : reference_kind) : string :=
  if missing =? 0 then
    "No significant difference detected between vault and bizview counts."
  else
    match d with
    | BizviewSmaller =>
        "Bizview has " ++ PyStr.of_Z raw_diff ++ " fewer records than the "
          ++ reference_kind_name r
          ++ ". This may be due to business filtering or a data loss issue."
    | BizviewLarger =>
        "Bizview has " ++ PyStr.of_Z raw_diff ++ " more records than the "
          ++ reference_kind_name r
          ++ ". This may be due to calculated fields, duplicates, or other business logic."
    end.

(** The body of the [try] at lines 694-829: [Exn] is what the [except] at
    line 831 catches. *)
Definition bizview_reconcile (bizview_table satellite_table : string)
    (hub_count sat_count non_deleted_count bizview_count : Z)
    : outcome bizview_comparison :=
  let bizview_name := bizview_name_of bizview_table in
  let k := bizview_kind_of bizview_name in
  let '(reference_count, reference_type) :=
    bizview_reference k satellite_table hub_count sat_count non_deleted_count in
  let threshold := bizview_threshold k reference_count in
  let '(raw_diff, comparison) :=
    if bizview_count <=? reference_count
    then (reference_count - bizview_count, BizviewSmaller)
    else (bizview_count - reference_count, BizviewLarger) in
  let finish (missing : Z) : outcome bizview_comparison :=
    Ret {| bc_missing := missing;
           bc_kind := k;
           bc_is_direct_mapping := is_direct k;
           bc_reference_kind := reference_type;
           bc_reference_count := reference_count;
           bc_bizview_count := bizview_count;
           bc_direction := comparison;
           bc_raw_difference := raw_diff;
           bc_threshold := threshold;
           bc_explanation :=
             bizview_explanation missing raw_diff comparison reference_type |} in
  if ((bizview_count =? 0) && (0 <? reference_count))%bool then
    finish reference_count
  else if threshold <? raw_diff then
    match
      (match comparison with
       | BizviewSmaller =>
           if filtering_pattern bizview_name then
             ratio_below_95 raw_diff reference_count
           else Ret false
       | BizviewLarger => Ret false
       end)
    with
    | Exn e => Exn e
    | Ret skip_reporting => if skip_reporting then finish 0 else finish raw_diff
    end
  else finish 0.

(* ===================================================================== *)
(** * Computations against the query engine *)
(* ===================================================================== *)

(** A computation runs from an engine state and ends in a value or a
    raised exception, together with the state the engine is left in: what
    a query changed stays changed when a later step raises. *)
Definition M (World A : Type) : Type := World -> outcome A * World.

Definition ret {World A : Type} (a : A) : M World A :=
  fun w => (Ret a, w).

Definition raise {World A : Type} (e : string) : M World A :=
  fun w => (Exn e, w).

Definition bind {World A B : Type} (m : M World A) (k : A -> M World B) : M World B :=
  fun w =>
    match m w with
    | (Ret a, w') => k a w'
    | (Exn e, w') => (Exn e, w')
    end.

(** [try: m except Exception as e: h e]. *)
Definition try_except {World A : Type} (m : M World A) (h : string -> M World A)
    : M World A :=
  fun w =>
    match m w with
    | (Ret a, w') => (Ret a, w')
    | (Exn e, w') => h e w'
    end.

(** [m] ends in a value, whatever the state it starts from. *)
Definition returns {World A : Type} (m : M World A) : Prop :=
  forall w, exists a w', m w = (Ret a, w').

Declare Scope py_scope.
Delimit Scope py_scope with py.
Notation "x <- m ;; k" := (bind m (fun x => k))
  (at level 61, m at next level, right associativity) : py_scope.
Notation "' pat <- m ;; k" := (bind m (fun x => match x with pat => k end))
  (at level 61, pat pattern, m at next level, right associativity) : py_scope.
Open Scope py_scope.

(** Early [return] out of a [try] block, or falling through with the
    values the rest of the function uses. *)
Inductive flow (A B : Type) :=
| Return (a : A)
| Continue (b : B).
Arguments Return {A B} a.
Arguments Continue {A B} b.

(** [result[0][0] if result else 0]; indexing an empty row raises. *)
Definition first_cell (result : list row) : outcome Z :=
  match result with
  | [] => Ret 0
  | [] :: _ => Exn "tuple index out of range"
  | (count :: _) :: _ => Ret count
  end.

Definition first_scalar {World : Type} (result : list row) : M World Z :=
  fun w => (first_cell result, w).

(** [hub_tables[0]]. *)
Definition first_table {World : Type} (hub_tables : list string) : M World string :=
  match hub_tables with
  | [] => raise "list index out of range"
  | h :: _ => ret h
  end.

(* ===================================================================== *)
(** * The text of the queries *)
(* ===================================================================== *)

Fixpoint spaces (n : nat) : string :=
  match n with
  | O => EmptyString
  | S k => String " " (spaces k)
  end.

(** The query [get_table_count] builds (lines 100-109). *)
Definition count_query_text (table_name : string)
    (filter_clause count_column : option string) (distinct : bool) : string :=
  let query :=
    match count_column with
    | Some c =>
        if PyStr.nonempty c then
          if distinct then "SELECT COUNT(DISTINCT " ++ c ++ ") FROM " ++ table_name
          else "SELECT COUNT(" ++ c ++ ") FROM " ++ table_name
        else "SELECT COUNT(*) FROM " ++ table_name
    | None => "SELECT COUNT(*) FROM " ++ table_name
    end in
  match filter_clause with
  | Some f => if PyStr.nonempty f then query ++ " WHERE " ++ f else query
  | None => query
  end.

(** Line 204. *)
Definition except_count_query (full_except_query : string) : string :=
  "SELECT COUNT(*) FROM (" ++ full_except_query ++ ")".

(** Lines 149-153. *)
Definition validation_query (full_except_query : string) : string :=
  PyStr.nl ++ spaces 8 ++ "SELECT COUNT(*) FROM (" ++ PyStr.nl
    ++ spaces 12 ++ full_except_query ++ PyStr.nl
    ++ spaces 8 ++ ") missing_records" ++ PyStr.nl
    ++ spaces 8.

(** Line 222. *)
Definition source_compare_query (source_table deleted_col : string) : string :=
  "SELECT COUNT(*) FROM " ++ source_table ++ " WHERE " ++ deleted_col ++ " = FALSE".

(** Lines 233 and 235. *)
Definition satellite_compare_query (satellite_hash_key : option string)
    (satellite_table : string) : string :=
  if truthy satellite_hash_key
  then "SELECT COUNT(DISTINCT " ++ py_str satellite_hash_key ++ ") FROM " ++ satellite_table
  else "SELECT COUNT(*) FROM " ++ satellite_table.

(** Lines 267-274. *)
Definition simplified_check_query (source_key source_table deleted hub_key hub : string)
    : string :=
  PyStr.nl ++ spaces 28 ++ "SELECT COUNT(*) FROM (" ++ PyStr.nl
    ++ spaces 32 ++ "SELECT " ++ source_key ++ " FROM " ++ source_table ++ " " ++ PyStr.nl
    ++ spaces 32 ++ "WHERE " ++ deleted ++ " = FALSE" ++ PyStr.nl
    ++ spaces 32 ++ "EXCEPT" ++ PyStr.nl
    ++ spaces 32 ++ "SELECT " ++ hub_key ++ " FROM " ++ hub ++ PyStr.nl
    ++ spaces 28 ++ ")" ++ PyStr.nl
    ++ spaces 28.

(** Lines 307-310. *)
Definition sample_query (full_except_query : string) (sample_limit : Z) : string :=
  PyStr.nl ++ spaces 8 ++ "SELECT * FROM (" ++ full_except_query ++ ")" ++ PyStr.nl
    ++ spaces 8 ++ "LIMIT " ++ PyStr.of_Z sample_limit ++ PyStr.nl
    ++ spaces 8.

(** Lines 259 and 281: the two sentences of the representation message. *)
Definition representation_message (source_count vault_count missing_count : Z) : string :=
  "Data representation differences detected: Source count (" ++ PyStr.of_Z source_count
    ++ ") is close to vault count (" ++ PyStr.of_Z vault_count
    ++ "), but EXCEPT query shows " ++ PyStr.of_Z missing_count
    ++ " differences. This indicates schema/column mapping variations rather than missing data.".

Definition key_only_sentence (simplified_count : Z) : string :=
  " Key-only validation found only " ++ PyStr.of_Z simplified_count
    ++ " truly missing records, confirming this is primarily a schema/data representation difference rather than missing data.".

(** Line 338. *)
Definition note_text (sample_limit missing_count : Z) : string :=
  "Showing " ++ PyStr.of_Z sample_limit ++ " of " ++ PyStr.of_Z missing_count
    ++ " total records with differences".

(** Line 304: [min(limit, 10) if missing_count > 100 else limit]. *)
Definition sample_limit_for (limit missing_count : Z) : Z :=
  if 100 <? missing_count then Z.min limit 10 else limit.

(** Lines 185-196: the table names attached to every sample entry. *)
Definition sample_metadata (cfg : config) : metadata :=
  {| m_source_table := get_default "UNKNOWN_SOURCE" (source_table cfg);
     m_hub_table := hub_table_label "UNKNOWN_HUB" cfg;
     m_satellite_table := get_default "UNKNOWN_SATELLITE" (cur_satellite_table cfg);
     m_bizview_table := get_default "UNKNOWN_BIZVIEW" (bizview_table cfg) |}.

(* ===================================================================== *)
(** * The report *)
(* ===================================================================== *)

(** The dict stored in [data_discrepancies[table_name]] and serialised
    into [DATA_DISCREPANCY_DETAILS]. *)
Record discrepancy_details := {
  data_differences_records : list sample_entry;
  data_differences_count : Z;
  missing_records_count : Z;
  details_validation_message : string;
  count_comparison_source_nondeleted : Z;
  count_comparison_vault : Z;
  count_comparison_difference : Z;
  bizview_details : option (outcome bizview_comparison);
  intentionally_deleted_count : Z
}.

(** One tuple appended to [results] (lines 848-865), with the fields of
    [result_schema]. *)
Record report := {
  TABLE_NAME : string;
  SOURCE_TABLE : option string;
  HUB_TABLE : string;
  SATELLITE_TABLE : string;
  BIZVIEW_TABLE : string;
  SOURCE_COUNT : Z;
  SOURCE_COUNT_NONDELETED : Z;
  HUB_COUNT : Z;
  SATELLITE_COUNT : Z;
  BIZVIEW_COUNT : Z;
  SOURCE_TO_VAULT_DIFFERENCES : Z;
  DATA_REPRESENTATION_DIFFERENCES : Z;
  BIZVIEW_MISSING_RECORDS : Z;
  DELETED_RECORDS : Z;
  VALIDATION_MESSAGE : string;
  DATA_DISCREPANCY_DETAILS : discrepancy_details
}.

(** Lines 634-865, after the counts and the extraction: the classifier,
    the bizview reconciliation and the tuple appended to [results]. *)
Definition build_report (cfg : config)
    (source_count non_deleted_count deleted_count hub_count sat_count bizview_count : Z)
    (raw : Z) (difference_records : list sample_entry) (validation_message : string)
    : report :=
  let table_name := PyStr.last_component (get_default "" (source_table cfg)) in
  let hub_table := hub_table_label "" cfg in
  let satellite_table := get_default "" (cur_satellite_table cfg) in
  let bizview_table := get_default "" (bizview_table cfg) in
  let '(source_hub_differences, data_representation_differences, validation_message) :=
    classify raw validation_message non_deleted_count sat_count hub_count in
  let bizview :=
    if PyStr.nonempty bizview_table then
      Some (bizview_reconcile bizview_table satellite_table
              hub_count sat_count non_deleted_count bizview_count)
    else None in
  let bizview_missing_records :=
    match bizview with
    | Some (Ret c) => bc_missing c
    | _ => 0
    end in
  {| TABLE_NAME := table_name;
     SOURCE_TABLE := source_table cfg;
     HUB_TABLE := hub_table;
     SATELLITE_TABLE := satellite_table;
     BIZVIEW_TABLE := bizview_table;
     SOURCE_COUNT := source_count;
     SOURCE_COUNT_NONDELETED := non_deleted_count;
     HUB_COUNT := hub_count;
     SATELLITE_COUNT := sat_count;
     BIZVIEW_COUNT := bizview_count;
     SOURCE_TO_VAULT_DIFFERENCES := source_hub_differences;
     DATA_REPRESENTATION_DIFFERENCES := data_representation_differences;
     BIZVIEW_MISSING_RECORDS := bizview_missing_records;
     DELETED_RECORDS := deleted_count;
     VALIDATION_MESSAGE := validation_message;
     DATA_DISCREPANCY_DETAILS :=
       {| data_differences_records := difference_records;
          data_differences_count := data_representation_differences;
          missing_records_count := source_hub_differences;
          details_validation_message := validation_message;
          count_comparison_source_nondeleted := non_deleted_count;
          count_comparison_vault := vault_reference sat_count hub_count;
          count_comparison_difference :=
            Z.abs (non_deleted_count - vault_reference sat_count hub_count);
          bizview_details := bizview;
          intentionally_deleted_count := deleted_count |} |}.

(** The count [get_table_count] derives from the engine's answer: the
    first cell, and zero for an empty result, an empty row or a raised
    error. *)
Definition answer_count (answer : sql_result) : Z :=
  match answer with
  | Collect rows => match first_cell rows with Ret n => n | Exn _ => 0 end
  | Raises _ => 0
  end.

(** What one pass of the loop of [main] adds to [results]: the tuple of a
    processed entry, nothing for a skipped one or one that raised. *)
Definition appended_by (out : outcome (option report)) : list report :=
  match out with
  | Ret (Some r) => [r]
  | _ => []
  end.

(* ===================================================================== *)
(** * The validator *)
(* ===================================================================== *)

Section Validator.

(** [session] answers a query from the current state of the engine. *)
Context {World : Type} (session : string -> World -> sql_result * World).

#[local] Abbreviation Run := (M World).

(** [session.sql(query).collect()]. *)
Definition sql (query : string) : Run (list row) :=
  fun w =>
    match session query w with
    | (Collect rows, w') => (Ret rows, w')
    | (Raises e, w') => (Exn e, w')
    end.

(** [get_table_count(session, table_name, filter_clause, count_column,
    distinct)], lines 81-125. *)
Definition get_table_count (table_name : option string)
    (filter_clause count_column : option string) (distinct : bool)
    : Run (Z * string) :=
  try_except
    (if negb (truthy table_name) then ret (0, "No table specified")
     else
       let query :=
         count_query_text (py_str table_name) filter_clause count_column distinct in
       try_except
         (result <- sql query ;;
          count <- first_scalar result ;;
          ret (count, query))
         (fun e =>
            ret (0, "Error executing count query for " ++ py_str table_name ++ ": " ++ e)))
    (fun e => ret (0, "Error in get_table_count: " ++ e)).

(** [validate_missing_records(session, config, missing_records_count)],
    lines 127-163. *)
Definition validate_missing_records (cfg : config) (missing_records_count : Z)
    : Run (Z * string) :=
  if missing_records_count =? 0 then ret (0, "No missing records detected")
  else if negb (truthy (source_key cfg)) then
    ret (missing_records_count, "Could not validate: No source key defined")
  else
    try_except
      (full_except_query <-
         match custom_except_query cfg with
         | Some q => ret q
         | None => raise "'custom_except_query'"
         end ;;
       validation_result <- sql (validation_query full_except_query) ;;
       total_count <- first_scalar validation_result ;;
       ret (total_count, "All records verified"))
      (fun e =>
         ret (missing_records_count, "Error validating missing records: " ++ e)).

(** Lines 218-225: the non-deleted source count used for comparison. *)
Definition compare_source_count (cfg : config) (source_table : string) : Run Z :=
  match deleted_column cfg with
  | Some deleted_col =>
      try_except
        (source_count_result <- sql (source_compare_query source_table deleted_col) ;;
         first_scalar source_count_result)
        (fun _ => ret 0)
  | None => ret 0
  end.

(** Lines 228-244: the vault count used for comparison. *)
Definition compare_vault_count (cfg : config) (satellite_table : string)
    (hub_tables : list string) : Run Z :=
  if PyStr.nonempty satellite_table then
    try_except
      (count_result <-
         sql (satellite_compare_query (satellite_hash_key cfg) satellite_table) ;;
       first_scalar count_result)
      (fun _ => ret 0)
  else
    match hub_tables with
    | h :: _ =>
        try_except
          (count_result <- sql ("SELECT COUNT(*) FROM " ++ h) ;;
           first_scalar count_result)
          (fun _ => ret 0)
    | [] => ret 0
    end.

(** Lines 263-288: the key-only check.  Returns the difference count and
    the message as they stand afterwards. *)
Definition key_only_check (cfg : config) (source_table : string)
    (hub_tables : list string) (missing_count : Z) (validation_message : string)
    : Run (Z * string) :=
  if (truthy (source_key cfg) && truthy (hub_key cfg))%bool then
    hub <- first_table hub_tables ;;
    let simplified_check :=
      simplified_check_query (py_str (source_key cfg)) source_table
        (get_default "TRUE" (deleted_column cfg)) (py_str (hub_key cfg)) hub in
    try_except
      (simplified_result <- sql simplified_check ;;
       simplified_count <- first_scalar simplified_result ;;
       if key_check_confirms simplified_count missing_count then
         let validation_message :=
           validation_message ++ key_only_sentence simplified_count in
         if simplified_count =? 0 then ret (0, validation_message)
         else ret (missing_count, validation_message)
       else ret (missing_count, validation_message))
      (fun _ => ret (missing_count, validation_message))
  else ret (missing_count, validation_message).

(** Lines 217-292: what follows a non-zero difference count inside the
    [try] block.  Returns [(missing_count, validation_message)]. *)
Definition validate_differences (cfg : config) (source_table satellite_table : string)
    (hub_tables : list string) (missing_count : Z) : Run (Z * string) :=
  source_count <- compare_source_count cfg source_table ;;
  vault_count <- compare_vault_count cfg satellite_table hub_tables ;;
  '(missing_count, validation_message) <-
    (if representation_heuristic source_count vault_count missing_count then
       key_only_check cfg source_table hub_tables missing_count
         (representation_message source_count vault_count missing_count)
     else ret (missing_count, EmptyString)) ;;
  if negb (PyStr.nonempty validation_message) then
    '(validated_count, validation_message) <-
      validate_missing_records cfg missing_count ;;
    ret (missing_count, validation_message)
  else ret (missing_count, validation_message).

(** Lines 206-296: the [try] block that counts and validates.  It either
    returns from [extract_missing_records] or leaves [(missing_count,
    validation_message)] for the sampling below. *)
Definition count_and_validate (cfg : config) (source_table satellite_table : string)
    (hub_tables : list string) (full_except_query : string)
    : Run (flow (Z * list sample_entry * string) (Z * string)) :=
  try_except
    (missing_count_result <- sql (except_count_query full_except_query) ;;
     missing_count <- first_scalar missing_count_result ;;
     if missing_count =? 0 then ret (Return (0, [], "No record differences found"))
     else
       validated <-
         validate_differences cfg source_table satellite_table hub_tables missing_count ;;
       ret (Continue validated))
    (fun count_error =>
       ret (Return (0, [], "Error counting record differences: " ++ count_error))).

(** Lines 303-363: the sampling. *)
Definition collect_samples (meta : metadata) (full_except_query : string)
    (limit missing_count : Z) (validation_message : string)
    : Run (Z * list sample_entry * string) :=
  let sample_limit := sample_limit_for limit missing_count in
  try_except
    (rows <- sql (sample_query full_except_query sample_limit) ;;
     let missing_records :=
       map (fun r => DifferenceRow (safe_json_conversion r) meta) rows in
     let missing_records :=
       if sample_limit <? missing_count then
         (missing_records ++
            [SummaryNote (note_text sample_limit missing_count) validation_message meta])%list
       else missing_records in
     let actual_count :=
       if mentions_representation validation_message then 0 else missing_count in
     ret (actual_count, missing_records, validation_message))
    (fun sample_error =>
       ret (missing_count,
            [SampleError ("Error collecting sample records: " ++ sample_error) meta],
            "Failed to collect samples")).

(** [extract_missing_records(session, config, limit=10)], lines 165-376. *)
Definition extract_missing_records (cfg : config) (limit : Z)
    : Run (Z * list sample_entry * string) :=
  if negb (truthy (custom_except_query cfg)) then ret (0, [], "No EXCEPT query defined")
  else
    try_except
      (let source_table := get_default "UNKNOWN_SOURCE" (source_table cfg) in
       let hub_tables := hub_table_list "UNKNOWN_HUB" cfg in
       let satellite_table := get_default "UNKNOWN_SATELLITE" (cur_satellite_table cfg) in
       let meta := sample_metadata cfg in
       let full_except_query := py_str (custom_except_query cfg) in
       outcome_of_try <-
         count_and_validate cfg source_table satellite_table hub_tables full_except_query ;;
       match outcome_of_try with
       | Return r => ret r
       | Continue (missing_count, validation_message) =>
           if ((missing_count =? 0) || mentions_representation validation_message)%bool
           then ret (0, [], validation_message)
           else collect_samples meta full_except_query limit missing_count validation_message
       end)
      (fun e =>
         ret (0,
              [SampleError ("Critical error in extract_missing_records: " ++ e)
                 {| m_source_table := get_default "UNKNOWN_SOURCE" (source_table cfg);
                    m_hub_table := get_default "UNKNOWN_HUB" (hub_table cfg);
                    m_satellite_table :=
                      get_default "UNKNOWN_SATELLITE" (cur_satellite_table cfg);
                    m_bizview_table := get_default "UNKNOWN_BIZVIEW" (bizview_table cfg) |}],
              "Error in extraction process")).

(** The [COUNT] over the difference query, the first query
    [extract_missing_records] runs, reports [v] in state [w]. *)
Definition difference_count_reported (cfg : config) (w : World) (v : Z) : Prop :=
  exists rows w1,
    session (except_count_query (py_str (custom_except_query cfg))) w = (Collect rows, w1)
    /\ first_cell rows = Ret v.

(** Run [attempt]; when it hands back nothing, go on with [next]: the
    strategies of [get_bizview_count] that either [return] or fall
    through. *)
Definition or_else {A : Type} (attempt : Run (option A)) (next : Run A) : Run A :=
  r <- attempt ;;
  match r with
  | Some a => ret a
  | None => next
  end.

(** Lines 440-459: the count of non-deleted bizview rows, when the
    bizview has the deleted column. *)
Definition bizview_non_deleted_count (bizview_table deleted_col : string)
    : Run (option (Z * string)) :=
  try_except
    (let schema_parts := PyStr.split "." bizview_table in
     if (3 <=? List.length schema_parts)%nat then
       match schema_parts with
       | [db; schema; table] =>
           column_check <-
             sql ("SELECT COLUMN_NAME FROM " ++ db
                    ++ ".INFORMATION_SCHEMA.COLUMNS WHERE TABLE_SCHEMA = '" ++ schema
                    ++ "' AND TABLE_NAME = '" ++ table
                    ++ "' AND COLUMN_NAME = '" ++ deleted_col ++ "'") ;;
           match column_check with
           | [] => ret None
           | _ :: _ =>
               let count_query :=
                 "SELECT COUNT(*) FROM " ++ bizview_table ++ " WHERE "
                   ++ deleted_col ++ " = FALSE" in
               result <- sql count_query ;;
               count <- first_scalar result ;;
               ret (Some (count, count_query))
           end
       | _ => raise "too many values to unpack (expected 3)"
       end
     else ret None)
    (fun _ => ret None).

(** Lines 461-494: the plain count, with the larger estimate for a fact
    table whose count looks too low. *)
Definition bizview_total_count (bizview_table : string) : Run (Z * string) :=
  let count_query := "SELECT COUNT(*) FROM " ++ bizview_table in
  result <- sql count_query ;;
  count <- first_scalar result ;;
  if ((count <? 100) && PyStr.contains "FACT_" (PyStr.upper bizview_table))%bool then
    or_else
      (try_except
         (sample_result <-
            sql ("SELECT COUNT(*) FROM (SELECT * FROM " ++ bizview_table ++ " LIMIT 10000)") ;;
          sample_count <- first_scalar sample_result ;;
          if count <? sample_count then
            let expanded_query :=
              "SELECT COUNT(*) FROM (SELECT * FROM " ++ bizview_table ++ " LIMIT 1000000)" in
            try_except
              (expanded_result <- sql expanded_query ;;
               expanded_count <- first_scalar expanded_result ;;
               if count <? expanded_count then ret (Some (expanded_count, expanded_query))
               else ret None)
              (fun _ => ret None)
          else ret None)
         (fun _ => ret None))
      (ret (count, count_query))
  else ret (count, count_query).

(** [get_bizview_count(session, config)], lines 378-499. *)
Definition get_bizview_count (cfg : config) : Run (Z * string) :=
  if negb (truthy (bizview_table cfg)) then ret (0, "No bizview table specified")
  else
    let bizview_table := py_str (bizview_table cfg) in
    try_except
      (or_else
         (try_except
            (_ <- sql ("SELECT 1 FROM " ++ bizview_table ++ " LIMIT 1") ;; ret None)
            (fun e => ret (Some (0, "Bizview table access error: " ++ e))))
         (let bizview_name := PyStr.upper (PyStr.last_component bizview_table) in
          or_else
            (if PyStr.mem bizview_name ["FACT_SALES"; "FACT_TRANSACTIONS"] then
               try_except
                 (let count_query := "SELECT COUNT(*) FROM " ++ bizview_table in
                  result <- sql count_query ;;
                  count <- first_scalar result ;;
                  ret (Some (count, count_query)))
                 (fun _ => ret None)
             else ret None)
            (or_else
               (if truthy (bizview_key cfg) then
                  let bizview_key := py_str (bizview_key cfg) in
                  let count_query :=
                    "SELECT COUNT(DISTINCT " ++ bizview_key ++ ") FROM " ++ bizview_table
                      ++ " WHERE " ++ bizview_key ++ " IS NOT NULL" in
                  try_except
                    (result <- sql count_query ;;
                     count <- first_scalar result ;;
                     if ((count <? 100)
                         && negb (PyStr.mem bizview_name ["DIM_SMALL_LOOKUP"; "DIM_CONFIG"]))%bool
                     then ret None
                     else ret (Some (count, count_query)))
                    (fun _ => ret None)
                else ret None)
               (or_else
                  (if truthy (deleted_column cfg) then
                     bizview_non_deleted_count bizview_table (py_str (deleted_column cfg))
                   else ret None)
                  (bizview_total_count bizview_table)))))
      (fun e => ret (0, "Error in get_bizview_count: " ++ e)).

(** Lines 578-594: [(source_count, non_deleted_count, deleted_count)]. *)
Definition count_source (cfg : config) : Run (Z * Z * Z) :=
  '(source_count, source_query) <- get_table_count (source_table cfg) None None true ;;
  match deleted_column cfg with
  | Some deleted_col =>
      try_except
        ('(non_deleted_count, non_deleted_query) <-
           get_table_count (source_table cfg) (Some (deleted_col ++ " = FALSE")) None true ;;
         ret (source_count, non_deleted_count, source_count - non_deleted_count))
        (fun _ => ret (source_count, source_count, 0))
  | None => ret (source_count, source_count, 0)
  end.

(** Lines 596-604: the hub counts added up. *)
Fixpoint count_hubs (hub_tables : list string) (hub_count : Z) : Run Z :=
  match hub_tables with
  | [] => ret hub_count
  | h_table :: rest =>
      if PyStr.nonempty h_table then
        '(hub_table_count, hub_query) <- get_table_count (Some h_table) None None true ;;
        count_hubs rest (hub_count + hub_table_count)
      else count_hubs rest hub_count
  end.

(** Line 612: the satellite is a current one by its name. *)
Definition current_satellite_name (satellite_table : string) : bool :=
  (PyStr.contains "_LROC_" (PyStr.upper satellite_table)
   || PyStr.contains "_MROC_" (PyStr.upper satellite_table))%bool.

(** Lines 606-621: [(sat_count, sat_query)]. *)
Definition count_satellite (cfg : config) (satellite_table : string) : Run (Z * string) :=
  if PyStr.nonempty satellite_table then
    if (truthy (satellite_hash_key cfg) && current_satellite_name satellite_table)%bool
    then get_table_count (Some satellite_table) None (satellite_hash_key cfg) true
    else get_table_count (Some satellite_table) None None true
  else ret (0, "No satellite table").

(** Line 572: the source table answers a probe. *)
Definition source_accessible (cfg : config) : Run bool :=
  try_except
    (_ <- sql ("SELECT 1 FROM " ++ py_str (source_table cfg) ++ " LIMIT 1") ;; ret true)
    (fun _ => ret false).

(** Lines 623-629. *)
Definition count_bizview (cfg : config) : Run (Z * string) :=
  if PyStr.nonempty (get_default "" (bizview_table cfg)) then get_bizview_count cfg
  else ret (0, "No bizview table").

(** The body of the loop of [main] (lines 546-865) for one entry of
    [table_configs]: the appended tuple, or nothing when the source table
    is not accessible ([continue] at line 576). *)
Definition process_config (cfg : config) : Run (option report) :=
  accessible <- source_accessible cfg ;;
  if negb accessible then ret None
  else
    '(source_count, non_deleted_count, deleted_count) <- count_source cfg ;;
    hub_count <- count_hubs (hub_table_list "" cfg) 0 ;;
    '(sat_count, sat_query) <- count_satellite cfg (get_default "" (cur_satellite_table cfg)) ;;
    '(bizview_count, bizview_query) <- count_bizview cfg ;;
    '(raw, difference_records, validation_message) <- extract_missing_records cfg 10 ;;
    ret (Some (build_report cfg source_count non_deleted_count deleted_count
                 hub_count sat_count bizview_count
                 raw difference_records validation_message)).

(** The loop of [main] (lines 545-869): an exception of one entry is
    caught and the loop goes on with the next. *)
Fixpoint main_loop (table_configs : list config) : Run (list report) :=
  match table_configs with
  | [] => ret []
  | cfg :: rest =>
      appended <- try_except (process_config cfg) (fun _ => ret None) ;;
      results <- main_loop rest ;;
      ret (match appended with
           | Some r => r :: results
           | None => results
           end)
  end.

(** [session.create_dataframe(results, schema=result_schema)]: the rows
    themselves stand for the dataframe. *)
Definition create_dataframe (results : list report) : Run (list report) :=
  ret results.

(** [main(session)], lines 501-935, with the module-level [table_configs]
    as an argument. *)
Definition main (table_configs : list config) : Run (list report) :=
  _ <- try_except
         (_ <- sql "ALTER SESSION SET QUERY_TAG = 'DATA_LINEAGE_SCRIPT'" ;;
          _ <- sql "ALTER SESSION SET STATEMENT_TIMEOUT_IN_SECONDS = 3600" ;;
          ret tt)
         (fun _ => ret tt) ;;
  results <- main_loop table_configs ;;
  try_except (create_dataframe results) (fun _ => create_dataframe []).

End Validator.

(* ===================================================================== *)
(** * Engines and mappings for concrete runs *)
(* ===================================================================== *)

(** An engine without state that answers the listed queries and raises on
    every other one. *)
Definition table_engine (answers : list (string * sql_result))
    : string -> unit -> sql_result * unit :=
  fun query w =>
    (match find (fun a => String.eqb (fst a) query) answers with
     | Some (_, r) => r
     | None => Raises "SQL compilation error: object does not exist"
     end, w).

(** An engine on which every query raises. *)
Definition failing_engine : string -> unit -> sql_result * unit :=
  fun _ w => (Raises "connection lost", w).

Definition orders_except_query : string :=
  "SELECT ORDER_ID FROM SRC.S.ORDERS EXCEPT SELECT ORDER_HID FROM DV.RV.H_ORDER".

(** A mapping with a current satellite, keys and a deleted flag, and no
    bizview. *)
Definition orders_config : config :=
  {| source_table := Some "SRC.S.ORDERS";
     hub_table := Some "DV.RV.H_ORDER";
     hub_tables := None;
     cur_satellite_table := Some "DV.RV.S_ORDER_LROC_INFO";
     bizview_table := None;
     source_key := Some "ORDER_ID";
     hub_key := Some "ORDER_HID";
     satellite_hash_key := Some "HK_H_ORDER";
     bizview_key := None;
     deleted_column := Some "IS_DELETED";
     custom_except_query := Some orders_except_query |}.

(** The same mapping without a deleted flag. *)
Definition unflagged_config : config :=
  {| source_table := Some "SRC.S.ORDERS";
     hub_table := Some "DV.RV.H_ORDER";
     hub_tables := None;
     cur_satellite_table := Some "DV.RV.S_ORDER_LROC_INFO";
     bizview_table := None;
     source_key := Some "ORDER_ID";
     hub_key := Some "ORDER_HID";
     satellite_hash_key := Some "HK_H_ORDER";
     bizview_key := None;
     deleted_column := None;
     custom_except_query := Some orders_except_query |}.

(** A mapping none of whose tables the engines below know. *)
Definition customers_config : config :=
  {| source_table := Some "SRC.S.CUSTOMERS";
     hub_table := Some "DV.RV.H_CUSTOMER";
     hub_tables := None;
     cur_satellite_table := Some "DV.RV.S_CUSTOMER_LROC_INFO";
     bizview_table := Some "BIZ.V.DIM_CUSTOMER";
     source_key := Some "CUSTOMER_ID";
     hub_key := Some "CUSTOMER_HID";
     satellite_hash_key := Some "HK_H_CUSTOMER";
     bizview_key := Some "CUSTOMER_KEY";
     deleted_column := Some "IS_DELETED";
     custom_except_query :=
       Some "SELECT CUSTOMER_ID FROM SRC.S.CUSTOMERS EXCEPT SELECT CUSTOMER_HID FROM DV.RV.H_CUSTOMER" |}.

(** [n] rows of one cell each. *)
Definition some_rows (n : nat) : list row := repeat [1] n.

(** The answers of an engine for [orders_config]: the total and
    non-deleted source counts, the hub count, the distinct satellite
    count, the difference count, the key-only count and the rows the
    sample query returns. *)
Definition orders_answers (total non_deleted hub sat differences key_only : Z)
    (sampled : nat) : list (string * sql_result) :=
  [ ("SELECT 1 FROM SRC.S.ORDERS LIMIT 1", Collect [[1]]);
    ("SELECT COUNT(*) FROM SRC.S.ORDERS", Collect [[total]]);
    ("SELECT COUNT(*) FROM SRC.S.ORDERS WHERE IS_DELETED = FALSE", Collect [[non_deleted]]);
    ("SELECT COUNT(*) FROM DV.RV.H_ORDER", Collect [[hub]]);
    ("SELECT COUNT(DISTINCT HK_H_ORDER) FROM DV.RV.S_ORDER_LROC_INFO", Collect [[sat]]);
    (except_count_query orders_except_query, Collect [[differences]]);
    (validation_query orders_except_query, Collect [[differences]]);
    (simplified_check_query "ORDER_ID" "SRC.S.ORDERS" "IS_DELETED" "ORDER_HID" "DV.RV.H_ORDER",
     Collect [[key_only]]);
    (sample_query orders_except_query 10, Collect (some_rows sampled)) ].

(** The answers of [orders_answers] without the sample query, which then
    raises. *)
Definition orders_answers_unsampled (total non_deleted hub sat differences key_only : Z)
    : list (string * sql_result) :=
  removelast (orders_answers total non_deleted hub sat differences key_only 0).

(** A mapping with neither keys nor a difference query. *)
Definition unqueried_config : config :=
  {| source_table := Some "SRC.S.ORDERS";
     hub_table := Some "DV.RV.H_ORDER";
     hub_tables := None;
     cur_satellite_table := None;
     bizview_table := None;
     source_key := None;
     hub_key := None;
     satellite_hash_key := None;
     bizview_key := None;
     deleted_column := None;
     custom_except_query := None |}.

(** An engine for [customers_config] on which the source answers with 60
    rows and the hub with 50, and nothing else answers: the bizview is
    not accessible. *)
Definition customers_answers_without_bizview : list (string * sql_result) :=
  [ ("SELECT 1 FROM SRC.S.CUSTOMERS LIMIT 1", Collect [[1]]);
    ("SELECT COUNT(*) FROM SRC.S.CUSTOMERS", Collect [[60]]);
    ("SELECT COUNT(*) FROM DV.RV.H_CUSTOMER", Collect [[50]]) ].

(** An engine on which the bizview of [customers_config] answers, with
    250 distinct keys. *)
Definition customers_bizview_answers : list (string * sql_result) :=
  [ ("SELECT 1 FROM BIZ.V.DIM_CUSTOMER LIMIT 1", Collect [[1]]);
    ("SELECT COUNT(DISTINCT CUSTOMER_KEY) FROM BIZ.V.DIM_CUSTOMER WHERE CUSTOMER_KEY IS NOT NULL",
     Collect [[250]]) ].

(** A mapping whose bizview is one of the known large ones. *)
Definition sales_config : config :=
  {| source_table := Some "SRC.S.SALES";
     hub_table := Some "DV.RV.H_SALE";
     hub_tables := None;
     cur_satellite_table := None;
     bizview_table := Some "BIZ.V.FACT_SALES";
     source_key := None;
     hub_key := None;
     satellite_hash_key := None;
     bizview_key := Some "SALE_KEY";
     deleted_column := None;
     custom_except_query := None |}.

Definition sales_bizview_answers : list (string * sql_result) :=
  [ ("SELECT 1 FROM BIZ.V.FACT_SALES LIMIT 1", Collect [[1]]);
    ("SELECT COUNT(*) FROM BIZ.V.FACT_SALES", Collect [[42]]) ].

(** An engine on which the plain count of a fact table is 40 and the
    counts over a limited selection are larger. *)
Definition returns_bizview_answers : list (string * sql_result) :=
  [ ("SELECT COUNT(*) FROM BIZ.V.FACT_RETURNS", Collect [[40]]);
    ("SELECT COUNT(*) FROM (SELECT * FROM BIZ.V.FACT_RETURNS LIMIT 10000)", Collect [[500]]);
    ("SELECT COUNT(*) FROM (SELECT * FROM BIZ.V.FACT_RETURNS LIMIT 1000000)",
     Collect [[7000]]) ].

(* ===================================================================== *)
(** * Properties *)
(* ===================================================================== *)

(** ** Computations that always end in a value *)

Section Returns.

Context {World : Type}.

Lemma returns_ret {A : Type} (a : A) : returns (@ret World A a).
Proof. intros w. exists a, w. reflexivity. Qed.

Lemma returns_bind {A B : Type} (m : M World A) (k : A -> M World B) :
  returns m -> (forall a, returns (k a)) -> returns (bind m k).
Proof.
  intros Hm Hk w. unfold bind.
  destruct (Hm w) as (a & w1 & ->).
  apply Hk.
Qed.

(** A [try] whose handler always ends in a value does so itself. *)
Lemma returns_try_except {A : Type} (m : M World A) (h : string -> M World A) :
  (forall e, returns (h e)) -> returns (try_except m h).
Proof.
  intros Hh w. unfold try_except.
  destruct (m w) as [[a | e] w1].
  - exists a, w1. reflexivity.
  - apply Hh.
Qed.

Lemma returns_or_else {A : Type} (attempt : M World (option A)) (next : M World A) :
  returns attempt -> returns next -> returns (or_else attempt next).
Proof.
  intros Ha Hn. unfold or_else. apply returns_bind; [exact Ha |].
  intros [a |]; [apply returns_ret | exact Hn].
Qed.

End Returns.

Ltac returns_step :=
  match goal with
  | |- returns (ret _) => apply returns_ret
  | |- returns (try_except _ _) => apply returns_try_except; intros ?
  | |- returns (bind _ _) => apply returns_bind; [| intros ?]
  | |- returns (or_else _ _) => apply returns_or_else
  | |- returns (if ?b then _ else _) => destruct b
  | |- returns (match ?x with _ => _ end) => destruct x
  | |- returns (let _ := _ in _) => cbv zeta
  end.

Section EngineProperties.

Context {World : Type} (session : string -> World -> sql_result * World).

Lemma get_table_count_returns table_name filter_clause count_column distinct :
  returns (get_table_count session table_name filter_clause count_column distinct).
Proof. unfold get_table_count. repeat returns_step. Qed.

Lemma get_bizview_count_returns cfg : returns (get_bizview_count session cfg).
Proof. unfold get_bizview_count. repeat returns_step. Qed.

Lemma extract_missing_records_returns cfg limit :
  returns (extract_missing_records session cfg limit).
Proof. unfold extract_missing_records. repeat returns_step. Qed.

Lemma count_source_returns cfg : returns (count_source session cfg).
Proof.
  unfold count_source. apply returns_bind.
  - apply get_table_count_returns.
  - intros [source_count source_query]. destruct (deleted_column cfg); repeat returns_step.
Qed.

Lemma count_hubs_returns hub_tables hub_count :
  returns (count_hubs session hub_tables hub_count).
Proof.
  revert hub_count. induction hub_tables as [| h rest IH]; intros hub_count; simpl.
  - apply returns_ret.
  - destruct (PyStr.nonempty h); [| apply IH].
    apply returns_bind; [apply get_table_count_returns |].
    intros [c q]. apply IH.
Qed.

Lemma count_satellite_returns cfg satellite_table :
  returns (count_satellite session cfg satellite_table).
Proof.
  unfold count_satellite.
  destruct (PyStr.nonempty satellite_table); [| apply returns_ret].
  destruct (truthy (satellite_hash_key cfg) && current_satellite_name satellite_table)%bool;
    apply get_table_count_returns.
Qed.

(** ** Reading a run backwards *)

Lemma bind_Ret_inv {A B : Type} (m : M World A) (k : A -> M World B) w b w' :
  bind m k w = (Ret b, w') ->
  exists a w1, m w = (Ret a, w1) /\ k a w1 = (Ret b, w').
Proof.
  unfold bind. destruct (m w) as [[a | e] w1]; intros H.
  - exists a, w1. split; [reflexivity | exact H].
  - discriminate H.
Qed.

Lemma ret_inv {A : Type} (a b : A) (w w' : World) :
  ret a w = (Ret b, w') -> a = b /\ w = w'.
Proof. unfold ret. intros H. inversion H. split; reflexivity. Qed.

(** What [get_table_count] returns for a named table: the count derived
    from the engine's answer to the query it builds. *)
Lemma get_table_count_answer table_name filter_clause count_column distinct w :
  PyStr.nonempty table_name = true ->
  let query := count_query_text table_name filter_clause count_column distinct in
  exists text,
    get_table_count session (Some table_name) filter_clause count_column distinct w
    = (Ret (answer_count (fst (session query w)), text), snd (session query w)).
Proof.
  intros Hname query.
  unfold get_table_count, try_except, bind, sql, first_scalar, ret. simpl.
  rewrite Hname. simpl. fold query.
  destruct (session query w) as [[e | rows] w1]; simpl.
  - eexists. reflexivity.
  - destruct (first_cell rows) as [n | e]; eexists; reflexivity.
Qed.

(** A run of [process_config] that appends a tuple went through every
    count and the extraction, and the tuple is [build_report] of what
    they returned. *)
Lemma process_config_inv cfg w r w' :
  process_config session cfg w = (Ret (Some r), w') ->
  exists w1 source_count non_deleted_count deleted_count w2 hub_count w3
         sat_count sat_query w4 bizview_count bizview_query w5
         raw difference_records validation_message,
    source_accessible session cfg w = (Ret true, w1) /\
    count_source session cfg w1
      = (Ret (source_count, non_deleted_count, deleted_count), w2) /\
    count_hubs session (hub_table_list "" cfg) 0 w2 = (Ret hub_count, w3) /\
    count_satellite session cfg (get_default "" (cur_satellite_table cfg)) w3
      = (Ret (sat_count, sat_query), w4) /\
    count_bizview session cfg w4 = (Ret (bizview_count, bizview_query), w5) /\
    extract_missing_records session cfg 10 w5
      = (Ret (raw, difference_records, validation_message), w') /\
    r = build_report cfg source_count non_deleted_count deleted_count
          hub_count sat_count bizview_count raw difference_records validation_message.
Proof.
  unfold process_config. intros H.
  apply bind_Ret_inv in H as (accessible & w1 & Hacc & H).
  destruct accessible; simpl in H; [| apply ret_inv in H as [H _]; discriminate H].
  apply bind_Ret_inv in H as ([[source_count non_deleted_count] deleted_count] & w2 & Hsrc & H).
  apply bind_Ret_inv in H as (hub_count & w3 & Hhub & H).
  apply bind_Ret_inv in H as ([sat_count sat_query] & w4 & Hsat & H).
  apply bind_Ret_inv in H as ([bizview_count bizview_query] & w5 & Hbiz & H).
  apply bind_Ret_inv in H as ([[raw difference_records] validation_message] & w6 & Hext & H).
  apply ret_inv in H as [H Hw]. inversion H. subst w6.
  exists w1, source_count, non_deleted_count, deleted_count, w2, hub_count, w3,
    sat_count, sat_query, w4, bizview_count, bizview_query, w5,
    raw, difference_records, validation_message.
  repeat split; assumption || reflexivity.
Qed.

(** The fields of the tuple that [build_report] copies from the counts. *)
Lemma build_report_counts cfg sc nd dc hub sat bv raw recs msg :
  let r := build_report cfg sc nd dc hub sat bv raw recs msg in
  SOURCE_COUNT r = sc /\ SOURCE_COUNT_NONDELETED r = nd /\ DELETED_RECORDS r = dc /\
  HUB_COUNT r = hub /\ SATELLITE_COUNT r = sat /\ BIZVIEW_COUNT r = bv /\
  SATELLITE_TABLE r = get_default "" (cur_satellite_table cfg).
Proof.
  unfold build_report. destruct (classify raw msg nd sat hub) as [[shd drd] msg'].
  simpl. repeat split.
Qed.

(** The classification fields of the tuple are the classifier's result on
    the extractor's count and message and the counts of the tuple. *)
Lemma build_report_classification cfg sc nd dc hub sat bv raw recs msg :
  let r := build_report cfg sc nd dc hub sat bv raw recs msg in
  (SOURCE_TO_VAULT_DIFFERENCES r, DATA_REPRESENTATION_DIFFERENCES r, VALIDATION_MESSAGE r)
  = classify raw msg nd sat hub.
Proof.
  unfold build_report. destruct (classify raw msg nd sat hub) as [[shd drd] msg'].
  reflexivity.
Qed.

Lemma count_source_spec cfg w source_count non_deleted_count deleted_count w' :
  count_source session cfg w = (Ret (source_count, non_deleted_count, deleted_count), w') ->
  non_deleted_count + deleted_count = source_count /\
  (deleted_column cfg = None -> deleted_count = 0 /\ non_deleted_count = source_count).
Proof.
  unfold count_source. intros H.
  apply bind_Ret_inv in H as ([sc q] & w1 & _ & H).
  destruct (deleted_column cfg) as [deleted_col |].
  - unfold try_except, bind in H.
    destruct (get_table_count session (source_table cfg)
                (Some (deleted_col ++ " = FALSE")) None true w1) as [[[nd q'] | e] w2].
    + apply ret_inv in H as [H _]. inversion H. subst.
      split; [lia | discriminate].
    + apply ret_inv in H as [H _]. inversion H. subst.
      split; [lia | discriminate].
  - apply ret_inv in H as [H _]. inversion H. subst.
    split; [lia | intros _; split; reflexivity].
Qed.

(** ** The loop of [main] *)


(** One pass of the loop: whatever the entry does, the loop goes on with
    the rest from the state the entry left. *)
Lemma main_loop_cons cfg rest w :
  main_loop session (cfg :: rest) w
  = let '(out, w1) := process_config session cfg w in
    match main_loop session rest w1 with
    | (Ret results, w2) => (Ret (appended_by out ++ results)%list, w2)
    | (Exn e, w2) => (Exn e, w2)
    end.
Proof.
  simpl. unfold bind at 1. unfold try_except.
  destruct (process_config session cfg w) as [[[r |] | e] w1]; simpl;
    unfold bind, ret; destruct (main_loop session rest w1) as [[results | e'] w2];
    reflexivity.
Qed.

Lemma main_loop_returns table_configs : returns (main_loop session table_configs).
Proof.
  induction table_configs as [| cfg rest IH]; intros w.
  - exists [], w. reflexivity.
  - rewrite main_loop_cons.
    destruct (process_config session cfg w) as [out w1].
    destruct (IH w1) as (results & w2 & ->).
    eexists _, w2. reflexivity.
Qed.



(** An entry whose source probe raises is skipped. *)
Lemma process_config_probe_raises cfg w e w1 :
  session ("SELECT 1 FROM " ++ py_str (source_table cfg) ++ " LIMIT 1") w = (Raises e, w1) ->
  process_config session cfg w = (Ret None, w1).
Proof.
  intros H. unfold process_config, source_accessible, bind, try_except, sql.
  rewrite H. reflexivity.
Qed.

Lemma bind_Ret {A B : Type} (m : M World A) (k : A -> M World B) w a w1 :
  m w = (Ret a, w1) -> bind m k w = k a w1.
Proof. intros H. unfold bind. rewrite H. reflexivity. Qed.

(** The names in the tuple are those of the mapping. *)
Lemma build_report_names cfg sc nd dc hub sat bv raw recs msg :
  let r := build_report cfg sc nd dc hub sat bv raw recs msg in
  SOURCE_TABLE r = source_table cfg /\
  TABLE_NAME r = PyStr.last_component (get_default "" (source_table cfg)).
Proof.
  unfold build_report. destruct (classify raw msg nd sat hub) as [[shd drd] msg'].
  split; reflexivity.
Qed.

(** An entry whose source probe is answered is processed to the end: a
    tuple is appended for it, whatever the engine does with the queries
    that follow. *)
Lemma process_config_probe_answers cfg w rows w1 :
  session ("SELECT 1 FROM " ++ py_str (source_table cfg) ++ " LIMIT 1") w = (Collect rows, w1) ->
  exists r w',
    process_config session cfg w = (Ret (Some r), w') /\
    SOURCE_TABLE r = source_table cfg /\
    TABLE_NAME r = PyStr.last_component (get_default "" (source_table cfg)).
Proof.
  intros Hprobe.
  assert (Hacc : source_accessible session cfg w = (Ret true, w1)).
  { unfold source_accessible, try_except, bind, sql. rewrite Hprobe. reflexivity. }
  destruct (count_source_returns cfg w1) as ([[sc nd] dc] & w2 & Hsrc).
  destruct (count_hubs_returns (hub_table_list "" cfg) 0 w2) as (hub & w3 & Hhub).
  destruct (count_satellite_returns cfg (get_default "" (cur_satellite_table cfg)) w3)
    as ([sat satq] & w4 & Hsat).
  assert (Hbiz : exists bv bvq w5, count_bizview session cfg w4 = (Ret (bv, bvq), w5)).
  { unfold count_bizview. destruct (PyStr.nonempty _).
    - destruct (get_bizview_count_returns cfg w4) as ([bv bvq] & w5 & H).
      exists bv, bvq, w5. exact H.
    - exists 0, "No bizview table", w4. reflexivity. }
  destruct Hbiz as (bv & bvq & w5 & Hbiz).
  destruct (extract_missing_records_returns cfg 10 w5) as ([[raw recs] msg] & w6 & Hext).
  exists (build_report cfg sc nd dc hub sat bv raw recs msg), w6.
  split; [| apply build_report_names].
  unfold process_config.
  rewrite (bind_Ret _ _ _ _ _ Hacc). cbn [negb].
  rewrite (bind_Ret _ _ _ _ _ Hsrc).
  rewrite (bind_Ret _ _ _ _ _ Hhub).
  rewrite (bind_Ret _ _ _ _ _ Hsat).
  rewrite (bind_Ret _ _ _ _ _ Hbiz).
  rewrite (bind_Ret _ _ _ _ _ Hext).
  reflexivity.
Qed.

(** [main] is its loop, run from the state the two [ALTER SESSION]
    statements leave. *)
Lemma main_is_loop table_configs w :
  exists w0, main session table_configs w = main_loop session table_configs w0.
Proof.
  unfold main. unfold bind at 1. unfold try_except at 1.
  destruct (bind (sql session "ALTER SESSION SET QUERY_TAG = 'DATA_LINEAGE_SCRIPT'") _ w)
    as [[[] | e] w0]; exists w0; simpl;
    unfold bind, try_except, create_dataframe, ret;
    destruct (main_loop_returns table_configs w0) as (results & w' & ->); reflexivity.
Qed.


(** ** The counts of the report *)

(** C6. For every processed mapping the reported counts satisfy
    [non_deleted_count + deleted_count = source_count], also when the
    deleted count is zero; without a deleted-flag column the deleted count
    is zero and the non-deleted count is the source count. *)
Theorem deleted_count_invariant cfg w r w' :
  process_config session cfg w = (Ret (Some r), w') ->
  SOURCE_COUNT_NONDELETED r + DELETED_RECORDS r = SOURCE_COUNT r /\
  (deleted_column cfg = None ->
   DELETED_RECORDS r = 0 /\ SOURCE_COUNT_NONDELETED r = SOURCE_COUNT r).
Proof.
  intros H.
  apply process_config_inv in H
    as (w1 & sc & nd & dc & w2 & hub & w3 & sat & satq & w4 & bv & bvq & w5
        & raw & recs & msg & _ & Hsrc & _ & _ & _ & _ & ->).
  destruct (build_report_counts cfg sc nd dc hub sat bv raw recs msg)
    as (-> & -> & -> & _).
  exact (count_source_spec _ _ _ _ _ _ Hsrc).
Qed.

(** The query [main] counts a configured satellite with (lines 609-619). *)
Lemma count_satellite_answer cfg satellite_table w :
  PyStr.nonempty satellite_table = true ->
  let query :=
    if (truthy (satellite_hash_key cfg) && current_satellite_name satellite_table)%bool
    then "SELECT COUNT(DISTINCT " ++ py_str (satellite_hash_key cfg) ++ ") FROM "
           ++ satellite_table
    else "SELECT COUNT(*) FROM " ++ satellite_table in
  exists text,
    count_satellite session cfg satellite_table w
    = (Ret (answer_count (fst (session query w)), text), snd (session query w)).
Proof.
  intros Hsat. unfold count_satellite. rewrite Hsat.
  destruct (truthy (satellite_hash_key cfg)) eqn:Hkey; simpl.
  - destruct (current_satellite_name satellite_table); simpl.
    + destruct (get_table_count_answer satellite_table None (satellite_hash_key cfg) true w Hsat)
        as (text & H).
      unfold count_query_text in H.
      destruct (satellite_hash_key cfg) as [k |]; [| discriminate Hkey].
      simpl in Hkey. rewrite Hkey in H. simpl in H.
      exists text. exact H.
    + destruct (get_table_count_answer satellite_table None None true w Hsat) as (text & H).
      exists text. exact H.
  - destruct (get_table_count_answer satellite_table None None true w Hsat) as (text & H).
    exists text. exact H.
Qed.

(** C10. For every processed mapping with a configured satellite table,
    [SATELLITE_COUNT] is the count the engine answers, after the source and
    hub counts, to "SELECT COUNT(DISTINCT hash_key) FROM satellite" exactly
    when a satellite hash key is configured and the upper-cased satellite
    name contains [_LROC_] or [_MROC_], and to the plain
    "SELECT COUNT(*) FROM satellite" for any other configured satellite,
    also one with a hash key and another name; that same count is the
    satellite count the classifier works with. *)
Theorem satellite_count_method cfg w r w' satellite_table :
  process_config session cfg w = (Ret (Some r), w') ->
  cur_satellite_table cfg = Some satellite_table ->
  PyStr.nonempty satellite_table = true ->
  let query :=
    if (truthy (satellite_hash_key cfg)
        && (PyStr.contains "_LROC_" (PyStr.upper satellite_table)
            || PyStr.contains "_MROC_" (PyStr.upper satellite_table)))%bool
    then "SELECT COUNT(DISTINCT " ++ py_str (satellite_hash_key cfg) ++ ") FROM "
           ++ satellite_table
    else "SELECT COUNT(*) FROM " ++ satellite_table in
  exists w1 counts w2 w3 raw validation_message,
    source_accessible session cfg w = (Ret true, w1) /\
    count_source session cfg w1 = (Ret counts, w2) /\
    count_hubs session (hub_table_list "" cfg) 0 w2 = (Ret (HUB_COUNT r), w3) /\
    SATELLITE_COUNT r = answer_count (fst (session query w3)) /\
    (SOURCE_TO_VAULT_DIFFERENCES r, DATA_REPRESENTATION_DIFFERENCES r, VALIDATION_MESSAGE r)
    = classify raw validation_message
        (SOURCE_COUNT_NONDELETED r) (SATELLITE_COUNT r) (HUB_COUNT r).
Proof.
  intros H Hcfg Hsat query.
  apply process_config_inv in H
    as (w1 & sc & nd & dc & w2 & hub & w3 & sat & satq & w4 & bv & bvq & w5
        & raw & recs & msg & Hacc & Hsrc & Hhub & Hcount & _ & _ & ->).
  pose proof (build_report_classification cfg sc nd dc hub sat bv raw recs msg) as Hcls.
  destruct (build_report_counts cfg sc nd dc hub sat bv raw recs msg)
    as (_ & Hnd & _ & Hh & Hs & _).
  cbv zeta in Hcls. rewrite Hnd, Hh, Hs.
  exists w1, (sc, nd, dc), w2, w3, raw, msg.
  repeat split; try assumption.
  rewrite Hcfg in Hcount. simpl in Hcount.
  destruct (count_satellite_answer cfg satellite_table w3 Hsat) as (text & Hans).
  rewrite Hans in Hcount. inversion Hcount. reflexivity.
Qed.

(** ** The extractor *)

Lemma try_except_Ret_inv {A : Type} (m : M World A) (h : string -> M World A) w b w' :
  try_except m h w = (Ret b, w') ->
  m w = (Ret b, w') \/ exists e w1, m w = (Exn e, w1) /\ h e w1 = (Ret b, w').
Proof.
  unfold try_except. destruct (m w) as [[a | e] w1]; intros H.
  - left. exact H.
  - right. exists e, w1. split; [reflexivity | exact H].
Qed.

(** The key-only check leaves the count as it was or resets it to zero,
    and leaves the message as it was or adds its one sentence; it raises
    only when there is no hub table to name. *)
Lemma key_only_check_spec cfg source_table hub_tables missing_count validation_message w out w' :
  key_only_check session cfg source_table hub_tables missing_count validation_message w
  = (out, w') ->
  match out with
  | Ret (count, message) =>
      (count = 0 \/ count = missing_count) /\
      (message = validation_message \/
       exists simplified_count,
         key_check_confirms simplified_count missing_count = true /\
         message = validation_message ++ key_only_sentence simplified_count)
  | Exn _ => hub_tables = []
  end.
Proof.
  unfold key_only_check.
  destruct (truthy (source_key cfg) && truthy (hub_key cfg))%bool.
  - destruct hub_tables as [| hub rest]; unfold bind, first_table, raise, ret.
    + intros H. inversion H. reflexivity.
    + unfold try_except, bind, sql, first_scalar, ret.
      destruct (session _ w) as [[e | rows] w1].
      * intros H. inversion H. split; [right | left]; reflexivity.
      * destruct (first_cell rows) as [simplified_count | e].
        -- destruct (key_check_confirms simplified_count missing_count) eqn:Hconf.
           ++ destruct (simplified_count =? 0); intros H; inversion H;
                (split; [(left; reflexivity) || (right; reflexivity) |]);
                right; exists simplified_count; split; assumption || reflexivity.
           ++ intros H. inversion H. split; [right | left]; reflexivity.
        -- intros H. inversion H. split; [right | left]; reflexivity.
  - unfold ret. intros H. inversion H. split; [right | left]; reflexivity.
Qed.

Lemma validate_missing_records_returns cfg missing_records_count :
  returns (validate_missing_records session cfg missing_records_count).
Proof. unfold validate_missing_records. repeat returns_step. Qed.

(** After validation the difference count is the reported one, or zero. *)
Lemma validate_differences_count cfg source_table satellite_table hub_tables missing_count w
    count message w' :
  validate_differences session cfg source_table satellite_table hub_tables missing_count w
  = (Ret (count, message), w') ->
  count = 0 \/ count = missing_count.
Proof.
  unfold validate_differences. intros H.
  apply bind_Ret_inv in H as (source_count & w1 & _ & H).
  apply bind_Ret_inv in H as (vault_count & w2 & _ & H).
  apply bind_Ret_inv in H as ([count1 message1] & w3 & Hkey & H).
  assert (Hcount1 : count1 = 0 \/ count1 = missing_count).
  { destruct (representation_heuristic source_count vault_count missing_count).
    - apply key_only_check_spec in Hkey. tauto.
    - apply ret_inv in Hkey as [Hkey _]. inversion Hkey. right. reflexivity. }
  destruct (negb (PyStr.nonempty message1)).
  - apply bind_Ret_inv in H as ([validated message2] & w4 & _ & H).
    apply ret_inv in H as [H _]. inversion H. subst. exact Hcount1.
  - apply ret_inv in H as [H _]. inversion H. subst. exact Hcount1.
Qed.

(** What the [try] block hands on: an early return carries count zero and
    no samples; otherwise the count is zero or the one the difference
    query reported. *)
Lemma count_and_validate_spec cfg source_table satellite_table hub_tables w handed w' :
  count_and_validate session cfg source_table satellite_table hub_tables
    (py_str (custom_except_query cfg)) w = (Ret handed, w') ->
  match handed with
  | Return (count, samples, _) => count = 0 /\ samples = []
  | Continue (count, _) => count = 0 \/ difference_count_reported session cfg w count
  end.
Proof.
  unfold count_and_validate. intros H.
  apply try_except_Ret_inv in H as [H | (e & w1 & _ & H)].
  - apply bind_Ret_inv in H as (rows & w1 & Hrows & H).
    apply bind_Ret_inv in H as (missing_count & w2 & Hcell & H).
    unfold sql in Hrows.
    destruct (session (except_count_query (py_str (custom_except_query cfg))) w)
      as [[e | rows'] w1'] eqn:Hsession; [discriminate Hrows |].
    inversion Hrows. subst rows' w1'.
    unfold first_scalar in Hcell. inversion Hcell. subst w2.
    destruct (missing_count =? 0).
    + apply ret_inv in H as [H _]. subst handed. split; reflexivity.
    + apply bind_Ret_inv in H as ([count message] & w3 & Hval & H).
      apply ret_inv in H as [H _]. subst handed.
      apply validate_differences_count in Hval as [-> | ->]; [left; reflexivity |].
      right. exists rows, w1. split; assumption.
  - apply ret_inv in H as [H _]. subst handed. split; reflexivity.
Qed.

(** The count [extract_missing_records] returns is zero or the count the
    difference query reported. *)
Lemma extract_missing_records_count cfg limit w count samples message w' :
  extract_missing_records session cfg limit w = (Ret (count, samples, message), w') ->
  count = 0 \/ difference_count_reported session cfg w count.
Proof.
  unfold extract_missing_records.
  destruct (negb (truthy (custom_except_query cfg))).
  { intros H. apply ret_inv in H as [H _]. inversion H. left. reflexivity. }
  intros H. apply try_except_Ret_inv in H as [H | (e & w1 & _ & H)].
  - cbv zeta in H.
    apply bind_Ret_inv in H as (handed & w1 & Hhanded & H).
    apply count_and_validate_spec in Hhanded.
    destruct handed as [[[c s] m] | [c m]].
    + apply ret_inv in H as [H _]. inversion H. subst. left. tauto.
    + destruct ((c =? 0) || mentions_representation m)%bool.
      * apply ret_inv in H as [H _]. inversion H. left. reflexivity.
      * unfold collect_samples in H.
        apply try_except_Ret_inv in H as [H | (e & w2 & _ & H)].
        -- apply bind_Ret_inv in H as (rows & w2 & _ & H).
           cbv zeta in H.
           destruct (mentions_representation m);
             apply ret_inv in H as [H _]; inversion H;
             [left; reflexivity | subst; exact Hhanded].
        -- apply ret_inv in H as [H _]. inversion H. subst. exact Hhanded.
  - apply ret_inv in H as [H _]. inversion H. left. reflexivity.
Qed.

(** When the difference query reports zero, the extractor returns at once. *)
Lemma extract_missing_records_zero cfg limit w :
  truthy (custom_except_query cfg) = true ->
  difference_count_reported session cfg w 0 ->
  exists w', extract_missing_records session cfg limit w
             = (Ret (0, [], "No record differences found"), w').
Proof.
  intros Hq (rows & w1 & Hsession & Hcell).
  unfold extract_missing_records. rewrite Hq. simpl.
  unfold try_except at 1. cbv zeta. unfold bind at 1.
  unfold count_and_validate, try_except, bind, sql, first_scalar.
  rewrite Hsession, Hcell. simpl. exists w1. reflexivity.
Qed.

(** C7. [extract_missing_records] always returns, and its count is never
    negative when the engine's [COUNT] over the difference query is not;
    when that [COUNT] reports zero, the returned count is zero and the
    sample list is empty, whatever else the engine would answer. *)
Theorem difference_floor cfg limit w :
  (forall v, difference_count_reported session cfg w v -> 0 <= v) ->
  exists count samples message w',
    extract_missing_records session cfg limit w = (Ret (count, samples, message), w') /\
    0 <= count /\
    (difference_count_reported session cfg w 0 -> count = 0 /\ samples = []).
Proof.
  intros Hnonneg.
  destruct (extract_missing_records_returns cfg limit w)
    as ([[count samples] message] & w' & Hrun).
  exists count, samples, message, w'. split; [exact Hrun |]. split.
  - destruct (extract_missing_records_count _ _ _ _ _ _ _ Hrun) as [-> | Hrep];
      [lia | apply Hnonneg; exact Hrep].
  - intros Hzero.
    destruct (truthy (custom_except_query cfg)) eqn:Hq.
    + destruct (extract_missing_records_zero cfg limit w Hq Hzero) as (w2 & Hrun0).
      rewrite Hrun0 in Hrun. inversion Hrun. split; reflexivity.
    + unfold extract_missing_records in Hrun. rewrite Hq in Hrun. simpl in Hrun.
      apply ret_inv in Hrun as [Hrun _]. inversion Hrun. split; reflexivity.
Qed.

(** The representation message is never empty and always carries the
    words the later tests look for, whatever follows it. *)
Lemma representation_message_nonempty sc vc m tail :
  PyStr.nonempty (representation_message sc vc m ++ tail) = true.
Proof. reflexivity. Qed.

Lemma representation_message_mentions sc vc m tail :
  mentions_representation (representation_message sc vc m ++ tail) = true.
Proof. reflexivity. Qed.

Lemma append_empty (s : string) : s ++ "" = s.
Proof. induction s as [| c s IH]; simpl; [| rewrite IH]; reflexivity. Qed.

Lemma append_associative (s t u : string) : (s ++ t) ++ u = s ++ t ++ u.
Proof. induction s as [| c s IH]; simpl; [| rewrite IH]; reflexivity. Qed.

Lemma representation_heuristic_positive sc vc m :
  representation_heuristic sc vc m = true -> (m =? 0) = false.
Proof.
  unfold representation_heuristic. intros H.
  apply andb_prop in H as [_ H]. apply andb_prop in H as [_ H].
  apply Z.eqb_neq. apply Z.ltb_lt in H. lia.
Qed.

(** With the heuristic triggered, validation is the key-only check. *)
Lemma validate_differences_triggered cfg source_table satellite_table hub_tables
    missing_count w1 source_count w2 vault_count w3 out w4 :
  compare_source_count session cfg source_table w1 = (Ret source_count, w2) ->
  compare_vault_count session cfg satellite_table hub_tables w2 = (Ret vault_count, w3) ->
  representation_heuristic source_count vault_count missing_count = true ->
  key_only_check session cfg source_table hub_tables missing_count
    (representation_message source_count vault_count missing_count) w3 = (out, w4) ->
  validate_differences session cfg source_table satellite_table hub_tables missing_count w1
  = (out, w4).
Proof.
  intros Hsc Hvc Hh Hk. unfold validate_differences.
  unfold bind at 1. rewrite Hsc. unfold bind at 1. rewrite Hvc.
  rewrite Hh. unfold bind at 1. rewrite Hk.
  pose proof (key_only_check_spec _ _ _ _ _ _ _ _ Hk) as Hspec.
  destruct out as [[count message] | e]; [| reflexivity].
  destruct Hspec as (_ & [-> | (s & _ & ->)]).
  - rewrite <- (append_empty (representation_message _ _ _)).
    rewrite representation_message_nonempty. reflexivity.
  - rewrite representation_message_nonempty. reflexivity.
Qed.

(** Without it, validation is [validate_missing_records], whose count is
    not used. *)
Lemma validate_differences_plain cfg source_table satellite_table hub_tables
    missing_count w1 source_count w2 vault_count w3 validated message w4 :
  compare_source_count session cfg source_table w1 = (Ret source_count, w2) ->
  compare_vault_count session cfg satellite_table hub_tables w2 = (Ret vault_count, w3) ->
  representation_heuristic source_count vault_count missing_count = false ->
  validate_missing_records session cfg missing_count w3 = (Ret (validated, message), w4) ->
  validate_differences session cfg source_table satellite_table hub_tables missing_count w1
  = (Ret (missing_count, message), w4).
Proof.
  intros Hsc Hvc Hh Hv. unfold validate_differences.
  unfold bind at 1. rewrite Hsc. unfold bind at 1. rewrite Hvc.
  rewrite Hh. unfold bind at 1. unfold ret at 1. simpl.
  unfold bind. rewrite Hv. reflexivity.
Qed.

(** The [try] block, from the answer to the difference count on. *)
Lemma count_and_validate_from cfg source_table satellite_table hub_tables q
    w rows w1 missing_count out w2 :
  session (except_count_query q) w = (Collect rows, w1) ->
  first_cell rows = Ret missing_count ->
  (missing_count =? 0) = false ->
  validate_differences session cfg source_table satellite_table hub_tables missing_count w1
  = (out, w2) ->
  count_and_validate session cfg source_table satellite_table hub_tables q w
  = (match out with
     | Ret validated => Ret (Continue validated)
     | Exn e => Ret (Return (0, [], "Error counting record differences: " ++ e))
     end, w2).
Proof.
  intros Hs Hc Hm Hv.
  unfold count_and_validate, try_except, bind, sql, first_scalar.
  rewrite Hs, Hc, Hm, Hv. destruct out; reflexivity.
Qed.

Lemma collect_samples_returns meta q limit missing_count validation_message :
  returns (collect_samples session meta q limit missing_count validation_message).
Proof. unfold collect_samples. repeat returns_step. Qed.

(** [extract_missing_records], from what the [try] block hands on. *)
Lemma extract_missing_records_from cfg limit w handed w1 :
  truthy (custom_except_query cfg) = true ->
  count_and_validate session cfg
    (get_default "UNKNOWN_SOURCE" (source_table cfg))
    (get_default "UNKNOWN_SATELLITE" (cur_satellite_table cfg))
    (hub_table_list "UNKNOWN_HUB" cfg)
    (py_str (custom_except_query cfg)) w = (Ret handed, w1) ->
  extract_missing_records session cfg limit w
  = match handed with
    | Return r => (Ret r, w1)
    | Continue (missing_count, validation_message) =>
        if ((missing_count =? 0) || mentions_representation validation_message)%bool
        then (Ret (0, [], validation_message), w1)
        else collect_samples session (sample_metadata cfg)
               (py_str (custom_except_query cfg)) limit missing_count validation_message w1
    end.
Proof.
  intros Hq Hh. unfold extract_missing_records. rewrite Hq. simpl.
  unfold try_except at 1. cbv zeta. unfold bind at 1. rewrite Hh.
  destruct handed as [r | [missing_count validation_message]]; [reflexivity |].
  destruct ((missing_count =? 0) || mentions_representation validation_message)%bool;
    [reflexivity |].
  destruct (collect_samples_returns (sample_metadata cfg) (py_str (custom_except_query cfg))
              limit missing_count validation_message w1) as (r & w2 & ->).
  reflexivity.
Qed.

(** The sampling when the sample query answers. *)
Lemma collect_samples_answered meta q limit missing_count validation_message w rows w' :
  session (sample_query q (sample_limit_for limit missing_count)) w = (Collect rows, w') ->
  collect_samples session meta q limit missing_count validation_message w
  = (Ret (if mentions_representation validation_message then 0 else missing_count,
          (map (fun r => DifferenceRow (safe_json_conversion r) meta) rows
           ++ (if sample_limit_for limit missing_count <? missing_count
               then [SummaryNote (note_text (sample_limit_for limit missing_count) missing_count)
                       validation_message meta]
               else []))%list,
          validation_message), w').
Proof.
  intros Hs. unfold collect_samples, try_except, bind, sql. rewrite Hs.
  unfold ret. destruct (sample_limit_for limit missing_count <? missing_count).
  - reflexivity.
  - rewrite app_nil_r. reflexivity.
Qed.

(** What the key-only check returns when both keys are configured and
    there is a hub table to name: the engine's answer to the key-only
    query decides. *)
Lemma key_only_check_answer cfg source_table hub rest missing_count validation_message w :
  (truthy (source_key cfg) && truthy (hub_key cfg))%bool = true ->
  let key_only_query :=
    simplified_check_query (py_str (source_key cfg)) source_table
      (get_default "TRUE" (deleted_column cfg)) (py_str (hub_key cfg)) hub in
  key_only_check session cfg source_table (hub :: rest) missing_count validation_message w
  = (Ret match fst (session key_only_query w) with
         | Collect answer =>
             match first_cell answer with
             | Ret k =>
                 if key_check_confirms k missing_count
                 then (if k =? 0 then 0 else missing_count,
                       validation_message ++ key_only_sentence k)
                 else (missing_count, validation_message)
             | Exn _ => (missing_count, validation_message)
             end
         | Raises _ => (missing_count, validation_message)
         end,
     snd (session key_only_query w)).
Proof.
  intros Hkeys key_only_query. unfold key_only_check. rewrite Hkeys.
  unfold first_table. rewrite (bind_Ret _ _ _ hub w eq_refl).
  fold key_only_query.
  unfold try_except, bind, sql, first_scalar.
  destruct (session key_only_query w) as [[e | answer] w1]; [reflexivity |].
  cbn [fst snd]. destruct (first_cell answer) as [k | e]; [| reflexivity].
  destruct (key_check_confirms k missing_count); [| reflexivity].
  destruct (k =? 0); reflexivity.
Qed.

(** With the heuristic triggered, the extractor returns count zero and no
    samples, with the message the key-only check leaves. *)
Lemma extract_missing_records_triggered cfg limit w rows w1 missing_count
    source_count w2 vault_count w3 out w4 :
  truthy (custom_except_query cfg) = true ->
  session (except_count_query (py_str (custom_except_query cfg))) w = (Collect rows, w1) ->
  first_cell rows = Ret missing_count ->
  compare_source_count session cfg (get_default "UNKNOWN_SOURCE" (source_table cfg)) w1
  = (Ret source_count, w2) ->
  compare_vault_count session cfg
    (get_default "UNKNOWN_SATELLITE" (cur_satellite_table cfg))
    (hub_table_list "UNKNOWN_HUB" cfg) w2 = (Ret vault_count, w3) ->
  representation_heuristic source_count vault_count missing_count = true ->
  key_only_check session cfg (get_default "UNKNOWN_SOURCE" (source_table cfg))
    (hub_table_list "UNKNOWN_HUB" cfg) missing_count
    (representation_message source_count vault_count missing_count) w3 = (out, w4) ->
  extract_missing_records session cfg limit w
  = (Ret (0, [],
          match out with
          | Ret (_, message) => message
          | Exn e => "Error counting record differences: " ++ e
          end), w4).
Proof.
  intros Hq Hs Hc Hsc Hvc Hh Hk.
  pose proof (key_only_check_spec _ _ _ _ _ _ _ _ Hk) as Hspec.
  pose proof (validate_differences_triggered _ _ _ _ _ _ _ _ _ _ _ _ Hsc Hvc Hh Hk) as Hv.
  pose proof (count_and_validate_from _ _ _ _ _ _ _ _ _ _ _ Hs Hc
                (representation_heuristic_positive _ _ _ Hh) Hv) as Hcv.
  destruct out as [[count message] | e].
  - rewrite (extract_missing_records_from cfg limit w _ w4 Hq Hcv).
    destruct Hspec as (_ & Hmsg).
    assert (Hm : mentions_representation message = true).
    { destruct Hmsg as [-> | (s & _ & ->)].
      - rewrite <- (append_empty (representation_message _ _ _)).
        apply representation_message_mentions.
      - apply representation_message_mentions. }
    rewrite Hm, orb_true_r. reflexivity.
  - rewrite (extract_missing_records_from cfg limit w _ w4 Hq Hcv). reflexivity.
Qed.

(** C2, as the code has it. For every mapping where the representation
    heuristic triggers, [extract_missing_records] returns count zero and an
    empty sample list, whatever the key-only count is and also when the
    key-only query fails, and "All records verified" is never the message.
    The key-only check only decides the message: with both keys configured
    and [k] the count the engine answers to the key-only query, the
    message is the representation message followed by the sentence
    "Key-only validation found only k truly missing records, ..." when [k]
    is zero or less than a tenth of the difference count, and the bare
    representation message when [k] is larger, when the query raises or
    answers an empty row, and when a key is not configured; without any
    hub table to name, the message reports the failed look-up. *)
Theorem representation_heuristic_returns_zero cfg limit w rows w1 missing_count
    source_count w2 vault_count w3 :
  truthy (custom_except_query cfg) = true ->
  session (except_count_query (py_str (custom_except_query cfg))) w = (Collect rows, w1) ->
  first_cell rows = Ret missing_count ->
  compare_source_count session cfg (get_default "UNKNOWN_SOURCE" (source_table cfg)) w1
  = (Ret source_count, w2) ->
  compare_vault_count session cfg
    (get_default "UNKNOWN_SATELLITE" (cur_satellite_table cfg))
    (hub_table_list "UNKNOWN_HUB" cfg) w2 = (Ret vault_count, w3) ->
  representation_heuristic source_count vault_count missing_count = true ->
  let base := representation_message source_count vault_count missing_count in
  let keys := (truthy (source_key cfg) && truthy (hub_key cfg))%bool in
  exists message w',
    extract_missing_records session cfg limit w = (Ret (0, [], message), w') /\
    message <> "All records verified" /\
    (keys = false -> message = base /\ w' = w3) /\
    (keys = true -> hub_table_list "UNKNOWN_HUB" cfg = [] ->
     message = "Error counting record differences: list index out of range" /\ w' = w3) /\
    (forall hub rest,
        keys = true -> hub_table_list "UNKNOWN_HUB" cfg = hub :: rest ->
        let key_only_query :=
          simplified_check_query (py_str (source_key cfg))
            (get_default "UNKNOWN_SOURCE" (source_table cfg))
            (get_default "TRUE" (deleted_column cfg)) (py_str (hub_key cfg)) hub in
        w' = snd (session key_only_query w3) /\
        match fst (session key_only_query w3) with
        | Raises _ => message = base
        | Collect answer =>
            match first_cell answer with
            | Ret k =>
                (k = 0 \/ 10 * k < missing_count ->
                 message = base ++ key_only_sentence k) /\
                (k <> 0 -> missing_count <= 10 * k -> message = base)
            | Exn _ => message = base
            end
        end).
Proof.
  intros Hq Hs Hc Hsc Hvc Hh base keys.
  destruct (key_only_check session cfg (get_default "UNKNOWN_SOURCE" (source_table cfg))
              (hub_table_list "UNKNOWN_HUB" cfg) missing_count base w3)
    as [out w4] eqn:Hk.
  pose proof (key_only_check_spec _ _ _ _ _ _ _ _ Hk) as Hspec.
  pose proof (extract_missing_records_triggered cfg limit _ _ _ _ _ _ _ _ _ _
                Hq Hs Hc Hsc Hvc Hh Hk) as Hrun.
  eexists. exists w4. split; [exact Hrun |].
  split.
  { destruct out as [[count message] | e]; [| discriminate].
    destruct Hspec as (_ & Hmsg). intros Heq.
    assert (Hm : mentions_representation message = true).
    { destruct Hmsg as [-> | (s & _ & ->)].
      - unfold base. rewrite <- (append_empty (representation_message _ _ _)).
        apply representation_message_mentions.
      - apply representation_message_mentions. }
    rewrite Heq in Hm. discriminate Hm. }
  split.
  { intros Hkeys. unfold key_only_check in Hk. fold keys in Hk. rewrite Hkeys in Hk.
    unfold ret in Hk. injection Hk as <- <-. split; reflexivity. }
  split.
  { intros Hkeys Hhubs. unfold key_only_check in Hk. fold keys in Hk.
    rewrite Hkeys, Hhubs in Hk. unfold bind, first_table, raise in Hk.
    injection Hk as <- <-. split; reflexivity. }
  intros hub rest Hkeys Hhubs key_only_query.
  rewrite Hhubs in Hk.
  rewrite (key_only_check_answer cfg _ hub rest missing_count base w3 Hkeys) in Hk.
  fold key_only_query in Hk.
  injection Hk as <- <-. split; [reflexivity |].
  destruct (fst (session key_only_query w3)) as [e | answer]; [reflexivity |].
  destruct (first_cell answer) as [k | e]; [| reflexivity].
  unfold key_check_confirms.
  destruct (Z.eqb_spec k 0) as [Hzero | Hnonzero]; cbn [orb].
  - split; [reflexivity | intros Hne; contradiction].
  - destruct (Z.ltb_spec (10 * k) missing_count) as [Hlow | Hhigh].
    + split; [reflexivity | intros _ ?; exfalso; lia].
    + split; [intros [? | ?]; exfalso; lia | reflexivity].
Qed.

(** C9, as the code has it. For every mapping whose difference count is
    5000 and that validation does not classify as a representation
    difference, with the default limit 10 and a sample query that answers,
    [extract_missing_records] returns count 5000 and a sample list made of
    one difference row per row the engine returned to the LIMIT 10 query
    (ten, when it returned ten) followed by one summary entry that reads
    "Showing 10 of 5000 total records with differences". *)
Theorem sample_cap cfg w rows0 w1 source_count w2 vault_count w3 validated message w4
    sampled w5 :
  truthy (custom_except_query cfg) = true ->
  session (except_count_query (py_str (custom_except_query cfg))) w = (Collect rows0, w1) ->
  first_cell rows0 = Ret 5000 ->
  compare_source_count session cfg (get_default "UNKNOWN_SOURCE" (source_table cfg)) w1
  = (Ret source_count, w2) ->
  compare_vault_count session cfg
    (get_default "UNKNOWN_SATELLITE" (cur_satellite_table cfg))
    (hub_table_list "UNKNOWN_HUB" cfg) w2 = (Ret vault_count, w3) ->
  representation_heuristic source_count vault_count 5000 = false ->
  validate_missing_records session cfg 5000 w3 = (Ret (validated, message), w4) ->
  mentions_representation message = false ->
  session (sample_query (py_str (custom_except_query cfg)) 10) w4 = (Collect sampled, w5) ->
  let samples :=
    (map (fun r => DifferenceRow r (sample_metadata cfg)) sampled
     ++ [SummaryNote "Showing 10 of 5000 total records with differences"
           message (sample_metadata cfg)])%list in
  extract_missing_records session cfg 10 w = (Ret (5000, samples, message), w5) /\
  List.length (filter is_difference_row samples) = List.length sampled /\
  (List.length sampled = 10%nat -> List.length samples = 11%nat).
Proof.
  intros Hq Hs Hc Hsc Hvc Hh Hv Hm Hsample samples.
  pose proof (validate_differences_plain _ _ _ _ _ _ _ _ _ _ _ _ _ Hsc Hvc Hh Hv) as Hval.
  pose proof (count_and_validate_from _ _ _ _ _ _ _ _ _ _ _ Hs Hc eq_refl Hval) as Hcv.
  split; [| split].
  - rewrite (extract_missing_records_from cfg 10 w _ w4 Hq Hcv).
    rewrite Hm. simpl orb. cbv iota.
    rewrite (collect_samples_answered (sample_metadata cfg)
               (py_str (custom_except_query cfg)) 10 5000 message w4 sampled w5 Hsample).
    rewrite Hm. reflexivity.
  - subst samples. rewrite filter_app. simpl. rewrite app_nil_r.
    clear Hsample. induction sampled as [| r rest IH]; simpl; [reflexivity |].
    f_equal. exact IH.
  - intros Hlen. subst samples. rewrite length_app, length_map, Hlen. reflexivity.
Qed.

(** ** The classifier of [main] *)

(** The override of the cross-check on the numbers of the claim. *)
Lemma cross_check_override data_representation_differences validation_message
    non_deleted_count sat_count hub_count :
  expected_diff non_deleted_count sat_count hub_count = 2 ->
  cross_check 20 data_representation_differences validation_message
    non_deleted_count sat_count hub_count
  = (0, 20,
     validation_message
       ++ " Count comparison shows expected diff of 2 vs. reported 20."
       ++ " Based on count comparison, there appears to be no actual data loss, only representation differences.").
Proof.
  intros Hed. unfold cross_check. rewrite Hed. simpl.
  rewrite append_associative. reflexivity.
Qed.

(** C4. For every processed mapping, when the split of the extractor's
    result leaves a true-missing count of 20 and the cross-check finds an
    expected difference of 2, the report has
    [SOURCE_TO_VAULT_DIFFERENCES = 0] and
    [DATA_REPRESENTATION_DIFFERENCES = 20]. *)
Theorem classifier_override cfg w r w' :
  process_config session cfg w = (Ret (Some r), w') ->
  exists w5 raw difference_records validation_message,
    extract_missing_records session cfg 10 w5
    = (Ret (raw, difference_records, validation_message), w') /\
    forall data_representation_differences,
      classify_split raw validation_message = (20, data_representation_differences) ->
      expected_diff (SOURCE_COUNT_NONDELETED r) (SATELLITE_COUNT r) (HUB_COUNT r) = 2 ->
      SOURCE_TO_VAULT_DIFFERENCES r = 0 /\ DATA_REPRESENTATION_DIFFERENCES r = 20.
Proof.
  intros H.
  apply process_config_inv in H
    as (w1 & sc & nd & dc & w2 & hub & w3 & sat & satq & w4 & bv & bvq & w5
        & raw & recs & msg & _ & _ & _ & _ & _ & Hext & ->).
  exists w5, raw, recs, msg. split; [exact Hext |].
  intros drd Hsplit.
  pose proof (build_report_classification cfg sc nd dc hub sat bv raw recs msg) as Hcls.
  destruct (build_report_counts cfg sc nd dc hub sat bv raw recs msg)
    as (_ & Hnd & _ & Hh & Hs & _).
  cbv zeta in Hcls. rewrite Hnd, Hh, Hs. intros Hed.
  unfold classify in Hcls. rewrite Hsplit in Hcls.
  rewrite (cross_check_override drd msg nd sat hub Hed) in Hcls.
  inversion Hcls. split; reflexivity.
Qed.

End EngineProperties.

(** ** The first split and the cross-check together *)

(** A positive count that no message reclassifies and that the override
    leaves alone ends up in both fields. *)
Lemma classify_unreclassified raw validation_message non_deleted_count sat_count hub_count :
  0 < raw ->
  mentions_representation validation_message = false ->
  mentions_key_only validation_message = false ->
  5 <= expected_diff non_deleted_count sat_count hub_count \/ raw <= 10 ->
  exists message,
    classify raw validation_message non_deleted_count sat_count hub_count
    = (raw, raw, message).
Proof.
  intros Hraw Hrep Hkey Hno.
  unfold classify, classify_split. rewrite Hrep, Hkey.
  unfold cross_check.
  destruct (0 <? raw); [| eexists; reflexivity].
  destruct (beyond_variance raw (expected_diff non_deleted_count sat_count hub_count));
    [| eexists; reflexivity].
  assert (Hover : ((expected_diff non_deleted_count sat_count hub_count <? 5)
                   && (10 <? raw))%bool = false).
  { apply andb_false_iff. destruct Hno as [Hed | Hsmall].
    - left. apply Z.ltb_ge. exact Hed.
    - right. apply Z.ltb_ge. exact Hsmall. }
  rewrite Hover. eexists. reflexivity.
Qed.

(** A message that mentions representation differences moves the whole
    count to the representation side, and the cross-check leaves it
    there. *)
Lemma classify_representation raw validation_message non_deleted_count sat_count hub_count :
  mentions_representation validation_message = true ->
  classify raw validation_message non_deleted_count sat_count hub_count
  = (0, raw, validation_message).
Proof.
  intros Hrep. unfold classify, classify_split. rewrite Hrep. reflexivity.
Qed.

(** ** The bizview reconciliation *)

(** C8. For a bizview named [fact_sales] with reference count 1000 and
    bizview count 600, the raw difference is 400, the direction is
    smaller, the threshold is max(5, 20% of 1000) = 200, and the
    reconciliation reports zero missing records although 400 exceeds the
    threshold: the filtering pattern applies and 400/1000 is below 0.95. *)
Theorem fact_sales_filtering_suppressed bizview_table satellite_table
    hub_count sat_count non_deleted_count :
  bizview_name_of bizview_table = "fact_sales" ->
  fst (bizview_reference Fact satellite_table hub_count sat_count non_deleted_count) = 1000 ->
  exists c,
    bizview_reconcile bizview_table satellite_table
      hub_count sat_count non_deleted_count 600 = Ret c /\
    bc_kind c = Fact /\
    bc_reference_count c = 1000 /\
    bc_raw_difference c = 400 /\
    bc_direction c = BizviewSmaller /\
    bc_threshold c = 200 /\
    filtering_pattern (bizview_name_of bizview_table) = true /\
    ratio_below_95 400 1000 = Ret true /\
    bc_missing c = 0.
Proof.
  intros Hname Href. unfold bizview_reconcile. rewrite Hname.
  change (bizview_kind_of "fact_sales") with Fact.
  destruct (bizview_reference Fact satellite_table hub_count sat_count non_deleted_count)
    as [reference_count reference_type].
  simpl in Href. subst reference_count.
  eexists. split; [reflexivity |]. repeat split.
Qed.

(** ** More on the bizview reconciliation *)

(** An empty bizview against a positive reference count. *)
Lemma bizview_reconcile_empty bizview_table satellite_table
    hub_count sat_count non_deleted_count :
  let k := bizview_kind_of (bizview_name_of bizview_table) in
  let reference_count :=
    fst (bizview_reference k satellite_table hub_count sat_count non_deleted_count) in
  0 < reference_count ->
  exists c,
    bizview_reconcile bizview_table satellite_table
      hub_count sat_count non_deleted_count 0 = Ret c /\
    bc_reference_count c = reference_count /\
    bc_missing c = reference_count.
Proof.
  intros k reference_count Hpos. subst k reference_count.
  unfold bizview_reconcile.
  destruct (bizview_reference (bizview_kind_of (bizview_name_of bizview_table))
              satellite_table hub_count sat_count non_deleted_count)
    as [reference_count reference_type].
  simpl in Hpos.
  destruct (0 <=? reference_count); simpl;
    (replace (0 <? reference_count) with true
       by (symmetry; apply Z.ltb_lt; exact Hpos));
    eexists; split; reflexivity || (split; reflexivity).
Qed.

(** X1. An empty bizview against a positive reference count is reported
    in full: missing is the reference count, whatever the name, the kind
    and the threshold. *)
Theorem empty_bizview_reports_reference bizview_table satellite_table
    hub_count sat_count non_deleted_count :
  let k := bizview_kind_of (bizview_name_of bizview_table) in
  let reference_count :=
    fst (bizview_reference k satellite_table hub_count sat_count non_deleted_count) in
  0 < reference_count ->
  exists c,
    bizview_reconcile bizview_table satellite_table
      hub_count sat_count non_deleted_count 0 = Ret c /\
    bc_reference_count c = reference_count /\
    bc_missing c = reference_count.
Proof.
  exact (bizview_reconcile_empty bizview_table satellite_table
           hub_count sat_count non_deleted_count).
Qed.

(** X2. With a bizview count that is not negative the reconciliation
    never divides by zero: it always yields a comparison. *)
Theorem bizview_reconcile_yields bizview_table satellite_table
    hub_count sat_count non_deleted_count bizview_count :
  0 <= bizview_count ->
  exists c,
    bizview_reconcile bizview_table satellite_table
      hub_count sat_count non_deleted_count bizview_count = Ret c.
Proof.
  intros Hbv. unfold bizview_reconcile.
  destruct (bizview_reference (bizview_kind_of (bizview_name_of bizview_table))
              satellite_table hub_count sat_count non_deleted_count)
    as [reference_count reference_type].
  set (threshold := bizview_threshold _ reference_count).
  assert (Hth : 5 <= threshold) by (subst threshold; unfold bizview_threshold; lia).
  destruct (Z.leb_spec bizview_count reference_count) as [Hle | Hgt].
  - destruct ((bizview_count =? 0) && (0 <? reference_count))%bool;
      [eexists; reflexivity |].
    destruct (Z.ltb_spec threshold (reference_count - bizview_count)) as [Hover | Hin];
      [| eexists; reflexivity].
    destruct (filtering_pattern (bizview_name_of bizview_table));
      [| eexists; reflexivity].
    unfold ratio_below_95.
    destruct (Z.eqb_spec reference_count 0) as [Hzero | Hnz]; [lia |].
    destruct (0 <? reference_count);
      match goal with |- context [if ?b then _ else _] => destruct b end;
      eexists; reflexivity.
  - destruct ((bizview_count =? 0) && (0 <? reference_count))%bool;
      [eexists; reflexivity |].
    destruct (threshold <? bizview_count - reference_count); eexists; reflexivity.
Qed.

(** The bounds on what the reconciliation yields. *)
Lemma bizview_reconcile_bounds bizview_table satellite_table
    hub_count sat_count non_deleted_count bizview_count c :
  bizview_reconcile bizview_table satellite_table
    hub_count sat_count non_deleted_count bizview_count = Ret c ->
  bc_raw_difference c = Z.abs (bc_reference_count c - bizview_count) /\
  (bc_missing c = 0 \/ bc_missing c = bc_raw_difference c) /\
  0 <= bc_missing c /\
  5 <= bc_threshold c.
Proof.
  unfold bizview_reconcile.
  destruct (bizview_reference (bizview_kind_of (bizview_name_of bizview_table))
              satellite_table hub_count sat_count non_deleted_count)
    as [reference_count reference_type].
  set (threshold := bizview_threshold _ reference_count).
  assert (Hth : 5 <= threshold) by (subst threshold; unfold bizview_threshold; lia).
  destruct (Z.leb_spec bizview_count reference_count) as [Hle | Hgt].
  - destruct (Z.eqb_spec bizview_count 0) as [Hbv | Hbv]; simpl.
    + destruct (Z.ltb_spec 0 reference_count) as [Hpos | Hnp].
      * intros H. inversion H. simpl. repeat split; lia.
      * destruct (threshold <? reference_count - bizview_count).
        -- destruct (filtering_pattern (bizview_name_of bizview_table)).
           ++ destruct (ratio_below_95 (reference_count - bizview_count) reference_count)
                as [[|] | e]; intros H; inversion H; simpl; repeat split; lia.
           ++ intros H; inversion H; simpl; repeat split; lia.
        -- intros H; inversion H; simpl; repeat split; lia.
    + destruct (threshold <? reference_count - bizview_count).
      * destruct (filtering_pattern (bizview_name_of bizview_table)).
        -- destruct (ratio_below_95 (reference_count - bizview_count) reference_count)
             as [[|] | e]; intros H; inversion H; simpl; repeat split; lia.
        -- intros H; inversion H; simpl; repeat split; lia.
      * intros H; inversion H; simpl; repeat split; lia.
  - destruct ((bizview_count =? 0) && (0 <? reference_count))%bool eqn:Hfirst.
    + apply andb_prop in Hfirst as [Hz Hp].
      apply Z.eqb_eq in Hz. apply Z.ltb_lt in Hp. lia.
    + destruct (threshold <? bizview_count - reference_count);
        intros H; inversion H; simpl; repeat split; lia.
Qed.

(** X3. Whatever the reconciliation yields, the missing count is either
    zero or the raw difference, the raw difference is the distance between
    the reference count and the bizview count, the threshold is at least
    5, and so the missing count is never negative. *)
Theorem bizview_missing_is_zero_or_raw_difference bizview_table satellite_table
    hub_count sat_count non_deleted_count bizview_count c :
  bizview_reconcile bizview_table satellite_table
    hub_count sat_count non_deleted_count bizview_count = Ret c ->
  bc_raw_difference c = Z.abs (bc_reference_count c - bizview_count) /\
  (bc_missing c = 0 \/ bc_missing c = bc_raw_difference c) /\
  0 <= bc_missing c /\
  5 <= bc_threshold c.
Proof.
  exact (bizview_reconcile_bounds bizview_table satellite_table
           hub_count sat_count non_deleted_count bizview_count c).
Qed.

(** X4. A bizview that is not empty and whose count lies within the
    threshold of the reference count, on either side, is not reported. *)
Theorem bizview_within_threshold_not_reported bizview_table satellite_table
    hub_count sat_count non_deleted_count bizview_count :
  let k := bizview_kind_of (bizview_name_of bizview_table) in
  let reference_count :=
    fst (bizview_reference k satellite_table hub_count sat_count non_deleted_count) in
  bizview_count <> 0 ->
  Z.abs (reference_count - bizview_count) <= bizview_threshold k reference_count ->
  exists c,
    bizview_reconcile bizview_table satellite_table
      hub_count sat_count non_deleted_count bizview_count = Ret c /\
    bc_missing c = 0.
Proof.
  intros k reference_count Hbv Hin. subst k reference_count.
  unfold bizview_reconcile.
  destruct (bizview_reference (bizview_kind_of (bizview_name_of bizview_table))
              satellite_table hub_count sat_count non_deleted_count)
    as [reference_count reference_type].
  simpl in Hin.
  set (threshold := bizview_threshold _ reference_count) in *.
  destruct (Z.eqb_spec bizview_count 0) as [Hz | _]; [contradiction |]. simpl.
  destruct (Z.leb_spec bizview_count reference_count) as [Hle | Hgt].
  - destruct (Z.ltb_spec threshold (reference_count - bizview_count)); [lia |].
    eexists; split; reflexivity.
  - destruct (Z.ltb_spec threshold (bizview_count - reference_count)); [lia |].
    eexists; split; reflexivity.
Qed.

(** X5. A bizview with more rows than the reference count plus the
    threshold is always reported with the excess, also for the names for
    which filtering is expected. *)
Theorem bizview_excess_reported bizview_table satellite_table
    hub_count sat_count non_deleted_count bizview_count :
  let k := bizview_kind_of (bizview_name_of bizview_table) in
  let reference_count :=
    fst (bizview_reference k satellite_table hub_count sat_count non_deleted_count) in
  reference_count + bizview_threshold k reference_count < bizview_count ->
  exists c,
    bizview_reconcile bizview_table satellite_table
      hub_count sat_count non_deleted_count bizview_count = Ret c /\
    bc_direction c = BizviewLarger /\
    bc_missing c = bizview_count - reference_count.
Proof.
  intros k reference_count Hover. subst k reference_count.
  unfold bizview_reconcile.
  destruct (bizview_reference (bizview_kind_of (bizview_name_of bizview_table))
              satellite_table hub_count sat_count non_deleted_count)
    as [reference_count reference_type].
  simpl in Hover.
  set (threshold := bizview_threshold _ reference_count) in *.
  assert (Hth : 5 <= threshold) by (subst threshold; unfold bizview_threshold; lia).
  destruct (Z.leb_spec bizview_count reference_count) as [Hle | Hgt]; [lia |].
  destruct (Z.eqb_spec bizview_count 0) as [Hz | _]; simpl.
  - destruct (Z.ltb_spec 0 reference_count); [lia |].
    destruct (Z.ltb_spec threshold (bizview_count - reference_count)); [| lia].
    eexists; repeat split.
  - destruct (Z.ltb_spec threshold (bizview_count - reference_count)); [| lia].
    eexists; repeat split.
Qed.

(** X6. A bizview that is not empty and falls short of the reference
    count by more than the threshold is reported with the shortfall,
    unless its name matches a filtering pattern ([fact_*], [*_current],
    [*_active]) and the shortfall is below 95% of the reference count:
    exactly then nothing is reported. *)
Theorem bizview_shortfall_suppressed_only_by_pattern bizview_table satellite_table
    hub_count sat_count non_deleted_count bizview_count :
  let name := bizview_name_of bizview_table in
  let k := bizview_kind_of name in
  let reference_count :=
    fst (bizview_reference k satellite_table hub_count sat_count non_deleted_count) in
  0 < bizview_count ->
  bizview_threshold k reference_count < reference_count - bizview_count ->
  exists c,
    bizview_reconcile bizview_table satellite_table
      hub_count sat_count non_deleted_count bizview_count = Ret c /\
    bc_direction c = BizviewSmaller /\
    (bc_missing c = 0 \/ bc_missing c = reference_count - bizview_count) /\
    (bc_missing c = 0 <->
     filtering_pattern name = true /\
     20 * (reference_count - bizview_count) < 19 * reference_count).
Proof.
  intros name k reference_count Hbv Hshort. subst name k reference_count.
  unfold bizview_reconcile.
  destruct (bizview_reference (bizview_kind_of (bizview_name_of bizview_table))
              satellite_table hub_count sat_count non_deleted_count)
    as [reference_count reference_type].
  cbn [fst] in Hshort |- *.
  set (threshold := bizview_threshold _ reference_count) in *.
  assert (Hth : 5 <= threshold) by (subst threshold; unfold bizview_threshold; lia).
  destruct (Z.leb_spec bizview_count reference_count) as [Hle | Hgt]; [| lia].
  destruct (Z.eqb_spec bizview_count 0) as [Hz | _]; [lia |]. cbn [andb].
  destruct (Z.ltb_spec threshold (reference_count - bizview_count)); [| lia].
  destruct (filtering_pattern (bizview_name_of bizview_table)).
  - unfold ratio_below_95.
    destruct (Z.eqb_spec reference_count 0); [lia |].
    destruct (Z.ltb_spec 0 reference_count); [| lia].
    destruct (Z.ltb_spec (20 * (reference_count - bizview_count)) (19 * reference_count)).
    + eexists. split; [reflexivity |]. cbn [bc_missing bc_direction].
      split; [reflexivity |]. split; [left; reflexivity |].
      split; intros _; [split; [reflexivity | assumption] | reflexivity].
    + eexists. split; [reflexivity |]. cbn [bc_missing bc_direction].
      split; [reflexivity |]. split; [right; reflexivity |].
      split; [intros ?; exfalso; lia | intros [_ ?]; lia].
  - eexists. split; [reflexivity |]. cbn [bc_missing bc_direction].
    split; [reflexivity |]. split; [right; reflexivity |].
    split; [intros ?; exfalso; lia | intros [? _]; discriminate].
Qed.

(** ** More on the classifier of [main] *)

Lemma prefix_append (s t : string) : String.prefix s (s ++ t) = true.
Proof.
  induction s as [| c s IH]; simpl; [destruct t; reflexivity |].
  destruct (Ascii.ascii_dec c c) as [_ | Hne]; [exact IH | contradiction].
Qed.

Lemma prefix_transitive_append (s t u : string) :
  String.prefix s t = true -> String.prefix s (t ++ u) = true.
Proof.
  revert t. induction s as [| c s IH]; intros t H; [destruct (t ++ u); reflexivity |].
  destruct t as [| c' t]; simpl in H; [discriminate H |].
  simpl. destruct (Ascii.ascii_dec c c'); [apply IH; exact H | discriminate H].
Qed.

Lemma expected_diff_nonnegative non_deleted_count sat_count hub_count :
  0 <= expected_diff non_deleted_count sat_count hub_count.
Proof. unfold expected_diff. lia. Qed.

(** X7. Whenever the expected difference is below 5 and the true-missing
    count is above 10, the cross-check moves the whole true-missing count
    to the representation side: the variance test before it never stands
    in the way. *)
Theorem cross_check_overrides_on_small_gap source_hub_differences
    data_representation_differences validation_message
    non_deleted_count sat_count hub_count :
  expected_diff non_deleted_count sat_count hub_count < 5 ->
  10 < source_hub_differences ->
  exists message,
    cross_check source_hub_differences data_representation_differences
      validation_message non_deleted_count sat_count hub_count
    = (0, source_hub_differences, message).
Proof.
  intros Hed Hshd. unfold cross_check.
  pose proof (expected_diff_nonnegative non_deleted_count sat_count hub_count) as Hnn.
  set (ed := expected_diff non_deleted_count sat_count hub_count) in *.
  destruct (Z.ltb_spec 0 source_hub_differences); [| lia].
  assert (Hvar : beyond_variance source_hub_differences ed = true).
  { unfold beyond_variance. apply andb_true_intro. split; apply Z.ltb_lt; lia. }
  rewrite Hvar.
  destruct (Z.ltb_spec ed 5); [| lia].
  destruct (Z.ltb_spec 10 source_hub_differences); [| lia].
  eexists. reflexivity.
Qed.

(** The two things the cross-check can do. *)
Lemma cross_check_cases source_hub_differences
    data_representation_differences validation_message
    non_deleted_count sat_count hub_count true_missing representation message :
  cross_check source_hub_differences data_representation_differences
    validation_message non_deleted_count sat_count hub_count
  = (true_missing, representation, message) ->
  ((true_missing = source_hub_differences /\
    representation = data_representation_differences) \/
   (true_missing = 0 /\ representation = source_hub_differences /\
    10 < source_hub_differences)) /\
  String.prefix validation_message message = true /\
  (source_hub_differences <= 0 -> message = validation_message).
Proof.
  unfold cross_check.
  destruct (Z.ltb_spec 0 source_hub_differences) as [Hpos | Hnp].
  - destruct (beyond_variance _ _).
    + destruct (expected_diff non_deleted_count sat_count hub_count <? 5).
      * destruct (Z.ltb_spec 10 source_hub_differences) as [Hbig | Hsmall]; simpl;
          intros H; inversion H; subst.
        -- split; [right; split; [reflexivity | split; [reflexivity | assumption]] |].
           split; [| lia].
           apply prefix_transitive_append. apply prefix_append.
        -- split; [left; split; reflexivity |].
           split; [apply prefix_append | lia].
      * simpl. intros H; inversion H; subst.
        split; [left; split; reflexivity |].
        split; [apply prefix_append | lia].
    + intros H; inversion H; subst.
      split; [left; split; reflexivity |].
      split; [| reflexivity].
      rewrite <- (append_empty message) at 2. apply prefix_append.
  - intros H; inversion H; subst.
    split; [left; split; reflexivity |].
    split; [| reflexivity].
    rewrite <- (append_empty message) at 2. apply prefix_append.
Qed.

Lemma prefix_reflexive (s : string) : String.prefix s s = true.
Proof. rewrite <- (append_empty s) at 2. apply prefix_append. Qed.

(** The cross-check read off the counts it is given: the expected
    difference it tests, and writes into the message, is the distance of
    the non-deleted source count from the satellite count when that count
    is positive and from the hub count otherwise. *)
Lemma cross_check_by_reference source_hub_differences
    data_representation_differences validation_message
    non_deleted_count sat_count hub_count true_missing representation message :
  let reference := if 0 <? sat_count then sat_count else hub_count in
  let ed := Z.abs (non_deleted_count - reference) in
  cross_check source_hub_differences data_representation_differences
    validation_message non_deleted_count sat_count hub_count
  = (true_missing, representation, message) ->
  (ed < 5 -> 10 < source_hub_differences ->
   true_missing = 0 /\ representation = source_hub_differences) /\
  (5 <= ed \/ source_hub_differences <= 10 ->
   true_missing = source_hub_differences /\
   representation = data_representation_differences) /\
  (0 < source_hub_differences ->
   5 < Z.abs (source_hub_differences - ed) ->
   ed < 10 * Z.abs (source_hub_differences - ed) ->
   String.prefix
     (validation_message ++ " Count comparison shows expected diff of "
        ++ PyStr.of_Z ed ++ " vs. reported "
        ++ PyStr.of_Z source_hub_differences ++ ".")
     message = true).
Proof.
  intros reference ed. unfold cross_check, expected_diff, vault_reference, beyond_variance.
  fold reference. fold ed.
  destruct (Z.ltb_spec 0 source_hub_differences) as [Hpos | Hnp].
  - destruct (Z.ltb_spec 5 (Z.abs (source_hub_differences - ed))) as [Hgap | Hgap];
      cbn [andb].
    + destruct (Z.ltb_spec ed (10 * Z.abs (source_hub_differences - ed))) as [Hvar | Hvar].
      * destruct (Z.ltb_spec ed 5) as [Hed | Hed]; cbn [andb].
        -- destruct (Z.ltb_spec 10 source_hub_differences) as [Hbig | Hsmall];
             intros H; injection H as <- <- <-.
           ++ split; [intros _ _; split; reflexivity |].
              split; [intros [? | ?]; exfalso; lia |].
              intros _ _ _. apply prefix_append.
           ++ split; [intros ? ?; exfalso; lia |].
              split; [intros _; split; reflexivity |].
              intros _ _ _. apply prefix_reflexive.
        -- intros H; injection H as <- <- <-.
           split; [intros ? ?; exfalso; lia |].
           split; [intros _; split; reflexivity |].
           intros _ _ _. apply prefix_reflexive.
      * intros H; injection H as <- <- <-.
        split; [intros ? ?; exfalso; lia |].
        split; [intros _; split; reflexivity |].
        intros ? ? ?. exfalso. lia.
    + intros H; injection H as <- <- <-.
      split; [intros ? ?; exfalso; lia |].
      split; [intros _; split; reflexivity |].
      intros ? ? ?. exfalso. lia.
  - intros H; injection H as <- <- <-.
    split; [intros ? ?; exfalso; lia |].
    split; [intros _; split; reflexivity |].
    intros ? ? ?. exfalso. lia.
Qed.

(** For a message that does not mention key-only validation the
    representation side of the classifier is the raw count, and the
    true-missing side is the raw count or zero. *)
Lemma classify_representation_side raw validation_message
    non_deleted_count sat_count hub_count true_missing representation message :
  mentions_key_only validation_message = false ->
  classify raw validation_message non_deleted_count sat_count hub_count
  = (true_missing, representation, message) ->
  representation = raw /\ (true_missing = 0 \/ true_missing = raw).
Proof.
  intros Hkey. unfold classify, classify_split. rewrite Hkey.
  destruct (mentions_representation validation_message); intros H;
    apply cross_check_cases in H as ([[-> ->] | (-> & -> & Hbig)] & _);
    try lia; split; (reflexivity || (left; reflexivity) || (right; reflexivity)).
Qed.

(** X8. The cross-check either leaves the split as it found it or moves
    the whole true-missing count (then above 10) to the representation
    side, overwriting what was there; it never drops the message, only
    adds to it, and it does nothing at all when the true-missing count is
    not positive. *)
Theorem cross_check_keeps_or_moves source_hub_differences
    data_representation_differences validation_message
    non_deleted_count sat_count hub_count true_missing representation message :
  cross_check source_hub_differences data_representation_differences
    validation_message non_deleted_count sat_count hub_count
  = (true_missing, representation, message) ->
  ((true_missing = source_hub_differences /\
    representation = data_representation_differences) \/
   (true_missing = 0 /\ representation = source_hub_differences /\
    10 < source_hub_differences)) /\
  String.prefix validation_message message = true /\
  (source_hub_differences <= 0 -> message = validation_message).
Proof.
  exact (cross_check_cases source_hub_differences data_representation_differences
           validation_message non_deleted_count sat_count hub_count
           true_missing representation message).
Qed.

(** ** The key-only sentence and the pattern that reads it *)

Lemma int_of_digits_from (ds : string) : PyStr.int_of_digits ds = digits_from ds 0.
Proof. reflexivity. Qed.

Ltac digit_value_now :=
  match goal with
  | |- context [PyStr.digit_value ?c] =>
      let v := eval vm_compute in (PyStr.digit_value c) in
      change (PyStr.digit_value c) with v
  end.

Lemma digits_from_uint_acc (d : Decimal.uint) (a : positive) :
  digits_from (NilEmpty.string_of_uint d) (Z.pos a) = Z.pos (Pos.of_uint_acc d a).
Proof.
  revert a. induction d as [| d IH | d IH | d IH | d IH | d IH | d IH | d IH | d IH | d IH | d IH];
    intros a; cbn [NilEmpty.string_of_uint digits_from Pos.of_uint_acc];
    [reflexivity | ..];
    rewrite <- IH; f_equal; digit_value_now; lia.
Qed.

Lemma digits_from_uint (d : Decimal.uint) :
  digits_from (NilEmpty.string_of_uint d) 0 = Z.of_N (Pos.of_uint d).
Proof.
  induction d as [| d IH | d IH | d IH | d IH | d IH | d IH | d IH | d IH | d IH | d IH];
    cbn [NilEmpty.string_of_uint digits_from Pos.of_uint];
    [reflexivity | exact IH | ..];
    digit_value_now; cbn [Z.of_N]; rewrite <- digits_from_uint_acc; reflexivity.
Qed.

(** What [str(n)] is for a positive [n]: its decimal digits. *)
Lemma of_Z_pos (p : positive) :
  PyStr.of_Z (Z.pos p) = NilEmpty.string_of_uint (Pos.to_uint p).
Proof.
  unfold PyStr.of_Z. cbn [Z.to_int NilZero.string_of_int].
  pose proof (DecimalPos.Unsigned.to_uint_nonnil p) as Hnn.
  destruct (Pos.to_uint p); [contradiction | reflexivity ..].
Qed.

(** Reading back what [str(n)] wrote. *)
Lemma int_of_digits_of_Z (n : Z) : 0 <= n -> PyStr.int_of_digits (PyStr.of_Z n) = n.
Proof.
  intros Hn. destruct n as [| p | p]; [reflexivity | | lia].
  rewrite of_Z_pos, int_of_digits_from, digits_from_uint.
  rewrite DecimalPos.Unsigned.of_to. reflexivity.
Qed.

(** The digits of a number are all taken by the greedy [\d+], up to a
    rest that does not start with a digit. *)
Lemma span_digits_uint (d : Decimal.uint) (rest : string) :
  PyStr.span_digits rest = (EmptyString, rest) ->
  PyStr.span_digits (NilEmpty.string_of_uint d ++ rest)
  = (NilEmpty.string_of_uint d, rest).
Proof.
  intros Hrest.
  induction d as [| d IH | d IH | d IH | d IH | d IH | d IH | d IH | d IH | d IH | d IH];
    cbn [NilEmpty.string_of_uint append]; [exact Hrest | ..];
    cbn [PyStr.span_digits]; rewrite IH; reflexivity.
Qed.

Lemma span_digits_of_Z (n : Z) (rest : string) :
  0 <= n ->
  PyStr.span_digits rest = (EmptyString, rest) ->
  PyStr.span_digits (PyStr.of_Z n ++ rest) = (PyStr.of_Z n, rest).
Proof.
  intros Hn Hrest. destruct n as [| p | p]; [| | lia].
  - change (PyStr.of_Z 0) with "0". cbn [append PyStr.span_digits].
    change (PyStr.is_digit "0") with true. cbn iota. rewrite Hrest. reflexivity.
  - rewrite of_Z_pos. apply span_digits_uint. exact Hrest.
Qed.

Lemma of_Z_nonempty (n : Z) : PyStr.nonempty (PyStr.of_Z n) = true.
Proof.
  destruct n as [| p | p]; [reflexivity | | reflexivity].
  rewrite of_Z_pos.
  pose proof (DecimalPos.Unsigned.to_uint_nonnil p) as Hnn.
  destruct (Pos.to_uint p); [contradiction | reflexivity ..].
Qed.

(** The pattern cannot start at a digit or a sign, so the search walks
    over a printed number. *)
Lemma search_skips_uint (d : Decimal.uint) (rest : string) :
  PyStr.search_found_only (NilEmpty.string_of_uint d ++ rest)
  = PyStr.search_found_only rest.
Proof.
  induction d as [| d IH | d IH | d IH | d IH | d IH | d IH | d IH | d IH | d IH | d IH];
    cbn [NilEmpty.string_of_uint append]; [reflexivity | ..];
    rewrite <- IH; reflexivity.
Qed.

Lemma search_skips_number (n : Z) (rest : string) :
  PyStr.search_found_only (PyStr.of_Z n ++ rest) = PyStr.search_found_only rest.
Proof.
  destruct n as [| p | p].
  - reflexivity.
  - rewrite of_Z_pos. apply search_skips_uint.
  - unfold PyStr.of_Z. cbn [Z.to_int NilZero.string_of_int].
    pose proof (DecimalPos.Unsigned.to_uint_nonnil p) as Hnn.
    transitivity (PyStr.search_found_only (NilEmpty.string_of_uint (Pos.to_uint p) ++ rest)).
    + destruct (Pos.to_uint p); [contradiction | reflexivity ..].
    + apply search_skips_uint.
Qed.

(** Where the pattern starts, the search returns the number written
    there. *)
Lemma search_found_only_here (n : Z) (tail : string) :
  0 <= n ->
  PyStr.search_found_only ("found only " ++ PyStr.of_Z n ++ " truly missing records" ++ tail)
  = Some n.
Proof.
  intros Hn.
  assert (Hmatch : PyStr.match_found_only
                     ("found only " ++ PyStr.of_Z n ++ " truly missing records" ++ tail)
                   = Some n).
  { unfold PyStr.match_found_only.
    rewrite prefix_append.
    change (PyStr.skip 11 ("found only " ++ PyStr.of_Z n ++ " truly missing records" ++ tail))
      with (PyStr.of_Z n ++ " truly missing records" ++ tail).
    rewrite (span_digits_of_Z n (" truly missing records" ++ tail) Hn eq_refl).
    rewrite of_Z_nonempty, prefix_append, orb_true_r.
    rewrite (int_of_digits_of_Z n Hn). reflexivity. }
  change (PyStr.search_found_only
            ("found only " ++ PyStr.of_Z n ++ " truly missing records" ++ tail))
    with (match PyStr.match_found_only
                  ("found only " ++ PyStr.of_Z n ++ " truly missing records" ++ tail) with
          | Some k => Some k
          | None =>
              PyStr.search_found_only
                ("ound only " ++ PyStr.of_Z n ++ " truly missing records" ++ tail)
          end).
  rewrite Hmatch. reflexivity.
Qed.

Lemma search_not_here (c : ascii) (t : string) :
  c <> "f"%char ->
  PyStr.search_found_only (String c t) = PyStr.search_found_only t.
Proof.
  intros Hc. cbn [PyStr.search_found_only]. unfold PyStr.match_found_only.
  cbn [String.prefix].
  destruct (ascii_dec "f" c) as [He | _]; [symmetry in He; contradiction | reflexivity].
Qed.

Lemma search_not_after_f (c : ascii) (t : string) :
  c <> "o"%char ->
  PyStr.search_found_only (String "f" (String c t))
  = PyStr.search_found_only (String c t).
Proof.
  intros Hc.
  change (PyStr.search_found_only (String "f" (String c t)))
    with (match PyStr.match_found_only (String "f" (String c t)) with
          | Some n => Some n
          | None => PyStr.search_found_only (String c t)
          end).
  unfold PyStr.match_found_only. cbn [String.prefix].
  destruct (ascii_dec "f" "f") as [_ | Hne]; [| contradiction].
  destruct (ascii_dec "o" c) as [He | _]; [symmetry in He; contradiction | reflexivity].
Qed.

Ltac search_through_literal :=
  cbn [append];
  repeat first [ rewrite search_not_here by discriminate
               | rewrite search_not_after_f by discriminate ].

(** X9. The pattern with which [main] reads the key-only count finds, in
    the message [extract_missing_records] writes when the key-only check
    confirms, exactly the count that was written: the representation
    message followed by the key-only sentence for [n] is read back as
    [n]. *)
Theorem key_only_count_read_back source_count vault_count missing_count simplified_count :
  0 <= simplified_count ->
  PyStr.search_found_only
    (representation_message source_count vault_count missing_count
       ++ key_only_sentence simplified_count)
  = Some simplified_count.
Proof.
  intros Hn. unfold representation_message, key_only_sentence.
  repeat rewrite append_associative.
  search_through_literal. rewrite search_skips_number.
  search_through_literal. rewrite search_skips_number.
  search_through_literal. rewrite search_skips_number.
  search_through_literal.
  exact (search_found_only_here simplified_count
           ", confirming this is primarily a schema/data representation difference rather than missing data."
           Hn).
Qed.

(** ** More on the extractor *)

Section ExtractorProperties.

Context {World : Type} (session : string -> World -> sql_result * World).

Lemma count_and_validate_returns cfg source_table satellite_table hub_tables q :
  returns (count_and_validate session cfg source_table satellite_table hub_tables q).
Proof. unfold count_and_validate. repeat returns_step. Qed.

(** Every result of [extract_missing_records] has one of three shapes:
    count zero with no samples; a non-zero count with a single error
    entry after a failed sample query; a non-zero count with the sampled
    rows and, when there are more differences than the sample limit, one
    summary entry after them.  In the last two the message does not
    mention representation differences. *)
Lemma extract_missing_records_shape cfg limit w count samples message w' :
  extract_missing_records session cfg limit w = (Ret (count, samples, message), w') ->
  (count = 0 /\ samples = []) \/
  (count <> 0 /\ mentions_representation message = false /\
   ((exists e, samples = [SampleError e (sample_metadata cfg)]) \/
    (exists rows,
        samples
        = (map (fun r => DifferenceRow (safe_json_conversion r) (sample_metadata cfg)) rows
           ++ (if sample_limit_for limit count <? count
               then [SummaryNote (note_text (sample_limit_for limit count) count)
                       message (sample_metadata cfg)]
               else []))%list))).
Proof.
  intros H.
  destruct (truthy (custom_except_query cfg)) eqn:Hq.
  2:{ unfold extract_missing_records in H. rewrite Hq in H. simpl in H.
      apply ret_inv in H as [H _]. inversion H. left. split; reflexivity. }
  destruct (count_and_validate_returns cfg
              (get_default "UNKNOWN_SOURCE" (source_table cfg))
              (get_default "UNKNOWN_SATELLITE" (cur_satellite_table cfg))
              (hub_table_list "UNKNOWN_HUB" cfg)
              (py_str (custom_except_query cfg)) w) as (handed & w1 & Hh).
  rewrite (extract_missing_records_from session cfg limit w handed w1 Hq Hh) in H.
  pose proof (count_and_validate_spec session _ _ _ _ _ _ _ Hh) as Hspec.
  destruct handed as [[[c s] m] | [c m]].
  - inversion H. subst. left. exact Hspec.
  - destruct (Z.eqb_spec c 0) as [Hz | Hnz]; simpl in H.
    + inversion H. left. split; reflexivity.
    + destruct (mentions_representation m) eqn:Hm.
      * inversion H. left. split; reflexivity.
      * right. unfold collect_samples, try_except, bind, sql in H.
        destruct (session (sample_query (py_str (custom_except_query cfg))
                             (sample_limit_for limit c)) w1) as [[e | rows] w2].
        -- inversion H. subst. split; [exact Hnz |]. split; [reflexivity |].
           left. eexists. reflexivity.
        -- unfold ret in H. rewrite Hm in H. inversion H. subst.
           split; [exact Hnz |]. split; [exact Hm |].
           right. exists rows.
           destruct (sample_limit_for limit count <? count);
             [reflexivity | rewrite app_nil_r; reflexivity].
Qed.

(** X10. The count and the message of [extract_missing_records] agree: a
    message that mentions representation differences comes with count
    zero and no samples, and a non-zero count comes with a message that
    does not mention them. *)
Theorem extracted_count_agrees_with_message cfg limit w count samples message w' :
  extract_missing_records session cfg limit w = (Ret (count, samples, message), w') ->
  (mentions_representation message = true -> count = 0 /\ samples = []) /\
  (count <> 0 -> mentions_representation message = false).
Proof.
  intros H. apply extract_missing_records_shape in H.
  destruct H as [[Hc Hs] | (Hc & Hm & _)].
  - split; [intros _; split; assumption | intros Hne; contradiction].
  - split; [intros Hm'; rewrite Hm in Hm'; discriminate Hm' | intros _; exact Hm].
Qed.

(** X11. The sample list of [extract_missing_records] holds no difference
    row when the count is zero, and at most one entry that is not a
    difference row, always in last place: the summary entry or the error
    entry. *)
Theorem sample_list_shape cfg limit w count samples message w' :
  extract_missing_records session cfg limit w = (Ret (count, samples, message), w') ->
  (count = 0 -> filter is_difference_row samples = []) /\
  exists rows tail,
    samples = (map (fun r => DifferenceRow r (sample_metadata cfg)) rows ++ tail)%list /\
    (List.length tail <= 1)%nat /\
    filter is_difference_row tail = [].
Proof.
  intros H. apply extract_missing_records_shape in H.
  destruct H as [[Hc ->] | (Hc & Hm & [(e & ->) | (rows & ->)])].
  - split; [reflexivity |]. exists [], []. repeat split; simpl; lia.
  - split; [contradiction |]. exists [], [SampleError e (sample_metadata cfg)].
    repeat split; simpl; lia.
  - split; [contradiction |]. exists rows. eexists. split; [reflexivity |].
    destruct (sample_limit_for limit count <? count); split; simpl; lia || reflexivity.
Qed.

(** X12. When the [COUNT] over the difference query raises, the extractor
    returns count zero and no samples, with the error text in the
    message, and runs no further query. *)
Theorem failed_difference_count_degrades cfg limit w e w1 :
  truthy (custom_except_query cfg) = true ->
  session (except_count_query (py_str (custom_except_query cfg))) w = (Raises e, w1) ->
  extract_missing_records session cfg limit w
  = (Ret (0, [], "Error counting record differences: " ++ e), w1).
Proof.
  intros Hq Hs.
  assert (Hh : count_and_validate session cfg
                 (get_default "UNKNOWN_SOURCE" (source_table cfg))
                 (get_default "UNKNOWN_SATELLITE" (cur_satellite_table cfg))
                 (hub_table_list "UNKNOWN_HUB" cfg)
                 (py_str (custom_except_query cfg)) w
               = (Ret (Return (0, [], "Error counting record differences: " ++ e)), w1)).
  { unfold count_and_validate, try_except, bind, sql. rewrite Hs. reflexivity. }
  rewrite (extract_missing_records_from session cfg limit w _ w1 Hq Hh). reflexivity.
Qed.

(** X13. When the sample query raises, the extractor keeps the difference
    count: it returns the count with a single error entry and the message
    "Failed to collect samples". *)
Theorem failed_sample_keeps_count cfg limit w rows0 w1 missing_count
    source_count w2 vault_count w3 validated message w4 e w5 :
  truthy (custom_except_query cfg) = true ->
  session (except_count_query (py_str (custom_except_query cfg))) w = (Collect rows0, w1) ->
  first_cell rows0 = Ret missing_count ->
  missing_count <> 0 ->
  compare_source_count session cfg (get_default "UNKNOWN_SOURCE" (source_table cfg)) w1
  = (Ret source_count, w2) ->
  compare_vault_count session cfg
    (get_default "UNKNOWN_SATELLITE" (cur_satellite_table cfg))
    (hub_table_list "UNKNOWN_HUB" cfg) w2 = (Ret vault_count, w3) ->
  representation_heuristic source_count vault_count missing_count = false ->
  validate_missing_records session cfg missing_count w3 = (Ret (validated, message), w4) ->
  mentions_representation message = false ->
  session (sample_query (py_str (custom_except_query cfg))
             (sample_limit_for limit missing_count)) w4 = (Raises e, w5) ->
  extract_missing_records session cfg limit w
  = (Ret (missing_count,
          [SampleError ("Error collecting sample records: " ++ e) (sample_metadata cfg)],
          "Failed to collect samples"), w5).
Proof.
  intros Hq Hs Hc Hnz Hsc Hvc Hh Hv Hm Hsample.
  apply Z.eqb_neq in Hnz.
  pose proof (validate_differences_plain session _ _ _ _ _ _ _ _ _ _ _ _ _ Hsc Hvc Hh Hv)
    as Hval.
  pose proof (count_and_validate_from session _ _ _ _ _ _ _ _ _ _ _ Hs Hc Hnz Hval) as Hcv.
  rewrite (extract_missing_records_from session cfg limit w _ w4 Hq Hcv).
  rewrite Hnz, Hm. simpl orb. cbv iota.
  unfold collect_samples, try_except, bind, sql. rewrite Hsample. reflexivity.
Qed.

End ExtractorProperties.

(** ** More on [main] *)

Section MainProperties.

Context {World : Type} (session : string -> World -> sql_result * World).

(** The classification fields and the sample records of an appended tuple
    come from the extraction that ended the processing of its mapping. *)
Lemma process_config_extraction cfg w r w' :
  process_config session cfg w = (Ret (Some r), w') ->
  exists w5 raw difference_records validation_message,
    extract_missing_records session cfg 10 w5
    = (Ret (raw, difference_records, validation_message), w') /\
    (SOURCE_TO_VAULT_DIFFERENCES r, DATA_REPRESENTATION_DIFFERENCES r, VALIDATION_MESSAGE r)
    = classify raw validation_message
        (SOURCE_COUNT_NONDELETED r) (SATELLITE_COUNT r) (HUB_COUNT r) /\
    data_differences_records (DATA_DISCREPANCY_DETAILS r) = difference_records.
Proof.
  intros H.
  apply process_config_inv in H
    as (w1 & sc & nd & dc & w2 & hub & w3 & sat & satq & w4 & bv & bvq & w5
        & raw & recs & msg & _ & _ & _ & _ & _ & Hext & ->).
  exists w5, raw, recs, msg. split; [exact Hext |].
  pose proof (build_report_classification cfg sc nd dc hub sat bv raw recs msg) as Hcls.
  destruct (build_report_counts cfg sc nd dc hub sat bv raw recs msg)
    as (_ & Hnd & _ & Hh & Hs & _).
  cbv zeta in Hcls. rewrite Hnd, Hh, Hs. split; [exact Hcls |].
  unfold build_report. destruct (classify raw msg nd sat hub) as [[shd drd] msg'].
  reflexivity.
Qed.

(** C5, as the code has it. For every processed mapping the expected
    difference of the cross-check is [|non_deleted_count - reference|],
    where the reference is the satellite count when that count is positive
    and the hub count otherwise; a mapping without a configured satellite
    has satellite count zero, so it uses the hub count, and so does a
    configured satellite whose count is zero.  This is the difference the
    report shows: it is the count-comparison difference of the details,
    the override of the cross-check (true-missing count moved to the
    representation side) happens exactly when it is below 5 and the
    true-missing count of the first split is above 10, and it is the
    number written into the validation message whenever the true-missing
    count is beyond the allowed variance of it. *)
Theorem expected_diff_reference cfg w r w' :
  process_config session cfg w = (Ret (Some r), w') ->
  let reference :=
    if 0 <? SATELLITE_COUNT r then SATELLITE_COUNT r else HUB_COUNT r in
  let ed := Z.abs (SOURCE_COUNT_NONDELETED r - reference) in
  exists w5 raw difference_records validation_message,
    extract_missing_records session cfg 10 w5
    = (Ret (raw, difference_records, validation_message), w') /\
    count_comparison_vault (DATA_DISCREPANCY_DETAILS r) = reference /\
    count_comparison_difference (DATA_DISCREPANCY_DETAILS r) = ed /\
    (truthy (cur_satellite_table cfg) = false ->
     SATELLITE_COUNT r = 0 /\ reference = HUB_COUNT r) /\
    forall true_missing representation,
      classify_split raw validation_message = (true_missing, representation) ->
      (ed < 5 -> 10 < true_missing ->
       SOURCE_TO_VAULT_DIFFERENCES r = 0 /\
       DATA_REPRESENTATION_DIFFERENCES r = true_missing) /\
      (5 <= ed \/ true_missing <= 10 ->
       SOURCE_TO_VAULT_DIFFERENCES r = true_missing /\
       DATA_REPRESENTATION_DIFFERENCES r = representation) /\
      (0 < true_missing ->
       5 < Z.abs (true_missing - ed) ->
       ed < 10 * Z.abs (true_missing - ed) ->
       String.prefix
         (validation_message ++ " Count comparison shows expected diff of "
            ++ PyStr.of_Z ed ++ " vs. reported " ++ PyStr.of_Z true_missing ++ ".")
         (VALIDATION_MESSAGE r) = true).
Proof.
  intros H.
  apply process_config_inv in H
    as (w1 & sc & nd & dc & w2 & hub & w3 & sat & satq & w4 & bv & bvq & w5
        & raw & recs & msg & _ & _ & _ & Hcount & _ & Hext & ->).
  pose proof (build_report_classification cfg sc nd dc hub sat bv raw recs msg) as Hcls.
  destruct (build_report_counts cfg sc nd dc hub sat bv raw recs msg)
    as (_ & Hnd & _ & Hh & Hs & _).
  cbv zeta in Hcls |- *. rewrite Hnd, Hh, Hs.
  exists w5, raw, recs, msg.
  split; [exact Hext |].
  split; [unfold build_report; destruct (classify raw msg nd sat hub) as [[shd drd] msg'];
          reflexivity |].
  split; [unfold build_report; destruct (classify raw msg nd sat hub) as [[shd drd] msg'];
          reflexivity |].
  split.
  { intros Hnone.
    assert (Hsat0 : sat = 0).
    { unfold count_satellite in Hcount.
      destruct (cur_satellite_table cfg) as [st |]; simpl in Hnone, Hcount.
      - rewrite Hnone in Hcount. inversion Hcount. reflexivity.
      - inversion Hcount. reflexivity. }
    rewrite Hsat0. split; reflexivity. }
  intros true_missing representation Hsplit.
  unfold classify in Hcls. rewrite Hsplit in Hcls. symmetry in Hcls.
  exact (cross_check_by_reference _ _ _ _ _ _ _ _ _ Hcls).
Qed.

(** X14. When the extractor's message mentions representation
    differences, the report carries zero in both difference fields and no
    sample records: the differences the extractor reclassified are not
    counted anywhere. *)
Theorem reclassified_differences_are_dropped cfg w r w' :
  process_config session cfg w = (Ret (Some r), w') ->
  exists w5 raw difference_records validation_message,
    extract_missing_records session cfg 10 w5
    = (Ret (raw, difference_records, validation_message), w') /\
    (mentions_representation validation_message = true ->
     SOURCE_TO_VAULT_DIFFERENCES r = 0 /\
     DATA_REPRESENTATION_DIFFERENCES r = 0 /\
     VALIDATION_MESSAGE r = validation_message /\
     data_differences_records (DATA_DISCREPANCY_DETAILS r) = []).
Proof.
  intros H.
  apply process_config_extraction in H
    as (w5 & raw & recs & msg & Hext & Hcls & Hrecs).
  exists w5, raw, recs, msg. split; [exact Hext |].
  intros Hm.
  destruct (extract_missing_records_shape session _ _ _ _ _ _ _ Hext)
    as [[-> ->] | (_ & Hm' & _)]; [| rewrite Hm in Hm'; discriminate Hm'].
  rewrite (classify_representation 0 msg _ _ _ Hm) in Hcls. inversion Hcls.
  repeat split; try reflexivity. exact Hrecs.
Qed.

(** X15. Unless the extractor's message mentions key-only validation,
    [DATA_REPRESENTATION_DIFFERENCES] is always the count the extractor
    returned, however the differences were classified, and
    [SOURCE_TO_VAULT_DIFFERENCES] is that count or zero. *)
Theorem representation_field_is_extracted_count cfg w r w' :
  process_config session cfg w = (Ret (Some r), w') ->
  exists w5 raw difference_records validation_message,
    extract_missing_records session cfg 10 w5
    = (Ret (raw, difference_records, validation_message), w') /\
    (mentions_key_only validation_message = false ->
     DATA_REPRESENTATION_DIFFERENCES r = raw /\
     (SOURCE_TO_VAULT_DIFFERENCES r = 0 \/ SOURCE_TO_VAULT_DIFFERENCES r = raw)).
Proof.
  intros H.
  apply process_config_extraction in H
    as (w5 & raw & recs & msg & Hext & Hcls & _).
  exists w5, raw, recs, msg. split; [exact Hext |].
  intros Hkey. symmetry in Hcls.
  exact (classify_representation_side _ _ _ _ _ _ _ _ Hkey Hcls).
Qed.

(** X16. A mapping without a difference query whose source probe is
    answered is still reported: a tuple is appended for it, both
    difference fields are zero, there are no sample records, and the
    message says that no query is defined. *)
Theorem mapping_without_difference_query cfg w rows w1 :
  session ("SELECT 1 FROM " ++ py_str (source_table cfg) ++ " LIMIT 1") w = (Collect rows, w1) ->
  truthy (custom_except_query cfg) = false ->
  exists r w',
    process_config session cfg w = (Ret (Some r), w') /\
    main_loop session [cfg] w = (Ret [r], w') /\
    SOURCE_TABLE r = source_table cfg /\
    SOURCE_TO_VAULT_DIFFERENCES r = 0 /\
    DATA_REPRESENTATION_DIFFERENCES r = 0 /\
    VALIDATION_MESSAGE r = "No EXCEPT query defined" /\
    data_differences_records (DATA_DISCREPANCY_DETAILS r) = [].
Proof.
  intros Hprobe Hq.
  destruct (process_config_probe_answers session cfg w rows w1 Hprobe)
    as (r & w' & Hrun & Hsource & _).
  exists r, w'. split; [exact Hrun |].
  split; [rewrite main_loop_cons, Hrun; reflexivity |].
  split; [exact Hsource |].
  apply process_config_extraction in Hrun
    as (w5 & raw & recs & msg & Hext & Hcls & Hrecs).
  unfold extract_missing_records in Hext. rewrite Hq in Hext. simpl in Hext.
  apply ret_inv in Hext as [Hext _]. inversion Hext as [[Hraw Hsamples Hmsg]].
  rewrite <- Hsamples in Hrecs. rewrite <- Hraw, <- Hmsg in Hcls.
  inversion Hcls. repeat split; try reflexivity. exact Hrecs.
Qed.

(** The bizview fields of the tuple. *)
Lemma build_report_bizview cfg sc nd dc hub sat bv raw recs msg :
  let r := build_report cfg sc nd dc hub sat bv raw recs msg in
  let bizview :=
    if PyStr.nonempty (get_default "" (bizview_table cfg)) then
      Some (bizview_reconcile (get_default "" (bizview_table cfg))
              (get_default "" (cur_satellite_table cfg)) hub sat nd bv)
    else None in
  bizview_details (DATA_DISCREPANCY_DETAILS r) = bizview /\
  BIZVIEW_MISSING_RECORDS r
  = match bizview with
    | Some (Ret c) => bc_missing c
    | _ => 0
    end.
Proof.
  unfold build_report. destruct (classify raw msg nd sat hub) as [[shd drd] msg'].
  split; reflexivity.
Qed.

Lemma truthy_default (v : option string) :
  PyStr.nonempty (get_default "" v) = truthy v.
Proof. destruct v; reflexivity. Qed.

(** X17. [BIZVIEW_MISSING_RECORDS] is never negative, whatever the engine
    answers; for a mapping without a bizview table it is zero, and so is
    [BIZVIEW_COUNT]. *)
Theorem bizview_missing_records_not_negative cfg w r w' :
  process_config session cfg w = (Ret (Some r), w') ->
  0 <= BIZVIEW_MISSING_RECORDS r /\
  (truthy (bizview_table cfg) = false ->
   BIZVIEW_MISSING_RECORDS r = 0 /\ BIZVIEW_COUNT r = 0 /\
   bizview_details (DATA_DISCREPANCY_DETAILS r) = None).
Proof.
  intros H.
  apply process_config_inv in H
    as (w1 & sc & nd & dc & w2 & hub & w3 & sat & satq & w4 & bv & bvq & w5
        & raw & recs & msg & _ & _ & _ & _ & Hbiz & _ & ->).
  destruct (build_report_bizview cfg sc nd dc hub sat bv raw recs msg) as [Hdet Hmiss].
  destruct (build_report_counts cfg sc nd dc hub sat bv raw recs msg)
    as (_ & _ & _ & _ & _ & Hbv & _).
  cbv zeta in Hdet, Hmiss. rewrite Hdet, Hmiss, Hbv.
  rewrite truthy_default. split.
  - destruct (truthy (bizview_table cfg)); [| lia].
    destruct (bizview_reconcile _ _ hub sat nd bv) as [c | e] eqn:Hrec; [| lia].
    apply bizview_reconcile_bounds in Hrec. tauto.
  - intros Hnone. rewrite Hnone. split; [reflexivity |]. split; [| reflexivity].
    unfold count_bizview in Hbiz. rewrite truthy_default, Hnone in Hbiz.
    apply ret_inv in Hbiz as [Hbiz _]. inversion Hbiz. reflexivity.
Qed.

(** X18. A bizview whose count comes out as zero, because it is empty or
    because it could not be counted, is reported as missing the whole
    reference count whenever that count is positive. *)
Theorem zero_bizview_count_reports_reference cfg w r w' :
  process_config session cfg w = (Ret (Some r), w') ->
  truthy (bizview_table cfg) = true ->
  BIZVIEW_COUNT r = 0 ->
  let reference_count :=
    fst (bizview_reference
           (bizview_kind_of (bizview_name_of (py_str (bizview_table cfg))))
           (SATELLITE_TABLE r) (HUB_COUNT r) (SATELLITE_COUNT r)
           (SOURCE_COUNT_NONDELETED r)) in
  0 < reference_count ->
  BIZVIEW_MISSING_RECORDS r = reference_count.
Proof.
  intros H Hbt.
  apply process_config_inv in H
    as (w1 & sc & nd & dc & w2 & hub & w3 & sat & satq & w4 & bv & bvq & w5
        & raw & recs & msg & _ & _ & _ & _ & _ & _ & ->).
  destruct (build_report_bizview cfg sc nd dc hub sat bv raw recs msg) as [_ Hmiss].
  destruct (build_report_counts cfg sc nd dc hub sat bv raw recs msg)
    as (_ & Hnd & _ & Hh & Hs & Hbv & Hst).
  cbv zeta in Hmiss. rewrite Hmiss, Hnd, Hh, Hs, Hbv, Hst.
  rewrite truthy_default, Hbt.
  intros -> reference_count Hpos.
  assert (Hname : get_default "" (bizview_table cfg) = py_str (bizview_table cfg)).
  { destruct (bizview_table cfg); [reflexivity | discriminate Hbt]. }
  rewrite Hname.
  destruct (bizview_reconcile_empty (py_str (bizview_table cfg))
              (get_default "" (cur_satellite_table cfg)) hub sat nd Hpos)
    as (c & -> & _ & Hc).
  exact Hc.
Qed.

(** X19. On an engine where every query raises, [main] returns the empty
    list for every list of mappings. *)
Theorem main_with_every_query_raising (table_configs : list config) (w : World) :
  (forall query w0, exists e w1, session query w0 = (Raises e, w1)) ->
  exists w', main session table_configs w = (Ret [], w').
Proof.
  intros Hraise.
  destruct (main_is_loop session table_configs w) as (w0 & ->).
  clear w. revert w0.
  induction table_configs as [| cfg rest IH]; intros w0.
  - exists w0. reflexivity.
  - rewrite main_loop_cons.
    destruct (Hraise ("SELECT 1 FROM " ++ py_str (source_table cfg) ++ " LIMIT 1") w0)
      as (e & w1 & Hprobe).
    rewrite (process_config_probe_raises session cfg w0 e w1 Hprobe).
    destruct (IH w1) as (w' & ->). exists w'. reflexivity.
Qed.

End MainProperties.

(** ** More on the counts *)

Section CountProperties.

Context {World : Type} (session : string -> World -> sql_result * World).

(** X20. [get_table_count] sends no query when no table is named and
    exactly one otherwise; a raised error gives count zero with the error
    text in place of the query, an empty result gives zero, and a result
    gives its first cell together with the query that was run. *)
Theorem get_table_count_contract table_name filter_clause count_column distinct w :
  (truthy table_name = false ->
   get_table_count session table_name filter_clause count_column distinct w
   = (Ret (0, "No table specified"), w)) /\
  (truthy table_name = true ->
   let query :=
     count_query_text (py_str table_name) filter_clause count_column distinct in
   match session query w with
   | (Raises e, w1) =>
       get_table_count session table_name filter_clause count_column distinct w
       = (Ret (0, "Error executing count query for " ++ py_str table_name ++ ": " ++ e), w1)
   | (Collect [], w1) =>
       get_table_count session table_name filter_clause count_column distinct w
       = (Ret (0, query), w1)
   | (Collect ((count :: _) :: _), w1) =>
       get_table_count session table_name filter_clause count_column distinct w
       = (Ret (count, query), w1)
   | (Collect ([] :: _), w1) =>
       exists text,
         get_table_count session table_name filter_clause count_column distinct w
         = (Ret (0, text), w1)
   end).
Proof.
  split; intros Hname.
  - unfold get_table_count, try_except. rewrite Hname. reflexivity.
  - intros query. destruct table_name as [t |]; [| discriminate Hname].
    simpl in Hname, query.
    unfold get_table_count, try_except, bind, sql, first_scalar, ret. simpl.
    rewrite Hname. simpl. fold query.
    destruct (session query w) as [[e | [| [| count cells] rows]] w1];
      try reflexivity.
    eexists. reflexivity.
Qed.

(** X21. [validate_missing_records] never changes the count when it
    cannot validate: with no source key, or when the validation query
    raises, it hands back the count it was given; only an answered query
    replaces it, with "All records verified".  A zero count is returned
    without any query. *)
Theorem validate_missing_records_contract cfg missing_records_count w :
  (missing_records_count = 0 ->
   validate_missing_records session cfg missing_records_count w
   = (Ret (0, "No missing records detected"), w)) /\
  (missing_records_count <> 0 -> truthy (source_key cfg) = false ->
   validate_missing_records session cfg missing_records_count w
   = (Ret (missing_records_count, "Could not validate: No source key defined"), w)) /\
  (missing_records_count <> 0 -> truthy (source_key cfg) = true ->
   forall full_except_query, custom_except_query cfg = Some full_except_query ->
   match session (validation_query full_except_query) w with
   | (Raises e, w1) =>
       validate_missing_records session cfg missing_records_count w
       = (Ret (missing_records_count, "Error validating missing records: " ++ e), w1)
   | (Collect rows, w1) =>
       match first_cell rows with
       | Ret total_count =>
           validate_missing_records session cfg missing_records_count w
           = (Ret (total_count, "All records verified"), w1)
       | Exn e =>
           validate_missing_records session cfg missing_records_count w
           = (Ret (missing_records_count, "Error validating missing records: " ++ e), w1)
       end
   end).
Proof.
  unfold validate_missing_records. repeat split.
  - intros ->. reflexivity.
  - intros Hnz Hkey. apply Z.eqb_neq in Hnz. rewrite Hnz, Hkey. reflexivity.
  - intros Hnz Hkey q Hq. apply Z.eqb_neq in Hnz. rewrite Hnz, Hkey, Hq.
    unfold try_except, bind, sql, first_scalar, ret. simpl.
    destruct (session (validation_query q) w) as [[e | rows] w1]; [reflexivity |].
    destruct (first_cell rows); reflexivity.
Qed.

Lemma count_hubs_shift hub_tables hub_count w :
  exists total w',
    count_hubs session hub_tables 0 w = (Ret total, w') /\
    count_hubs session hub_tables hub_count w = (Ret (hub_count + total), w').
Proof.
  revert hub_count w. induction hub_tables as [| h rest IH]; intros hub_count w.
  - exists 0, w. split; [reflexivity |]. simpl. unfold ret. f_equal. f_equal. lia.
  - simpl. destruct (PyStr.nonempty h).
    + unfold bind.
      destruct (get_table_count_returns session (Some h) None None true w)
        as ([c q] & w1 & ->).
      cbv beta iota.
      destruct (IH c w1) as (t0 & w0' & Hzero & Hc0).
      destruct (IH (hub_count + c) w1) as (t1 & w1' & Hzero' & Hc1).
      rewrite Hzero in Hzero'. inversion Hzero'. subst t1 w1'.
      exists (c + t0), w0'. rewrite Hc0, Hc1.
      split; [reflexivity |]. f_equal. f_equal. lia.
    + apply IH.
Qed.

(** X22. The hub count adds up over the list of hub tables: counting the
    tables of two lists one after the other gives the sum of the two
    counts, the second taken from the state the first left; tables with
    an empty name are passed over. *)
Theorem count_hubs_adds_up hub_tables more_tables w :
  exists total w1 more w2,
    count_hubs session hub_tables 0 w = (Ret total, w1) /\
    count_hubs session more_tables 0 w1 = (Ret more, w2) /\
    count_hubs session (hub_tables ++ more_tables) 0 w = (Ret (total + more), w2) /\
    count_hubs session (EmptyString :: hub_tables) 0 w = (Ret total, w1).
Proof.
  assert (Happ : forall l acc w0,
             count_hubs session (l ++ more_tables) acc w0
             = match count_hubs session l acc w0 with
               | (Ret x, w1) => count_hubs session more_tables x w1
               | (Exn e, w1) => (Exn e, w1)
               end).
  { induction l as [| h rest IH]; intros acc w0.
    - reflexivity.
    - simpl. destruct (PyStr.nonempty h); [| apply IH].
      unfold bind.
      destruct (get_table_count session (Some h) None None true w0) as [[[c q] | e] w1];
        [apply IH | reflexivity]. }
  destruct (count_hubs_returns session hub_tables 0 w) as (total & w1 & Htotal).
  destruct (count_hubs_shift more_tables total w1) as (more & w2 & Hmore & Hshift).
  exists total, w1, more, w2.
  split; [exact Htotal |]. split; [exact Hmore |]. split.
  - rewrite Happ, Htotal. exact Hshift.
  - simpl. exact Htotal.
Qed.

(** X23. When the probe of the bizview raises, [get_bizview_count]
    returns count zero with the error text and tries no count at all. *)
Theorem inaccessible_bizview_counts_zero cfg w e w1 :
  truthy (bizview_table cfg) = true ->
  session ("SELECT 1 FROM " ++ py_str (bizview_table cfg) ++ " LIMIT 1") w = (Raises e, w1) ->
  get_bizview_count session cfg w
  = (Ret (0, "Bizview table access error: " ++ e), w1).
Proof.
  intros Hbt Hprobe.
  unfold get_bizview_count. rewrite Hbt.
  change (negb true) with false.
  unfold try_except, or_else, bind, sql.
  cbv beta iota zeta in Hprobe |- *.
  rewrite Hprobe. reflexivity.
Qed.

(** X24. The plain count of a bizview is only ever replaced by a larger
    one: [bizview_total_count] returns the count the engine answered to
    the plain [COUNT], or, for a count below 100, a larger estimate. *)
Theorem bizview_total_count_not_below_plain bizview_table w count query w' :
  bizview_total_count session bizview_table w = (Ret (count, query), w') ->
  exists rows w1 plain,
    session ("SELECT COUNT(*) FROM " ++ bizview_table) w = (Collect rows, w1) /\
    first_cell rows = Ret plain /\
    plain <= count /\
    (count = plain \/ plain < 100).
Proof.
  unfold bizview_total_count. intros H. cbv zeta in H.
  apply bind_Ret_inv in H as (rows & w1 & Hrows & H).
  apply bind_Ret_inv in H as (plain & w2 & Hcell & H).
  unfold sql in Hrows.
  destruct (session ("SELECT COUNT(*) FROM " ++ bizview_table) w) as [[e | rows'] w1'];
    [discriminate Hrows |].
  inversion Hrows. subst rows' w1'.
  unfold first_scalar in Hcell. inversion Hcell. subst w2.
  exists rows, w1, plain. split; [reflexivity |]. split; [assumption |].
  destruct (Z.ltb_spec plain 100) as [Hlow | Hhigh]; simpl in H.
  - destruct (PyStr.contains "FACT_" (PyStr.upper bizview_table)).
    + unfold or_else in H.
      apply bind_Ret_inv in H as (estimate & w3 & Hest & H).
      destruct estimate as [[c q] |].
      * apply ret_inv in H as [H _]. inversion H. subst c q.
        split; [| right; exact Hlow].
        apply try_except_Ret_inv in Hest as [Hest | (e & w4 & _ & Hest)];
          [| apply ret_inv in Hest as [Hest _]; discriminate Hest].
        apply bind_Ret_inv in Hest as (srows & w4 & _ & Hest).
        apply bind_Ret_inv in Hest as (sample_count & w5 & _ & Hest).
        destruct (plain <? sample_count);
          [| apply ret_inv in Hest as [Hest _]; discriminate Hest].
        apply try_except_Ret_inv in Hest as [Hest | (e & w6 & _ & Hest)];
          [| apply ret_inv in Hest as [Hest _]; discriminate Hest].
        apply bind_Ret_inv in Hest as (erows & w6 & _ & Hest).
        apply bind_Ret_inv in Hest as (expanded_count & w7 & _ & Hest).
        destruct (Z.ltb_spec plain expanded_count) as [Hlt | Hge];
          apply ret_inv in Hest as [Hest _]; [| discriminate Hest].
        inversion Hest. subst. lia.
      * apply ret_inv in H as [H _]. inversion H. subst.
        split; [lia | left; reflexivity].
    + apply ret_inv in H as [H _]. inversion H. subst.
      split; [lia | left; reflexivity].
  - apply ret_inv in H as [H _]. inversion H. subst.
    split; [lia | left; reflexivity].
Qed.

End CountProperties.

(** ** More on the bizview count *)

Section BizviewCountProperties.

Context {World : Type} (session : string -> World -> sql_result * World).

(** X25. For a bizview known to be large ([FACT_SALES],
    [FACT_TRANSACTIONS], by the upper-cased last part of its name) that
    answers the probe, the answer to the plain [COUNT] is returned as it
    is, also when it is below 100. *)
Theorem known_large_bizview_counted_directly cfg w probed w1 rows w2 count :
  truthy (bizview_table cfg) = true ->
  PyStr.mem (PyStr.upper (PyStr.last_component (py_str (bizview_table cfg))))
    ["FACT_SALES"; "FACT_TRANSACTIONS"] = true ->
  session ("SELECT 1 FROM " ++ py_str (bizview_table cfg) ++ " LIMIT 1") w
  = (Collect probed, w1) ->
  session ("SELECT COUNT(*) FROM " ++ py_str (bizview_table cfg)) w1 = (Collect rows, w2) ->
  first_cell rows = Ret count ->
  get_bizview_count session cfg w
  = (Ret (count, "SELECT COUNT(*) FROM " ++ py_str (bizview_table cfg)), w2).
Proof.
  intros Hbt Hlarge Hprobe Hcount Hcell.
  unfold get_bizview_count. rewrite Hbt.
  change (negb true) with false.
  unfold try_except, or_else, bind, sql, first_scalar.
  cbv beta iota zeta in Hprobe, Hcount |- *.
  rewrite Hprobe. cbv beta iota zeta. unfold ret at 1. cbv beta iota zeta.
  rewrite Hlarge. cbv beta iota zeta.
  rewrite Hcount. cbv beta iota zeta. rewrite Hcell. reflexivity.
Qed.

(** X26. For any other bizview with a key column that answers the probe,
    the distinct count of its non-null keys is returned when it is at
    least 100, or when the bizview is one of the small lookups
    ([DIM_SMALL_LOOKUP], [DIM_CONFIG]). *)
Theorem bizview_counted_by_key cfg w probed w1 rows w2 count :
  truthy (bizview_table cfg) = true ->
  PyStr.mem (PyStr.upper (PyStr.last_component (py_str (bizview_table cfg))))
    ["FACT_SALES"; "FACT_TRANSACTIONS"] = false ->
  truthy (bizview_key cfg) = true ->
  let count_query :=
    "SELECT COUNT(DISTINCT " ++ py_str (bizview_key cfg) ++ ") FROM "
      ++ py_str (bizview_table cfg) ++ " WHERE " ++ py_str (bizview_key cfg)
      ++ " IS NOT NULL" in
  session ("SELECT 1 FROM " ++ py_str (bizview_table cfg) ++ " LIMIT 1") w
  = (Collect probed, w1) ->
  session count_query w1 = (Collect rows, w2) ->
  first_cell rows = Ret count ->
  100 <= count \/
  PyStr.mem (PyStr.upper (PyStr.last_component (py_str (bizview_table cfg))))
    ["DIM_SMALL_LOOKUP"; "DIM_CONFIG"] = true ->
  get_bizview_count session cfg w = (Ret (count, count_query), w2).
Proof.
  intros Hbt Hlarge Hkey count_query Hprobe Hcount Hcell Hok.
  assert (Htest : ((count <? 100)
                   && negb (PyStr.mem
                              (PyStr.upper (PyStr.last_component (py_str (bizview_table cfg))))
                              ["DIM_SMALL_LOOKUP"; "DIM_CONFIG"]))%bool = false).
  { apply andb_false_iff. destruct Hok as [Hbig | Hsmall].
    - left. apply Z.ltb_ge. exact Hbig.
    - right. rewrite Hsmall. reflexivity. }
  unfold get_bizview_count. rewrite Hbt.
  change (negb true) with false.
  unfold try_except, or_else, bind, sql, first_scalar.
  subst count_query.
  cbv beta iota zeta in Hprobe, Hcount |- *.
  rewrite Hprobe. cbv beta iota zeta. unfold ret at 1. cbv beta iota zeta.
  rewrite Hlarge. cbv beta iota zeta. unfold ret at 1. cbv beta iota zeta.
  rewrite Hkey. cbv beta iota zeta.
  rewrite Hcount. cbv beta iota zeta. rewrite Hcell. cbv beta iota zeta.
  rewrite Htest. reflexivity.
Qed.

End BizviewCountProperties.

(** ** Letter case *)

Lemma lower_upper_char (c : ascii) :
  PyStr.lower_char (PyStr.upper_char c) = PyStr.lower_char c.
Proof. destruct c as [[] [] [] [] [] [] [] []]; reflexivity. Qed.

Lemma upper_lower_char (c : ascii) :
  PyStr.upper_char (PyStr.lower_char c) = PyStr.upper_char c.
Proof. destruct c as [[] [] [] [] [] [] [] []]; reflexivity. Qed.

Lemma lower_upper (s : string) : PyStr.lower (PyStr.upper s) = PyStr.lower s.
Proof.
  induction s as [| c s IH]; [reflexivity |].
  unfold PyStr.lower, PyStr.upper in *. simpl. rewrite lower_upper_char, IH. reflexivity.
Qed.

Lemma upper_lower (s : string) : PyStr.upper (PyStr.lower s) = PyStr.upper s.
Proof.
  induction s as [| c s IH]; [reflexivity |].
  unfold PyStr.lower, PyStr.upper in *. simpl. rewrite upper_lower_char, IH. reflexivity.
Qed.

(** X27. The tests on the message and on the satellite name do not
    depend on letter case: an upper-cased message is classified like the
    message itself, and a lower-cased satellite name counts as a current
    satellite exactly when the name itself does. *)
Theorem tests_ignore_letter_case (validation_message satellite_table : string) :
  mentions_representation (PyStr.upper validation_message)
  = mentions_representation validation_message /\
  mentions_key_only (PyStr.upper validation_message)
  = mentions_key_only validation_message /\
  current_satellite_name (PyStr.lower satellite_table)
  = current_satellite_name satellite_table.
Proof.
  unfold mentions_representation, mentions_key_only, current_satellite_name.
  rewrite lower_upper, upper_lower. repeat split.
Qed.

(** ** The table name of a report *)

Lemma contains_char_cons (c a : ascii) (t : string) :
  PyStr.contains (String c EmptyString) (String a t)
  = if ascii_dec c a then true else PyStr.contains (String c EmptyString) t.
Proof.
  cbn [PyStr.contains String.prefix].
  destruct (ascii_dec c a); [destruct t; reflexivity | reflexivity].
Qed.

Lemma rev_acc_no_char (c : ascii) (s acc : string) :
  PyStr.contains (String c EmptyString) s = false ->
  PyStr.contains (String c EmptyString) acc = false ->
  PyStr.contains (String c EmptyString) (PyStr.rev_acc s acc) = false.
Proof.
  revert acc. induction s as [| a s IH]; intros acc Hs Hacc; [exact Hacc |].
  rewrite contains_char_cons in Hs. destruct (ascii_dec c a) as [| Hne]; [discriminate Hs |].
  cbn [PyStr.rev_acc]. apply IH; [exact Hs |].
  rewrite contains_char_cons. destruct (ascii_dec c a); [contradiction | exact Hacc].
Qed.

Lemma rev_acc_append (s acc : string) :
  PyStr.rev_acc s acc = PyStr.rev_acc s EmptyString ++ acc.
Proof.
  revert acc. induction s as [| a s IH]; intros acc; [reflexivity |].
  cbn [PyStr.rev_acc]. rewrite (IH (String a acc)), (IH (String a EmptyString)).
  rewrite append_associative. reflexivity.
Qed.

Lemma split_acc_nonempty (sep : ascii) (s cur : string) :
  PyStr.split_acc sep s cur <> [].
Proof.
  revert cur. induction s as [| a s IH]; intros cur; cbn [PyStr.split_acc];
    [discriminate |].
  destruct (Ascii.eqb a sep); [discriminate | apply IH].
Qed.

Lemma last_cons_nonempty {A : Type} (x d : A) (l : list A) :
  l <> [] -> List.last (x :: l) d = List.last l d.
Proof. destruct l; [contradiction | reflexivity]. Qed.

(** The last field of a split holds no separator, and the text that was
    split is that field alone or some text, the separator and that
    field. *)
Lemma split_acc_last (sep : ascii) (s cur : string) :
  PyStr.contains (String sep EmptyString) cur = false ->
  let field := List.last (PyStr.split_acc sep s cur) EmptyString in
  PyStr.contains (String sep EmptyString) field = false /\
  (PyStr.rev cur ++ s = field \/
   exists before, PyStr.rev cur ++ s = before ++ String sep field).
Proof.
  revert cur. induction s as [| a s IH]; intros cur Hcur; cbn [PyStr.split_acc].
  - cbn [List.last]. split.
    + apply rev_acc_no_char; [exact Hcur | reflexivity].
    + left. apply append_empty.
  - destruct (Ascii.eqb a sep) eqn:Ha.
    + apply Ascii.eqb_eq in Ha. subst a.
      rewrite last_cons_nonempty by apply split_acc_nonempty.
      destruct (IH EmptyString eq_refl) as [Hno Hparts]. split; [exact Hno |].
      right. cbn [PyStr.rev PyStr.rev_acc append] in Hparts.
      destruct Hparts as [Hs | (before & Hs)].
      * exists (PyStr.rev cur). rewrite <- Hs. reflexivity.
      * exists (PyStr.rev cur ++ String sep before).
        rewrite append_associative. cbn [append]. rewrite <- Hs. reflexivity.
    + assert (Hcur' : PyStr.contains (String sep EmptyString) (String a cur) = false).
      { rewrite contains_char_cons. destruct (ascii_dec sep a) as [He | _]; [| exact Hcur].
        subst a. rewrite Ascii.eqb_refl in Ha. discriminate Ha. }
      destruct (IH (String a cur) Hcur') as [Hno Hparts]. split; [exact Hno |].
      assert (Hrev : PyStr.rev (String a cur) ++ s = PyStr.rev cur ++ String a s).
      { unfold PyStr.rev. cbn [PyStr.rev_acc].
        rewrite (rev_acc_append cur (String a EmptyString)).
        rewrite append_associative. reflexivity. }
      rewrite Hrev in Hparts. exact Hparts.
Qed.

(** X28. [TABLE_NAME] is the unqualified name of the source table: it
    holds no dot, and the source table name is either [TABLE_NAME] itself
    or some qualifier, a dot and [TABLE_NAME]. *)
Theorem table_name_is_unqualified (cfg : config)
    (source_count non_deleted_count deleted_count hub_count sat_count bizview_count raw : Z)
    (difference_records : list sample_entry) (validation_message : string) :
  let r := build_report cfg source_count non_deleted_count deleted_count
             hub_count sat_count bizview_count raw difference_records validation_message in
  PyStr.contains "." (TABLE_NAME r) = false /\
  (get_default "" (source_table cfg) = TABLE_NAME r \/
   exists qualifier,
     get_default "" (source_table cfg) = qualifier ++ "." ++ TABLE_NAME r).
Proof.
  intros r.
  assert (Hname : TABLE_NAME r = PyStr.last_component (get_default "" (source_table cfg))).
  { subst r. unfold build_report.
    destruct (classify raw validation_message non_deleted_count sat_count hub_count)
      as [[shd drd] msg']. reflexivity. }
  rewrite Hname. unfold PyStr.last_component, PyStr.split.
  exact (split_acc_last "." (get_default "" (source_table cfg)) EmptyString eq_refl).
Qed.

(** ** Where the message of the extractor comes from *)

Lemma map_chars_append (f : ascii -> ascii) (s t : string) :
  PyStr.map_chars f (s ++ t) = PyStr.map_chars f s ++ PyStr.map_chars f t.
Proof. induction s as [| c s IH]; simpl; [| rewrite IH]; reflexivity. Qed.

Lemma contains_not_here (k a : ascii) (sub t : string) :
  a <> k ->
  PyStr.contains (String k sub) (String a t) = PyStr.contains (String k sub) t.
Proof.
  intros Hne. cbn [PyStr.contains String.prefix].
  destruct (ascii_dec k a) as [He | _]; [symmetry in He; contradiction | reflexivity].
Qed.

(** The two error messages of the extractor mention key-only validation
    only if the error text they carry does. *)
Lemma mentions_key_only_counting_error (e : string) :
  mentions_key_only ("Error counting record differences: " ++ e) = mentions_key_only e.
Proof.
  unfold mentions_key_only, PyStr.lower. rewrite map_chars_append.
  change (PyStr.map_chars PyStr.lower_char "Error counting record differences: ")
    with "error counting record differences: ".
  cbn [append]. repeat rewrite contains_not_here by discriminate. reflexivity.
Qed.

Lemma mentions_key_only_validating_error (e : string) :
  mentions_key_only ("Error validating missing records: " ++ e) = mentions_key_only e.
Proof.
  unfold mentions_key_only, PyStr.lower. rewrite map_chars_append.
  change (PyStr.map_chars PyStr.lower_char "Error validating missing records: ")
    with "error validating missing records: ".
  cbn [append]. repeat rewrite contains_not_here by discriminate. reflexivity.
Qed.

Section MessageOrigin.

Context {World : Type} (session : string -> World -> sql_result * World).

(** The error texts of the engine do not mention key-only validation. *)
Hypothesis engine_texts :
  forall query w e w', session query w = (Raises e, w') -> mentions_key_only e = false.

Lemma sql_text query w e w' :
  sql session query w = (Exn e, w') -> mentions_key_only e = false.
Proof.
  unfold sql. destruct (session query w) as [[e0 | rows] w1] eqn:Hs; intros H;
    [| discriminate H].
  inversion H. subst. exact (engine_texts _ _ _ _ Hs).
Qed.

Lemma counted_text query w (out : outcome Z) w' :
  bind (sql session query) first_scalar w = (out, w') ->
  match out with Ret _ => True | Exn e => mentions_key_only e = false end.
Proof.
  unfold bind. destruct (sql session query w) as [[rows | e] w1] eqn:Hs.
  - unfold first_scalar. intros H. inversion H.
    destruct rows as [| [| c cells] rows]; simpl; exact I || reflexivity.
  - intros H. inversion H. subst. exact (sql_text _ _ _ _ Hs).
Qed.

Lemma validate_missing_records_message cfg missing_records_count w validated message w' :
  validate_missing_records session cfg missing_records_count w
  = (Ret (validated, message), w') ->
  mentions_key_only message = false.
Proof.
  unfold validate_missing_records.
  destruct (missing_records_count =? 0); [intros H; inversion H; reflexivity |].
  destruct (negb (truthy (source_key cfg))); [intros H; inversion H; reflexivity |].
  unfold try_except.
  destruct (custom_except_query cfg) as [q |].
  - unfold bind at 1. unfold ret at 1.
    change (fun x : string => ?f x) with f.
    match goal with
    | |- context [bind (sql session ?query) ?k w] =>
        destruct (bind (sql session query) first_scalar w) as [out w1] eqn:Hc
    end.
    pose proof (counted_text _ _ _ _ Hc) as Htext.
    unfold bind in Hc |- *.
    destruct (sql session (validation_query q) w) as [[rows | e] w2].
    + unfold first_scalar in Hc |- *. inversion Hc. subst out w1.
      destruct (first_cell rows) as [n | e]; intros H; inversion H; [reflexivity |].
      change (mentions_key_only ("Error validating missing records: " ++ e) = false).
      rewrite mentions_key_only_validating_error. exact Htext.
    + inversion Hc. subst out w1. intros H; inversion H.
      change (mentions_key_only ("Error validating missing records: " ++ e) = false).
      rewrite mentions_key_only_validating_error. exact Htext.
  - unfold bind, raise, ret. intros H; inversion H. reflexivity.
Qed.

Lemma key_only_check_text cfg source_table hub_tables missing_count validation_message w e w' :
  key_only_check session cfg source_table hub_tables missing_count validation_message w
  = (Exn e, w') ->
  mentions_key_only e = false.
Proof.
  unfold key_only_check.
  destruct (truthy (source_key cfg) && truthy (hub_key cfg))%bool;
    [| intros H; inversion H].
  destruct hub_tables as [| hub rest]; unfold bind, first_table, raise, ret.
  - intros H. inversion H. reflexivity.
  - unfold try_except, bind, sql, first_scalar, ret.
    destruct (session _ w) as [[e0 | rows] w1]; [intros H; inversion H |].
    destruct (first_cell rows) as [simplified_count | e0]; [| intros H; inversion H].
    destruct (key_check_confirms simplified_count missing_count);
      [destruct (simplified_count =? 0) |]; intros H; inversion H.
Qed.

(** After validation the message mentions representation differences or
    does not mention key-only validation; what validation raises does not
    mention it either. *)
Lemma validate_differences_message cfg source_table satellite_table hub_tables
    missing_count w out w' :
  validate_differences session cfg source_table satellite_table hub_tables missing_count w
  = (out, w') ->
  match out with
  | Ret (_, message) =>
      mentions_representation message = true \/ mentions_key_only message = false
  | Exn e => mentions_key_only e = false
  end.
Proof.
  unfold validate_differences. unfold bind at 1.
  assert (Hsrc : returns (compare_source_count session cfg source_table)).
  { unfold compare_source_count. repeat returns_step. }
  destruct (Hsrc w) as (source_count & w1 & ->).
  unfold bind at 1.
  assert (Hvault : returns (compare_vault_count session cfg satellite_table hub_tables)).
  { unfold compare_vault_count. repeat returns_step. }
  destruct (Hvault w1) as (vault_count & w2 & ->).
  unfold bind at 1.
  destruct (representation_heuristic source_count vault_count missing_count).
  - destruct (key_only_check session cfg source_table hub_tables missing_count
                (representation_message source_count vault_count missing_count) w2)
      as [[[count message] | e] w3] eqn:Hk.
    + pose proof (key_only_check_spec session _ _ _ _ _ _ _ _ Hk) as (_ & Hmsg).
      assert (Hm : mentions_representation message = true).
      { destruct Hmsg as [-> | (s & _ & ->)].
        - rewrite <- (append_empty (representation_message _ _ _)).
          apply representation_message_mentions.
        - apply representation_message_mentions. }
      assert (Hne : PyStr.nonempty message = true).
      { destruct Hmsg as [-> | (s & _ & ->)].
        - rewrite <- (append_empty (representation_message _ _ _)).
          apply representation_message_nonempty.
        - apply representation_message_nonempty. }
      rewrite Hne. simpl negb. cbv iota. intros H. inversion H. left. exact Hm.
    + intros H. inversion H. subst. exact (key_only_check_text _ _ _ _ _ _ _ _ Hk).
  - unfold ret at 1. cbv beta iota. unfold bind.
    change (negb (PyStr.nonempty "")) with true. cbv beta iota.
    destruct (validate_missing_records_returns session cfg missing_count w2)
      as ([validated message] & w3 & Hv).
    rewrite Hv. intros H. inversion H. right.
    exact (validate_missing_records_message _ _ _ _ _ _ Hv).
Qed.

Lemma count_and_validate_message cfg source_table satellite_table hub_tables q w handed w' :
  count_and_validate session cfg source_table satellite_table hub_tables q w
  = (Ret handed, w') ->
  match handed with
  | Return (_, _, message) => mentions_key_only message = false
  | Continue (_, message) =>
      mentions_representation message = true \/ mentions_key_only message = false
  end.
Proof.
  unfold count_and_validate, try_except. unfold bind at 1.
  destruct (sql session (except_count_query q) w) as [[rows | e] w1] eqn:Hs.
  - unfold bind at 1. unfold first_scalar at 1.
    destruct (first_cell rows) as [missing_count | e] eqn:Hc.
    + destruct (missing_count =? 0).
      * intros H. inversion H. reflexivity.
      * unfold bind.
        destruct (validate_differences session cfg source_table satellite_table hub_tables
                    missing_count w1) as [[[count message] | e] w2] eqn:Hv;
          pose proof (validate_differences_message _ _ _ _ _ _ _ _ Hv) as Hmsg;
          intros H; inversion H.
        -- exact Hmsg.
        -- change (mentions_key_only ("Error counting record differences: " ++ e) = false).
           rewrite mentions_key_only_counting_error. exact Hmsg.
    + intros H. inversion H.
      change (mentions_key_only ("Error counting record differences: " ++ e) = false).
      rewrite mentions_key_only_counting_error.
      destruct rows as [| [| c cells] rows]; simpl in Hc; inversion Hc. reflexivity.
  - intros H. inversion H.
    change (mentions_key_only ("Error counting record differences: " ++ e) = false).
    rewrite mentions_key_only_counting_error.
    exact (sql_text _ _ _ _ Hs).
Qed.

Lemma extract_missing_records_message cfg limit w count samples message w' :
  extract_missing_records session cfg limit w = (Ret (count, samples, message), w') ->
  mentions_representation message = true \/ mentions_key_only message = false.
Proof.
  intros H.
  destruct (truthy (custom_except_query cfg)) eqn:Hq.
  2:{ unfold extract_missing_records in H. rewrite Hq in H. simpl in H.
      apply ret_inv in H as [H _]. inversion H. right. reflexivity. }
  destruct (count_and_validate_returns session cfg
              (get_default "UNKNOWN_SOURCE" (source_table cfg))
              (get_default "UNKNOWN_SATELLITE" (cur_satellite_table cfg))
              (hub_table_list "UNKNOWN_HUB" cfg)
              (py_str (custom_except_query cfg)) w) as (handed & w1 & Hh).
  rewrite (extract_missing_records_from session cfg limit w handed w1 Hq Hh) in H.
  pose proof (count_and_validate_message _ _ _ _ _ _ _ _ Hh) as Hmsg.
  destruct handed as [[[c s] m] | [c m]].
  - inversion H. subst. right. exact Hmsg.
  - destruct ((c =? 0) || mentions_representation m)%bool.
    + inversion H. subst. exact Hmsg.
    + unfold collect_samples, try_except, bind, sql, ret in H.
      destruct (session _ w1) as [[e | rows] w2]; inversion H; subst.
      * right. reflexivity.
      * exact Hmsg.
Qed.

(** X29. On an engine whose error texts do not mention key-only
    validation, the pattern branch of the classifier is never taken:
    for every processed mapping [DATA_REPRESENTATION_DIFFERENCES] is the
    count the extractor returned and [SOURCE_TO_VAULT_DIFFERENCES] is that
    count or zero. *)
Theorem representation_field_on_plain_engine cfg w r w' :
  process_config session cfg w = (Ret (Some r), w') ->
  exists w5 raw difference_records validation_message,
    extract_missing_records session cfg 10 w5
    = (Ret (raw, difference_records, validation_message), w') /\
    (mentions_key_only validation_message = true ->
     mentions_representation validation_message = true) /\
    DATA_REPRESENTATION_DIFFERENCES r = raw /\
    (SOURCE_TO_VAULT_DIFFERENCES r = 0 \/ SOURCE_TO_VAULT_DIFFERENCES r = raw).
Proof.
  intros H.
  apply process_config_extraction in H
    as (w5 & raw & recs & msg & Hext & Hcls & _).
  exists w5, raw, recs, msg. split; [exact Hext |].
  pose proof (extract_missing_records_message _ _ _ _ _ _ _ Hext) as Hmsg.
  split.
  - intros Hkey. destruct Hmsg as [Hm | Hk]; [exact Hm | rewrite Hk in Hkey; discriminate].
  - destruct Hmsg as [Hm | Hk].
    + rewrite (classify_representation raw msg _ _ _ Hm) in Hcls. inversion Hcls.
      split; [reflexivity | left; reflexivity].
    + symmetry in Hcls.
      exact (classify_representation_side _ _ _ _ _ _ _ _ Hk Hcls).
Qed.

End MessageOrigin.

(* ===================================================================== *)
(** * Concrete runs *)
(* ===================================================================== *)

(** On an engine where every query raises, every mapping is skipped. *)
Example every_query_raises :
  main failing_engine [orders_config; customers_config] tt = (Ret [], tt).
Proof. vm_compute. reflexivity. Qed.

(** A mapping whose every query raises is left out; the mappings around
    it are reported. *)
Example failing_mapping_left_out :
  let session := table_engine (orders_answers 110 107 100 100 7 0 7) in
  exists r1 r2,
    main session [orders_config; customers_config; orders_config] tt = (Ret [r1; r2], tt) /\
    TABLE_NAME r1 = "ORDERS" /\ TABLE_NAME r2 = "ORDERS".
Proof.
  eexists. eexists. split; [vm_compute; reflexivity | split; reflexivity].
Qed.

(** C1, on the code. A mapping for which the extractor returns 7
    differences that nothing reclassifies: the report shows 7 in
    [SOURCE_TO_VAULT_DIFFERENCES] and 7 again in
    [DATA_REPRESENTATION_DIFFERENCES], so the two fields sum to 14 and
    not to the 7 the extractor returned. *)
Theorem unclassified_differences_counted_twice :
  let session := table_engine (orders_answers 110 107 100 100 7 0 7) in
  exists samples r,
    extract_missing_records session orders_config 10 tt
    = (Ret (7, samples, "All records verified"), tt) /\
    main session [orders_config] tt = (Ret [r], tt) /\
    SOURCE_TO_VAULT_DIFFERENCES r = 7 /\
    DATA_REPRESENTATION_DIFFERENCES r = 7 /\
    SOURCE_TO_VAULT_DIFFERENCES r + DATA_REPRESENTATION_DIFFERENCES r <> 7.
Proof.
  eexists. eexists.
  split; [vm_compute; reflexivity |].
  split; [vm_compute; reflexivity |].
  split; [reflexivity |]. split; [reflexivity |].
  vm_compute. discriminate.
Qed.

(** C2, against the claim as stated. The heuristic triggers (source 1000,
    vault 998, 50 differences) and the key-only count is 40, which is
    neither zero nor below a tenth of 50; the extractor still returns
    count 0, not 50, and its message is not "All records verified". *)
Lemma key_only_count_does_not_decide :
  let session := table_engine (orders_answers 1000 1000 998 998 50 40 10) in
  difference_count_reported session orders_config tt 50 /\
  compare_source_count session orders_config "SRC.S.ORDERS" tt = (Ret 1000, tt) /\
  compare_vault_count session orders_config "DV.RV.S_ORDER_LROC_INFO" ["DV.RV.H_ORDER"] tt
  = (Ret 998, tt) /\
  representation_heuristic 1000 998 50 = true /\
  session (simplified_check_query "ORDER_ID" "SRC.S.ORDERS" "IS_DELETED" "ORDER_HID"
             "DV.RV.H_ORDER") tt = (Collect [[40]], tt) /\
  key_check_confirms 40 50 = false /\
  exists message,
    extract_missing_records session orders_config 10 tt = (Ret (0, [], message), tt) /\
    0 <> 50 /\
    message <> "All records verified".
Proof.
  cbv zeta.
  split; [exists [[50]], tt; split; vm_compute; reflexivity |].
  split; [vm_compute; reflexivity |].
  split; [vm_compute; reflexivity |].
  split; [vm_compute; reflexivity |].
  split; [vm_compute; reflexivity |].
  split; [vm_compute; reflexivity |].
  eexists. split; [vm_compute; reflexivity |].
  split; discriminate.
Qed.

(** C5, against the claim as stated. The satellite is configured and its
    count is 0; with 100 non-deleted source rows and 100 hub rows the
    cross-check works with an expected difference of 0, not of
    [|100 - 0| = 100], and so moves all 20 reported differences to the
    representation side. *)
Lemma empty_satellite_falls_back_to_hub :
  let session := table_engine (orders_answers 100 100 100 0 20 0 10) in
  exists r,
    process_config session orders_config tt = (Ret (Some r), tt) /\
    truthy (cur_satellite_table orders_config) = true /\
    SOURCE_COUNT_NONDELETED r = 100 /\
    SATELLITE_COUNT r = 0 /\
    HUB_COUNT r = 100 /\
    expected_diff (SOURCE_COUNT_NONDELETED r) (SATELLITE_COUNT r) (HUB_COUNT r) = 0 /\
    expected_diff (SOURCE_COUNT_NONDELETED r) (SATELLITE_COUNT r) (HUB_COUNT r)
    <> Z.abs (SOURCE_COUNT_NONDELETED r - SATELLITE_COUNT r) /\
    count_comparison_difference (DATA_DISCREPANCY_DETAILS r) = 0 /\
    SOURCE_TO_VAULT_DIFFERENCES r = 0 /\
    DATA_REPRESENTATION_DIFFERENCES r = 20.
Proof.
  eexists. split; [vm_compute; reflexivity |].
  repeat split; try reflexivity.
  vm_compute. discriminate.
Qed.

(** C9, against the claim as stated. With 5000 differences, limit 10 and
    ten rows sampled, the summary entry reads "Showing 10 of 5000 total
    records with differences" and names no 4990; and a mapping with 5000
    differences whose counts are close (600000 against 599999) gets no
    sample at all. *)
Lemma sample_note_names_no_remainder :
  (let session := table_engine (orders_answers 6000 6000 1000 1000 5000 0 10) in
   difference_count_reported session orders_config tt 5000 /\
   exists samples message,
     extract_missing_records session orders_config 10 tt = (Ret (5000, samples, message), tt) /\
     List.length (filter is_difference_row samples) = 10%nat /\
     List.last samples (SampleError "" (sample_metadata orders_config))
     = SummaryNote "Showing 10 of 5000 total records with differences"
         "All records verified" (sample_metadata orders_config) /\
     PyStr.contains "4990" "Showing 10 of 5000 total records with differences" = false /\
     PyStr.contains "4990" message = false) /\
  (let session := table_engine (orders_answers 600000 600000 599999 599999 5000 0 10) in
   difference_count_reported session orders_config tt 5000 /\
   session (sample_query orders_except_query 10) tt = (Collect (some_rows 10), tt) /\
   exists message,
     extract_missing_records session orders_config 10 tt = (Ret (0, [], message), tt)).
Proof.
  split; cbv zeta.
  - split; [exists [[5000]], tt; split; vm_compute; reflexivity |].
    eexists. eexists. split; [vm_compute; reflexivity |].
    repeat split; vm_compute; reflexivity.
  - split; [exists [[5000]], tt; split; vm_compute; reflexivity |].
    split; [vm_compute; reflexivity |].
    eexists. vm_compute. reflexivity.
Qed.

(* ===================================================================== *)
(** * The theorems at concrete runs *)
(* ===================================================================== *)

(** The count invariant on a run with 110 source rows, 107 of them not
    deleted. *)
Lemma deleted_count_invariant_run :
  let session := table_engine (orders_answers 110 107 100 100 7 0 7) in
  exists r,
    process_config session orders_config tt = (Ret (Some r), tt) /\
    (SOURCE_COUNT_NONDELETED r + DELETED_RECORDS r = SOURCE_COUNT r /\
     (deleted_column orders_config = None ->
      DELETED_RECORDS r = 0 /\ SOURCE_COUNT_NONDELETED r = SOURCE_COUNT r)).
Proof.
  cbv zeta. eexists. split.
  - vm_compute. reflexivity.
  - apply (deleted_count_invariant
             (table_engine (orders_answers 110 107 100 100 7 0 7)) orders_config tt _ tt).
    vm_compute. reflexivity.
Defined.

(** The difference floor on a run whose difference query reports 7. *)
Lemma difference_floor_run :
  let session := table_engine (orders_answers 110 107 100 100 7 0 7) in
  (forall v, difference_count_reported session orders_config tt v -> 0 <= v) /\
  exists count samples message w',
    extract_missing_records session orders_config 10 tt
    = (Ret (count, samples, message), w') /\
    0 <= count /\
    (difference_count_reported session orders_config tt 0 -> count = 0 /\ samples = []).
Proof.
  cbv zeta.
  assert (Hnonneg : forall v,
             difference_count_reported
               (table_engine (orders_answers 110 107 100 100 7 0 7)) orders_config tt v ->
             0 <= v).
  { intros v (rows & w1 & Hs & Hc).
    vm_compute in Hs. inversion Hs. subst rows.
    vm_compute in Hc. inversion Hc. lia. }
  split; [exact Hnonneg |].
  exact (difference_floor
           (table_engine (orders_answers 110 107 100 100 7 0 7)) orders_config 10 tt Hnonneg).
Defined.

(** The satellite count of a current satellite with a hash key. *)
Lemma satellite_count_method_run :
  let session := table_engine (orders_answers 110 107 100 100 7 0 7) in
  exists r,
    process_config session orders_config tt = (Ret (Some r), tt) /\
    cur_satellite_table orders_config = Some "DV.RV.S_ORDER_LROC_INFO" /\
    PyStr.nonempty "DV.RV.S_ORDER_LROC_INFO" = true /\
    SATELLITE_COUNT r
    = answer_count
        (fst (session "SELECT COUNT(DISTINCT HK_H_ORDER) FROM DV.RV.S_ORDER_LROC_INFO" tt)).
Proof.
  cbv zeta. eexists. split; [vm_compute; reflexivity |].
  split; [reflexivity |]. split; [reflexivity |].
  destruct (satellite_count_method
              (table_engine (orders_answers 110 107 100 100 7 0 7)) orders_config tt _ tt
              "DV.RV.S_ORDER_LROC_INFO" ltac:(vm_compute; reflexivity) eq_refl eq_refl)
    as (w1 & counts & w2 & [] & raw & message & _ & _ & _ & Hsat & _).
  exact Hsat.
Defined.

(** The expected difference on a run with a configured satellite that is
    empty: the hub count is the reference, the expected difference is 0,
    and the override moves all 20 differences. *)
Lemma expected_diff_reference_run :
  let session := table_engine (orders_answers 100 100 100 0 20 0 10) in
  exists r,
    process_config session orders_config tt = (Ret (Some r), tt) /\
    truthy (cur_satellite_table orders_config) = true /\
    SOURCE_COUNT_NONDELETED r = 100 /\ SATELLITE_COUNT r = 0 /\ HUB_COUNT r = 100 /\
    count_comparison_difference (DATA_DISCREPANCY_DETAILS r) = 0 /\
    (SOURCE_TO_VAULT_DIFFERENCES r = 0 /\ DATA_REPRESENTATION_DIFFERENCES r = 20).
Proof.
  cbv zeta. eexists. split; [vm_compute; reflexivity |].
  split; [reflexivity |]. split; [reflexivity |]. split; [reflexivity |].
  split; [reflexivity |]. split; [reflexivity |].
  destruct (expected_diff_reference
              (table_engine (orders_answers 100 100 100 0 20 0 10)) orders_config tt _ tt
              ltac:(vm_compute; reflexivity))
    as ([] & raw & records & message & Hext & _ & _ & _ & Hcross).
  vm_compute in Hext. injection Hext as <- _ <-.
  destruct (Hcross 20 20 eq_refl) as (Hoverride & _).
  apply Hoverride; vm_compute; reflexivity.
Defined.

(** The triggered heuristic on a run with key-only count 3, less than a
    tenth of the 50 differences: the count is zero and the sentence of the
    key-only check is added to the message. *)
Lemma representation_heuristic_returns_zero_run :
  let session := table_engine (orders_answers 1000 1000 998 998 50 3 10) in
  representation_heuristic 1000 998 50 = true /\
  session (simplified_check_query "ORDER_ID" "SRC.S.ORDERS" "IS_DELETED" "ORDER_HID"
             "DV.RV.H_ORDER") tt = (Collect [[3]], tt) /\
  extract_missing_records session orders_config 10 tt
  = (Ret (0, [], representation_message 1000 998 50 ++ key_only_sentence 3), tt).
Proof.
  cbv zeta. split; [reflexivity |]. split; [vm_compute; reflexivity |].
  destruct (representation_heuristic_returns_zero
              (table_engine (orders_answers 1000 1000 998 998 50 3 10)) orders_config 10 tt
              [[50]] tt 50 1000 tt 998 tt
              ltac:(vm_compute; reflexivity) ltac:(vm_compute; reflexivity)
              ltac:(vm_compute; reflexivity) ltac:(vm_compute; reflexivity)
              ltac:(vm_compute; reflexivity) ltac:(vm_compute; reflexivity))
    as (message & [] & Hrun & _ & _ & _ & Hkey).
  destruct (Hkey "DV.RV.H_ORDER" [] eq_refl eq_refl) as (_ & Hmessage).
  vm_compute in Hmessage. destruct Hmessage as (Hadded & _).
  rewrite Hrun. rewrite (Hadded (or_intror eq_refl)). reflexivity.
Defined.

(** The sample cap on a run with 5000 differences and ten sampled rows. *)
Lemma sample_cap_run :
  let session := table_engine (orders_answers 6000 6000 1000 1000 5000 0 10) in
  let samples :=
    (map (fun r => DifferenceRow r (sample_metadata orders_config)) (some_rows 10)
     ++ [SummaryNote "Showing 10 of 5000 total records with differences"
           "All records verified" (sample_metadata orders_config)])%list in
  representation_heuristic 6000 1000 5000 = false /\
  mentions_representation "All records verified" = false /\
  extract_missing_records session orders_config 10 tt
  = (Ret (5000, samples, "All records verified"), tt) /\
  List.length (filter is_difference_row samples) = List.length (some_rows 10) /\
  (List.length (some_rows 10) = 10%nat -> List.length samples = 11%nat).
Proof.
  cbv zeta. split; [reflexivity |]. split; [reflexivity |].
  apply (sample_cap
           (table_engine (orders_answers 6000 6000 1000 1000 5000 0 10)) orders_config tt
           [[5000]] tt 6000 tt 1000 tt 5000 "All records verified" tt (some_rows 10) tt);
    vm_compute; reflexivity.
Defined.

(** The override on a run where the extractor returns 20 differences and
    the counts differ by 2. *)
Lemma classifier_override_run :
  let session := table_engine (orders_answers 1002 1002 1000 1000 20 0 10) in
  exists r,
    process_config session unflagged_config tt = (Ret (Some r), tt) /\
    classify_split 20 "All records verified" = (20, 20) /\
    expected_diff (SOURCE_COUNT_NONDELETED r) (SATELLITE_COUNT r) (HUB_COUNT r) = 2 /\
    SOURCE_TO_VAULT_DIFFERENCES r = 0 /\
    DATA_REPRESENTATION_DIFFERENCES r = 20.
Proof.
  cbv zeta. eexists. split; [vm_compute; reflexivity |].
  split; [reflexivity |]. split; [reflexivity |].
  destruct (classifier_override
              (table_engine (orders_answers 1002 1002 1000 1000 20 0 10)) unflagged_config
              tt _ tt ltac:(vm_compute; reflexivity))
    as ([] & raw & records & message & Hext & Hoverride).
  vm_compute in Hext. inversion Hext. subst raw message.
  apply (Hoverride 20); reflexivity.
Defined.

(** The suppression for [BIZ.V.FACT_SALES] against 1000 non-deleted
    source rows. *)
Lemma fact_sales_filtering_suppressed_run :
  bizview_name_of "BIZ.V.FACT_SALES" = "fact_sales" /\
  fst (bizview_reference Fact "" 0 0 1000) = 1000 /\
  exists c,
    bizview_reconcile "BIZ.V.FACT_SALES" "" 0 0 1000 600 = Ret c /\
    bc_kind c = Fact /\
    bc_reference_count c = 1000 /\
    bc_raw_difference c = 400 /\
    bc_direction c = BizviewSmaller /\
    bc_threshold c = 200 /\
    filtering_pattern (bizview_name_of "BIZ.V.FACT_SALES") = true /\
    ratio_below_95 400 1000 = Ret true /\
    bc_missing c = 0.
Proof.
  split; [reflexivity |]. split; [reflexivity |].
  apply (fact_sales_filtering_suppressed "BIZ.V.FACT_SALES" "" 0 0 1000); reflexivity.
Defined.

(* ===================================================================== *)
(** * The further theorems at concrete runs *)
(* ===================================================================== *)

Lemma empty_bizview_reports_reference_run :
  0 < fst (bizview_reference (bizview_kind_of (bizview_name_of "BIZ.V.DIM_CUSTOMER"))
             "" 500 0 0) /\
  exists c,
    bizview_reconcile "BIZ.V.DIM_CUSTOMER" "" 500 0 0 0 = Ret c /\
    bc_reference_count c = 500 /\
    bc_missing c = 500.
Proof.
  split; [reflexivity |].
  apply (empty_bizview_reports_reference "BIZ.V.DIM_CUSTOMER" "" 500 0 0). reflexivity.
Defined.

Lemma bizview_reconcile_yields_run :
  0 <= 600 /\
  exists c, bizview_reconcile "BIZ.V.FACT_SALES" "" 0 0 0 600 = Ret c.
Proof.
  split; [lia |].
  apply (bizview_reconcile_yields "BIZ.V.FACT_SALES" "" 0 0 0 600). lia.
Defined.

Lemma bizview_missing_is_zero_or_raw_difference_run :
  exists c,
    bizview_reconcile "BIZ.V.DIM_CUSTOMER" "" 500 0 0 420 = Ret c /\
    (bc_raw_difference c = Z.abs (bc_reference_count c - 420) /\
     (bc_missing c = 0 \/ bc_missing c = bc_raw_difference c) /\
     0 <= bc_missing c /\
     5 <= bc_threshold c).
Proof.
  eexists. split; [vm_compute; reflexivity |].
  apply (bizview_missing_is_zero_or_raw_difference "BIZ.V.DIM_CUSTOMER" "" 500 0 0 420).
  vm_compute. reflexivity.
Defined.

Lemma bizview_within_threshold_not_reported_run :
  490 <> 0 /\
  Z.abs (500 - 490) <= bizview_threshold Dimension 500 /\
  exists c,
    bizview_reconcile "BIZ.V.DIM_CUSTOMER" "" 500 0 0 490 = Ret c /\ bc_missing c = 0.
Proof.
  split; [discriminate |]. split; [vm_compute; discriminate |].
  apply (bizview_within_threshold_not_reported "BIZ.V.DIM_CUSTOMER" "" 500 0 0 490);
    [discriminate | vm_compute; discriminate].
Defined.

Lemma bizview_excess_reported_run :
  1000 + bizview_threshold Fact 1000 < 1300 /\
  exists c,
    bizview_reconcile "BIZ.V.FACT_SALES" "" 0 0 1000 1300 = Ret c /\
    bc_direction c = BizviewLarger /\
    bc_missing c = 1300 - 1000.
Proof.
  split; [reflexivity |].
  apply (bizview_excess_reported "BIZ.V.FACT_SALES" "" 0 0 1000 1300). reflexivity.
Defined.

Lemma bizview_shortfall_suppressed_only_by_pattern_run :
  0 < 400 /\
  bizview_threshold Dimension 500 < 500 - 400 /\
  exists c,
    bizview_reconcile "BIZ.V.DIM_CUSTOMER" "" 500 0 0 400 = Ret c /\
    bc_direction c = BizviewSmaller /\
    (bc_missing c = 0 \/ bc_missing c = 500 - 400) /\
    (bc_missing c = 0 <->
     filtering_pattern (bizview_name_of "BIZ.V.DIM_CUSTOMER") = true /\
     20 * (500 - 400) < 19 * 500).
Proof.
  split; [reflexivity |]. split; [reflexivity |].
  apply (bizview_shortfall_suppressed_only_by_pattern "BIZ.V.DIM_CUSTOMER" "" 500 0 0 400);
    reflexivity.
Defined.

Lemma cross_check_overrides_on_small_gap_run :
  expected_diff 1003 1000 0 < 5 /\
  10 < 40 /\
  exists message, cross_check 40 40 "All records verified" 1003 1000 0 = (0, 40, message).
Proof.
  split; [reflexivity |]. split; [reflexivity |].
  apply (cross_check_overrides_on_small_gap 40 40 "All records verified" 1003 1000 0);
    reflexivity.
Defined.

Lemma cross_check_keeps_or_moves_run :
  cross_check 7 7 "All records verified" 107 100 100 = (7, 7, "All records verified") /\
  ((7 = 7 /\ 7 = 7) \/ (7 = 0 /\ 7 = 7 /\ 10 < 7)) /\
  String.prefix "All records verified" "All records verified" = true /\
  (7 <= 0 -> "All records verified" = "All records verified").
Proof.
  split; [reflexivity |].
  apply (cross_check_keeps_or_moves 7 7 "All records verified" 107 100 100). reflexivity.
Defined.

Lemma key_only_count_read_back_run :
  0 <= 3 /\
  PyStr.search_found_only (representation_message 1000 998 50 ++ key_only_sentence 3)
  = Some 3.
Proof.
  split; [lia |].
  apply (key_only_count_read_back 1000 998 50 3). lia.
Defined.

Lemma extracted_count_agrees_with_message_run :
  let session := table_engine (orders_answers 1000 1000 998 998 50 0 10) in
  exists message,
    extract_missing_records session orders_config 10 tt = (Ret (0, [], message), tt) /\
    (mentions_representation message = true -> 0 = 0 /\ @nil sample_entry = []) /\
    (0 <> 0 -> mentions_representation message = false).
Proof.
  cbv zeta. eexists. split; [vm_compute; reflexivity |].
  apply (extracted_count_agrees_with_message
           (table_engine (orders_answers 1000 1000 998 998 50 0 10)) orders_config 10 tt
           0 [] _ tt).
  vm_compute. reflexivity.
Defined.

Lemma sample_list_shape_run :
  let session := table_engine (orders_answers 6000 6000 1000 1000 5000 0 10) in
  exists samples,
    extract_missing_records session orders_config 10 tt
    = (Ret (5000, samples, "All records verified"), tt) /\
    (5000 = 0 -> filter is_difference_row samples = []) /\
    exists rows tail,
      samples = (map (fun r => DifferenceRow r (sample_metadata orders_config)) rows
                 ++ tail)%list /\
      (List.length tail <= 1)%nat /\
      filter is_difference_row tail = [].
Proof.
  cbv zeta. eexists. split; [vm_compute; reflexivity |].
  apply (sample_list_shape
           (table_engine (orders_answers 6000 6000 1000 1000 5000 0 10)) orders_config 10 tt
           5000 _ "All records verified" tt).
  vm_compute. reflexivity.
Defined.

Lemma failed_difference_count_degrades_run :
  truthy (custom_except_query orders_config) = true /\
  failing_engine (except_count_query (py_str (custom_except_query orders_config))) tt
  = (Raises "connection lost", tt) /\
  extract_missing_records failing_engine orders_config 10 tt
  = (Ret (0, [], "Error counting record differences: " ++ "connection lost"), tt).
Proof.
  split; [reflexivity |]. split; [reflexivity |].
  apply (failed_difference_count_degrades failing_engine orders_config 10 tt
           "connection lost" tt); reflexivity.
Defined.

Lemma failed_sample_keeps_count_run :
  let session := table_engine (orders_answers_unsampled 110 107 100 100 7 0) in
  representation_heuristic 107 100 7 = false /\
  session (sample_query (py_str (custom_except_query orders_config))
             (sample_limit_for 10 7)) tt
  = (Raises "SQL compilation error: object does not exist", tt) /\
  extract_missing_records session orders_config 10 tt
  = (Ret (7,
          [SampleError
             ("Error collecting sample records: "
                ++ "SQL compilation error: object does not exist")
             (sample_metadata orders_config)],
          "Failed to collect samples"), tt).
Proof.
  cbv zeta. split; [reflexivity |]. split; [vm_compute; reflexivity |].
  apply (failed_sample_keeps_count
           (table_engine (orders_answers_unsampled 110 107 100 100 7 0)) orders_config 10 tt
           [[7]] tt 7 107 tt 100 tt 7 "All records verified" tt
           "SQL compilation error: object does not exist" tt);
    try (vm_compute; reflexivity).
  discriminate.
Defined.

Lemma reclassified_differences_are_dropped_run :
  let session := table_engine (orders_answers 1000 1000 998 998 50 0 10) in
  exists r,
    process_config session orders_config tt = (Ret (Some r), tt) /\
    SOURCE_TO_VAULT_DIFFERENCES r = 0 /\
    DATA_REPRESENTATION_DIFFERENCES r = 0.
Proof.
  cbv zeta. eexists. split; [vm_compute; reflexivity |].
  destruct (reclassified_differences_are_dropped
              (table_engine (orders_answers 1000 1000 998 998 50 0 10)) orders_config
              tt _ tt ltac:(vm_compute; reflexivity))
    as ([] & raw & records & message & Hext & Hdrop).
  vm_compute in Hext. inversion Hext. subst raw records message.
  destruct (Hdrop ltac:(vm_compute; reflexivity)) as (Hshd & Hdrd & _).
  split; assumption.
Defined.

Lemma representation_field_is_extracted_count_run :
  let session := table_engine (orders_answers 110 107 100 100 7 0 7) in
  exists r,
    process_config session orders_config tt = (Ret (Some r), tt) /\
    mentions_key_only "All records verified" = false /\
    DATA_REPRESENTATION_DIFFERENCES r = 7 /\
    (SOURCE_TO_VAULT_DIFFERENCES r = 0 \/ SOURCE_TO_VAULT_DIFFERENCES r = 7).
Proof.
  cbv zeta. eexists. split; [vm_compute; reflexivity |].
  split; [reflexivity |].
  destruct (representation_field_is_extracted_count
              (table_engine (orders_answers 110 107 100 100 7 0 7)) orders_config
              tt _ tt ltac:(vm_compute; reflexivity))
    as ([] & raw & records & message & Hext & Hfield).
  vm_compute in Hext. inversion Hext. subst raw records message.
  apply Hfield. reflexivity.
Defined.

Lemma mapping_without_difference_query_run :
  let session := table_engine (orders_answers 110 107 100 100 7 0 7) in
  session "SELECT 1 FROM SRC.S.ORDERS LIMIT 1" tt = (Collect [[1]], tt) /\
  truthy (custom_except_query unqueried_config) = false /\
  exists r w',
    process_config session unqueried_config tt = (Ret (Some r), w') /\
    main_loop session [unqueried_config] tt = (Ret [r], w') /\
    SOURCE_TABLE r = source_table unqueried_config /\
    SOURCE_TO_VAULT_DIFFERENCES r = 0 /\
    DATA_REPRESENTATION_DIFFERENCES r = 0 /\
    VALIDATION_MESSAGE r = "No EXCEPT query defined" /\
    data_differences_records (DATA_DISCREPANCY_DETAILS r) = [].
Proof.
  cbv zeta. split; [vm_compute; reflexivity |].
  split; [reflexivity |].
  apply (mapping_without_difference_query
           (table_engine (orders_answers 110 107 100 100 7 0 7)) unqueried_config tt [[1]] tt);
    [vm_compute; reflexivity | reflexivity].
Defined.

Lemma bizview_missing_records_not_negative_run :
  let session := table_engine customers_answers_without_bizview in
  exists r,
    process_config session customers_config tt = (Ret (Some r), tt) /\
    (0 <= BIZVIEW_MISSING_RECORDS r /\
     (truthy (bizview_table customers_config) = false ->
      BIZVIEW_MISSING_RECORDS r = 0 /\ BIZVIEW_COUNT r = 0 /\
      bizview_details (DATA_DISCREPANCY_DETAILS r) = None)).
Proof.
  cbv zeta. eexists. split; [vm_compute; reflexivity |].
  apply (bizview_missing_records_not_negative
           (table_engine customers_answers_without_bizview) customers_config tt _ tt).
  vm_compute. reflexivity.
Defined.

Lemma zero_bizview_count_reports_reference_run :
  let session := table_engine customers_answers_without_bizview in
  exists r,
    process_config session customers_config tt = (Ret (Some r), tt) /\
    truthy (bizview_table customers_config) = true /\
    BIZVIEW_COUNT r = 0 /\
    HUB_COUNT r = 50 /\
    BIZVIEW_MISSING_RECORDS r = 50.
Proof.
  cbv zeta. eexists. split; [vm_compute; reflexivity |].
  split; [reflexivity |]. split; [reflexivity |]. split; [reflexivity |].
  pose proof (zero_bizview_count_reports_reference
                (table_engine customers_answers_without_bizview) customers_config tt _ tt
                ltac:(vm_compute; reflexivity) eq_refl) as Hreported.
  exact (Hreported eq_refl eq_refl).
Defined.

Lemma main_with_every_query_raising_run :
  (forall query w0, exists e w1, failing_engine query w0 = (Raises e, w1)) /\
  exists w', main failing_engine [orders_config; customers_config; sales_config] tt
             = (Ret [], w').
Proof.
  assert (Hraise : forall query (w0 : unit),
             exists e w1, failing_engine query w0 = (Raises e, w1)).
  { intros query w0. exists "connection lost", w0. reflexivity. }
  split; [exact Hraise |].
  exact (main_with_every_query_raising failing_engine
           [orders_config; customers_config; sales_config] tt Hraise).
Defined.

Lemma inaccessible_bizview_counts_zero_run :
  let session := table_engine customers_answers_without_bizview in
  truthy (bizview_table customers_config) = true /\
  session ("SELECT 1 FROM " ++ py_str (bizview_table customers_config) ++ " LIMIT 1") tt
  = (Raises "SQL compilation error: object does not exist", tt) /\
  get_bizview_count session customers_config tt
  = (Ret (0, "Bizview table access error: "
               ++ "SQL compilation error: object does not exist"), tt).
Proof.
  cbv zeta. split; [reflexivity |]. split; [vm_compute; reflexivity |].
  apply (inaccessible_bizview_counts_zero
           (table_engine customers_answers_without_bizview) customers_config tt
           "SQL compilation error: object does not exist" tt);
    [reflexivity | vm_compute; reflexivity].
Defined.

Lemma bizview_total_count_not_below_plain_run :
  let session := table_engine returns_bizview_answers in
  bizview_total_count session "BIZ.V.FACT_RETURNS" tt
  = (Ret (7000, "SELECT COUNT(*) FROM (SELECT * FROM BIZ.V.FACT_RETURNS LIMIT 1000000)"), tt)
  /\
  exists rows w1 plain,
    session ("SELECT COUNT(*) FROM " ++ "BIZ.V.FACT_RETURNS") tt = (Collect rows, w1) /\
    first_cell rows = Ret plain /\
    plain <= 7000 /\
    (7000 = plain \/ plain < 100).
Proof.
  cbv zeta. split; [vm_compute; reflexivity |].
  apply (bizview_total_count_not_below_plain
           (table_engine returns_bizview_answers) "BIZ.V.FACT_RETURNS" tt 7000
           "SELECT COUNT(*) FROM (SELECT * FROM BIZ.V.FACT_RETURNS LIMIT 1000000)" tt).
  vm_compute. reflexivity.
Defined.

Lemma known_large_bizview_counted_directly_run :
  let session := table_engine sales_bizview_answers in
  PyStr.mem (PyStr.upper (PyStr.last_component (py_str (bizview_table sales_config))))
    ["FACT_SALES"; "FACT_TRANSACTIONS"] = true /\
  get_bizview_count session sales_config tt
  = (Ret (42, "SELECT COUNT(*) FROM " ++ py_str (bizview_table sales_config)), tt).
Proof.
  cbv zeta. split; [reflexivity |].
  apply (known_large_bizview_counted_directly
           (table_engine sales_bizview_answers) sales_config tt [[1]] tt [[42]] tt 42);
    try reflexivity; vm_compute; reflexivity.
Defined.

Lemma bizview_counted_by_key_run :
  let session := table_engine customers_bizview_answers in
  100 <= 250 /\
  get_bizview_count session customers_config tt
  = (Ret (250,
          "SELECT COUNT(DISTINCT " ++ py_str (bizview_key customers_config) ++ ") FROM "
            ++ py_str (bizview_table customers_config) ++ " WHERE "
            ++ py_str (bizview_key customers_config) ++ " IS NOT NULL"), tt).
Proof.
  cbv zeta. split; [lia |].
  apply (bizview_counted_by_key
           (table_engine customers_bizview_answers) customers_config tt [[1]] tt [[250]] tt 250);
    try reflexivity; try (vm_compute; reflexivity).
  left. lia.
Defined.

Lemma table_engine_texts (answers : list (string * sql_result)) :
  Forall (fun a => match snd a with Raises e => mentions_key_only e = false | _ => True end)
    answers ->
  forall query (w : unit) e w',
    table_engine answers query w = (Raises e, w') -> mentions_key_only e = false.
Proof.
  intros Hall query w e w'. unfold table_engine.
  destruct (find (fun a => String.eqb (fst a) query) answers) as [[q r] |] eqn:Hfind.
  - apply find_some in Hfind as [Hin _].
    rewrite Forall_forall in Hall. specialize (Hall _ Hin). simpl in Hall.
    intros H. inversion H. subst r. exact Hall.
  - intros H. inversion H. reflexivity.
Qed.

Lemma representation_field_on_plain_engine_run :
  let session := table_engine (orders_answers 110 107 100 100 7 0 7) in
  (forall query w e w', session query w = (Raises e, w') -> mentions_key_only e = false) /\
  exists r,
    process_config session orders_config tt = (Ret (Some r), tt) /\
    DATA_REPRESENTATION_DIFFERENCES r = 7 /\
    (SOURCE_TO_VAULT_DIFFERENCES r = 0 \/ SOURCE_TO_VAULT_DIFFERENCES r = 7).
Proof.
  cbv zeta.
  assert (Htexts : forall query (w : unit) e w',
             table_engine (orders_answers 110 107 100 100 7 0 7) query w = (Raises e, w') ->
             mentions_key_only e = false).
  { apply table_engine_texts. repeat constructor. }
  split; [exact Htexts |].
  eexists. split; [vm_compute; reflexivity |].
  destruct (representation_field_on_plain_engine
              (table_engine (orders_answers 110 107 100 100 7 0 7)) Htexts orders_config
              tt _ tt ltac:(vm_compute; reflexivity))
    as ([] & raw & records & message & Hext & _ & Hdrd & Hshd).
  vm_compute in Hext. inversion Hext. subst raw records message.
  split; assumption.
Defined.
